(** * Financial-Document-Intelligence: rule-based extraction and validation

  A shallow embedding of

  - [backend/services/excel_to_json_converter.py] (class
    [ExcelToJSONConverter]: structure detection, metadata, transaction
    extraction, summary, and [convert] from the loaded data frame on),
  - [backend/services/validators/validation_models.py]
    ([ValidationResult], [AggregatedValidationResult]),
  - [backend/services/validators/balance_validator.py]
    (class [BalanceValidator], single-statement checks),
  - [backend/services/validators/date_validator.py]
    (class [DateSequencingValidator], single-statement checks),

  together with the Python built-ins those functions call.

  Conventions of the embedding.

  - A Python [float] is a primitive binary64 [float]; [float(str)],
    [repr] and [round(x, 2)] are modelled through exact integer arithmetic
    on the value [Prim2SF] exposes.
  - A [decimal.Decimal] is a coefficient and a power of ten, or NaN;
    sums and differences round to the 28 significant digits of the default
    context, half-even.  The sign of a zero is not kept.
  - A Python exception is a value of [PyExn]; code that can raise returns
    [Exc A] and [try / except Exception] is [catch].
  - A Python [str] is the sequence of its UTF-8 bytes.  Case mapping,
    whitespace, digits and word characters are the ASCII ones: text whose
    non-ASCII characters are whitespace, digits, letters next to a number,
    or change under [upper] / [lower] is outside the model.
  - A dictionary with string keys is a [gmap string _]; where the order of
    insertion matters (the results handed to the aggregate) it is an
    association list.
  - Libraries outside the repository whose behaviour is not fixed by the
    code are parameters: the date parser of pandas ([pd.to_datetime]) for
    the extractor, and the [datetime] values, parser, clock and order for
    the date validator.
  - Log messages and the text of issue messages are not modelled. *)

From Stdlib Require Import ZArith Floats String Ascii List Lia Bool.
From stdpp Require Import base option list gmap strings.

#[local] Set Warnings "-register-all,-inexact-float".
#[local] Open Scope string_scope.
#[local] Open Scope Z_scope.

(** ** Python text *)

Module PyText.

Definition is_space (c : ascii) : bool :=
  let n := nat_of_ascii c in
  ((9 <=? n)%nat && (n <=? 13)%nat) || ((28 <=? n)%nat && (n <=? 32)%nat).

Definition is_digit (c : ascii) : bool :=
  let n := nat_of_ascii c in (48 <=? n)%nat && (n <=? 57)%nat.

Definition is_upper (c : ascii) : bool :=
  let n := nat_of_ascii c in (65 <=? n)%nat && (n <=? 90)%nat.

Definition is_lower (c : ascii) : bool :=
  let n := nat_of_ascii c in (97 <=? n)%nat && (n <=? 122)%nat.

(** [\w] of the [re] module, ASCII part. *)
Definition is_word (c : ascii) : bool :=
  is_digit c || is_upper c || is_lower c || Ascii.eqb c "_".

Definition lower_char (c : ascii) : ascii :=
  if is_upper c then ascii_of_nat (nat_of_ascii c + 32) else c.

Definition upper_char (c : ascii) : ascii :=
  if is_lower c then ascii_of_nat (nat_of_ascii c - 32) else c.

Fixpoint map_chars (f : ascii -> ascii) (s : string) : string :=
  match s with
  | EmptyString => EmptyString
  | String c s' => String (f c) (map_chars f s')
  end.

(** [s.lower()] and [s.upper()]. *)
Definition lower : string -> string := map_chars lower_char.
Definition upper : string -> string := map_chars upper_char.

Fixpoint startswith (p s : string) : bool :=
  match p, s with
  | EmptyString, _ => true
  | String a p', String b s' => Ascii.eqb a b && startswith p' s'
  | String _ _, EmptyString => false
  end.

(** [sub in s]. *)
Fixpoint contains (sub s : string) : bool :=
  startswith sub s ||
  match s with
  | EmptyString => false
  | String _ s' => contains sub s'
  end.

Fixpoint replace_from (old new : string) (skip : nat) (s : string) : string :=
  match s with
  | EmptyString => EmptyString
  | String c s' =>
      match skip with
      | S k => replace_from old new k s'
      | O =>
          if startswith old s
          then new ++ replace_from old new (Nat.pred (String.length old)) s'
          else String c (replace_from old new 0 s')
      end
  end.

(** [s.replace(old, new)] for a non-empty [old]: occurrences are taken
    left to right and do not overlap. *)
Definition replace (old new s : string) : string := replace_from old new 0 s.

Fixpoint lstrip (s : string) : string :=
  match s with
  | String c s' => if is_space c then lstrip s' else s
  | EmptyString => EmptyString
  end.

Fixpoint rstrip (s : string) : string :=
  match s with
  | EmptyString => EmptyString
  | String c s' =>
      match rstrip s' with
      | EmptyString => if is_space c then EmptyString else String c EmptyString
      | t => String c t
      end
  end.

(** [s.strip()]. *)
Definition strip (s : string) : string := rstrip (lstrip s).

(** [sep.join(parts)]. *)
Fixpoint join (sep : string) (parts : list string) : string :=
  match parts with
  | [] => EmptyString
  | [p] => p
  | p :: rest => p ++ sep ++ join sep rest
  end.

Definition digit_char (d : Z) : ascii := ascii_of_nat (48 + Z.to_nat d).

Fixpoint digits_fuel (fuel : nat) (n : Z) (acc : string) : string :=
  match fuel with
  | O => acc
  | S k =>
      let acc' := String (digit_char (n mod 10)) acc in
      if n <? 10 then acc' else digits_fuel k (n / 10) acc'
  end.

(** The decimal digits of a natural number [n >= 0]. *)
Definition digits_of (n : Z) : string :=
  digits_fuel (S (Z.to_nat (Z.log2 n))) n EmptyString.

(** [str(n)] for a Python [int]. *)
Definition str_int (n : Z) : string :=
  if n <? 0 then String "-" (digits_of (- n)) else digits_of n.

(** Left padding with zeros, as [%02d] and [%04d] do. *)
Fixpoint zfill_fuel (fuel : nat) (s : string) : string :=
  match fuel with
  | O => s
  | S k => String "0" (zfill_fuel k s)
  end.

Definition zfill (width : nat) (s : string) : string :=
  zfill_fuel (width - String.length s) s.

Definition digit_val (c : ascii) : Z := Z.of_nat (nat_of_ascii c) - 48.

(** The number a string of decimal digits denotes. *)
Fixpoint digits_value (acc : Z) (s : string) : Z :=
  match s with
  | EmptyString => acc
  | String c s' => digits_value (10 * acc + digit_val c) s'
  end.

Fixpoint all_digits (s : string) : bool :=
  match s with
  | EmptyString => true
  | String c s' => is_digit c && all_digits s'
  end.

End PyText.

(** ** Python floats *)

Module PyFloat.

#[local] Open Scope Z_scope.

(** [n / d] scaled by [2^-e], as a fraction. *)
Definition scaled (n d e : Z) : Z * Z :=
  if 0 <=? e then (n, d * 2 ^ e) else (n * 2 ^ (- e), d).

(** Round [x / y] to the nearest integer, ties to even. *)
Definition round_half_even (x y : Z) : Z :=
  let q := x / y in
  let r := x mod y in
  if (y <? 2 * r) || ((y =? 2 * r) && Z.odd q) then q + 1 else q.

(** The binary64 value nearest to [n / d] for [d > 0], ties to even;
    infinity past the largest finite value, as C's [strtod] gives. *)
Definition of_ratio (n d : Z) : float :=
  if n =? 0 then 0%float
  else
    let a := Z.abs n in
    let e0 := Z.log2 a - Z.log2 d - 53 in
    let '(x0, y0) := scaled a d e0 in
    let e1 := if x0 / y0 <? 2 ^ 53 then e0 else e0 + 1 in
    let e := Z.max e1 (-1074) in
    let '(x, y) := scaled a d e in
    let m := round_half_even x y in
    let f := Z.ldexp (PrimFloat.of_uint63 (Uint63.of_Z m)) e in
    if n <? 0 then (- f)%float else f.

(** [c * 10^x] as a float. *)
Definition of_decimal (c x : Z) : float :=
  if 0 <=? x then of_ratio (c * 10 ^ x) 1 else of_ratio c (10 ^ (- x)).

(** The exact value [m * 2^e] of a finite float. *)
Definition exact (f : float) : option (Z * Z) :=
  match Prim2SF f with
  | S754_zero _ => Some (0, 0)
  | S754_finite s m e => Some (if s then Z.neg m else Z.pos m, e)
  | S754_infinity _ | S754_nan => None
  end.

Definition is_negative (f : float) : bool :=
  match Prim2SF f with
  | S754_zero s | S754_infinity s | S754_finite s _ _ => s
  | S754_nan => false
  end.

Definition is_finite (f : float) : bool :=
  match exact f with Some _ => true | None => false end.

(** [x > y] on floats: false whenever a NaN is involved. *)
Definition gt (x y : float) : bool := PrimFloat.ltb y x.

(** [float(n)] for a Python [int]: [OverflowError] when the result is not
    finite. *)
Definition of_int (n : Z) : option float :=
  let f := of_ratio n 1 in
  if is_finite f then Some f else None.

(** *** [float(s)] *)

Fixpoint span_digits (s : string) : string * string :=
  match s with
  | String c s' =>
      if PyText.is_digit c
      then let '(ds, rest) := span_digits s' in (String c ds, rest)
      else (EmptyString, s)
  | EmptyString => (EmptyString, EmptyString)
  end.

(** Underscores may only stand between two digits. *)
Fixpoint underscores_ok (prev : ascii) (s : string) : bool :=
  match s with
  | EmptyString => negb (Ascii.eqb prev "_")
  | String c s' =>
      (if Ascii.eqb c "_" then PyText.is_digit prev
       else negb (Ascii.eqb prev "_") || PyText.is_digit c)
      && underscores_ok c s'
  end.

Definition split_sign (s : string) : bool * string :=
  match s with
  | String "-" s' => (true, s')
  | String "+" s' => (false, s')
  | _ => (false, s)
  end.

(** An exponent part [e[+-]digits] at the end of a literal; [None] when
    the text is not exactly that. *)
Definition parse_exponent (s : string) : option Z :=
  match s with
  | EmptyString => Some 0
  | String c s' =>
      if Ascii.eqb c "e" || Ascii.eqb c "E" then
        let '(neg, t) := split_sign s' in
        let '(ds, rest) := span_digits t in
        match ds, rest with
        | String _ _, EmptyString =>
            let v := PyText.digits_value 0 ds in
            Some (if neg then - v else v)
        | _, _ => None
        end
      else None
  end.

(** A decimal literal [digits [. digits] [exponent]] with a digit on at
    least one side of the point, as the pair (coefficient, power of ten). *)
Definition parse_decimal (s : string) : option (Z * Z) :=
  let '(ip, r1) := span_digits s in
  let '(fp, r2) :=
    match r1 with
    | String "." t => span_digits t
    | _ => (EmptyString, r1)
    end in
  match ip ++ fp with
  | EmptyString => None
  | String _ _ as ds =>
      match parse_exponent r2 with
      | Some x => Some (PyText.digits_value 0 ds, x - Z.of_nat (String.length fp))
      | None => None
      end
  end.

Definition negate_if (neg : bool) (f : float) : float :=
  if neg then (- f)%float else f.

(** [float(s)] for a [str]; [None] is [ValueError]. *)
Definition of_string (s : string) : option float :=
  let t := PyText.strip s in
  if negb (underscores_ok "000" t) then None
  else
    let '(neg, body) := split_sign (PyText.replace "_" "" t) in
    let low := PyText.lower body in
    if String.eqb low "inf" || String.eqb low "infinity"
    then Some (negate_if neg infinity)
    else if String.eqb low "nan" then Some nan
    else
      match parse_decimal body with
      | Some (c, x) => Some (negate_if neg (of_decimal c x))
      | None => None
      end.

(** *** [repr(x)] *)

(** [10^k <= n / d]. *)
Definition pow10_le (n d k : Z) : bool :=
  if 0 <=? k then d * 10 ^ k <=? n else d <=? n * 10 ^ (- k).

(** The decimal exponent of the leading digit of [n / d], for positive
    [n] and [d]: the [k] with [10^k <= n / d < 10^(k+1)]. *)
Definition ilog10 (n d : Z) : Z :=
  let est := (Z.log2 n - Z.log2 d) * 30103 / 100000 in
  if pow10_le n d (est + 2) then est + 2
  else if pow10_le n d (est + 1) then est + 1
  else if pow10_le n d est then est
  else if pow10_le n d (est - 1) then est - 1
  else est - 2.

(** The shortest decimal [c * 10^x] that reads back as [f], nearest to the
    exact value [n / d] of [f] among the shortest; [k = ilog10 n d] and [p]
    is the number of digits tried. *)
Fixpoint shortest_from (fuel : nat) (p : Z) (f : float) (n d k : Z) : Z * Z :=
  let x := k - p + 1 in
  let '(num, den) :=
    if 0 <=? x then (n, d * 10 ^ x) else (n * 10 ^ (- x), d) in
  let lo := num / den in
  let r := num mod den in
  let reads c := PrimFloat.eqb (of_decimal c x) f in
  let nearest := if (den <? 2 * r) || ((den =? 2 * r) && Z.odd lo) then lo + 1 else lo in
  if r =? 0 then (lo, x)
  else
    match reads lo, reads (lo + 1) with
    | true, true => (nearest, x)
    | true, false => (lo, x)
    | false, true => (lo + 1, x)
    | false, false =>
        match fuel with
        | O => (nearest, x)
        | S fuel' => shortest_from fuel' (p + 1) f n d k
        end
    end.

Fixpoint strip_zeros (fuel : nat) (c x : Z) : Z * Z :=
  match fuel with
  | O => (c, x)
  | S fuel' =>
      if (c =? 0) || negb (c mod 10 =? 0) then (c, x)
      else strip_zeros fuel' (c / 10) (x + 1)
  end.

(** The digits of [repr]: the magnitude of a finite non-zero [f] as
    [c * 10^x] with [c] not a multiple of ten. *)
Definition shortest (f : float) : option (Z * Z) :=
  match exact f with
  | Some (m, e) =>
      if m =? 0 then Some (0, 0)
      else
        let '(n, d) := scaled (Z.abs m) 1 (- e) in
        let '(c, x) := shortest_from 16 1 (PrimFloat.abs f) n d (ilog10 n d) in
        Some (strip_zeros 20 c x)
  | None => None
  end.

(** The decimal value [repr(f)] denotes, signed. *)
Definition repr_value (f : float) : option (Z * Z) :=
  match shortest f with
  | Some (c, x) => Some (if is_negative f then - c else c, x)
  | None => None
  end.

Fixpoint zeros (n : nat) : string :=
  match n with O => EmptyString | S k => String "0" (zeros k) end.

Definition take (n : nat) (s : string) : string := String.substring 0 n s.
Definition drop (n : nat) (s : string) : string :=
  String.substring n (String.length s - n) s.

(** [repr(f)], which is also [str(f)]: positional notation when the decimal
    point falls within [-4 < decpt <= 16], exponent notation otherwise. *)
Definition repr (f : float) : string :=
  match shortest f with
  | None =>
      if PrimFloat.is_nan f then "nan"
      else if is_negative f then "-inf" else "inf"
  | Some (c, x) =>
      let sign := if is_negative f then "-" else "" in
      if c =? 0 then sign ++ "0.0"
      else
        let ds := PyText.digits_of c in
        let len := Z.of_nat (String.length ds) in
        let decpt := len + x in
        if (-4 <? decpt) && (decpt <=? 16) then
          if decpt <=? 0 then sign ++ "0." ++ zeros (Z.to_nat (- decpt)) ++ ds
          else if len <=? decpt then sign ++ ds ++ zeros (Z.to_nat (decpt - len)) ++ ".0"
          else sign ++ take (Z.to_nat decpt) ds ++ "." ++ drop (Z.to_nat decpt) ds
        else
          let ex := decpt - 1 in
          let mant :=
            match ds with
            | String c1 EmptyString => String c1 EmptyString
            | String c1 rest => String c1 ("." ++ rest)
            | EmptyString => EmptyString
            end in
          sign ++ mant ++ "e" ++ (if ex <? 0 then "-" else "+")
               ++ PyText.zfill 2 (PyText.digits_of (Z.abs ex))
  end.

(** *** [round(x, 2)] *)

(** The float nearest to [x] rounded to two decimals; the decimal rounding
    is exact on the value of [x], ties to even. *)
Definition round2 (f : float) : float :=
  match exact f with
  | None => f
  | Some (m, e) =>
      let '(n, d) := scaled (100 * Z.abs m) 1 (- e) in
      negate_if (is_negative f) (of_ratio (round_half_even n d) 100)
  end.

(** [sum(xs)] over floats, added left to right from the [int] [0].
    (CPython 3.12 and later compensate the rounding errors of the partial
    sums; the two agree whenever the partial sums are exact.) *)
Definition sum (xs : list float) : float :=
  fold_left (fun acc x => (acc + x)%float) xs 0%float.

End PyFloat.

(** ** Python exceptions *)

Inductive PyExn : Set :=
| InvalidOperation   (* decimal.InvalidOperation, an ArithmeticError *)
| TypeError
| ValueError
| AttributeError
| IndexError.

Inductive Exc (A : Type) : Type :=
| Ok (a : A)
| Raise (e : PyExn).

Arguments Ok {A} a.
Arguments Raise {A} e.

Definition bind {A B : Type} (m : Exc A) (k : A -> Exc B) : Exc B :=
  match m with
  | Ok a => k a
  | Raise e => Raise e
  end.

(** [try: m  except Exception as e: h e]. *)
Definition catch {A : Type} (m : Exc A) (h : PyExn -> A) : A :=
  match m with
  | Ok a => a
  | Raise e => h e
  end.

Definition raises {A : Type} (m : Exc A) : Prop :=
  match m with
  | Ok _ => False
  | Raise _ => True
  end.

(** [Exc] is a monad in stdpp's sense: [x ← m; k] runs [k] when [m]
    returns and propagates the exception otherwise. *)
#[export] Instance exc_ret : MRet Exc := @Ok.
#[export] Instance exc_bind : MBind Exc := fun A B k m => bind m k.
#[export] Instance exc_fmap : FMap Exc := fun A B f m => bind m (fun a => Ok (f a)).

(** ** [decimal.Decimal] under the default context *)

Module PyDecimal.

#[local] Open Scope Z_scope.

(** A finite decimal [c * 10^x], or a quiet NaN.  Infinities and
    signalling NaNs never leave the constructor-and-quantize step that
    produces every decimal of this program. *)
Inductive Decimal : Set :=
| Fin (c x : Z)
| NaN.

(** [getcontext().prec]. *)
Definition prec : Z := 28.

Definition ndigits (c : Z) : Z :=
  Z.of_nat (String.length (PyText.digits_of (Z.abs c))).

(** Rounding of an exact result to the context precision, half-even. *)
Definition round_ctx (c x : Z) : Decimal :=
  let n := ndigits c in
  if n <=? prec then Fin c x
  else
    let k := n - prec in
    let q := PyFloat.round_half_even (Z.abs c) (10 ^ k) in
    if q =? 10 ^ prec
    then Fin (Z.sgn c * 10 ^ (prec - 1)) (x + k + 1)
    else Fin (Z.sgn c * q) (x + k).

(** Both coefficients at the smaller of the two exponents. *)
Definition align (c1 x1 c2 x2 : Z) : Z * Z * Z :=
  let x := Z.min x1 x2 in
  (c1 * 10 ^ (x1 - x), c2 * 10 ^ (x2 - x), x).

Definition add (a b : Decimal) : Decimal :=
  match a, b with
  | Fin c1 x1, Fin c2 x2 =>
      let '(a1, b1, x) := align c1 x1 c2 x2 in round_ctx (a1 + b1) x
  | _, _ => NaN
  end.

Definition neg (a : Decimal) : Decimal :=
  match a with
  | Fin c x => Fin (- c) x
  | NaN => NaN
  end.

Definition sub (a b : Decimal) : Decimal := add a (neg b).

Definition abs (a : Decimal) : Decimal :=
  match a with
  | Fin c x => round_ctx (Z.abs c) x
  | NaN => NaN
  end.

(** [a > b]: an ordering comparison with a NaN signals
    [InvalidOperation], which the default context traps. *)
Definition gt (a b : Decimal) : Exc bool :=
  match a, b with
  | Fin c1 x1, Fin c2 x2 =>
      let '(a1, b1, _) := align c1 x1 c2 x2 in Ok (b1 <? a1)
  | _, _ => Raise InvalidOperation
  end.

Definition zero : Decimal := Fin 0 0.

(** Round [x / y] (both non-negative) to the nearest integer, ties away
    from zero: [ROUND_HALF_UP] on a magnitude. *)
Definition round_half_up (x y : Z) : Z :=
  let q := x / y in
  if y <=? 2 * (x mod y) then q + 1 else q.

(** [d.quantize(Decimal('0.01'), rounding=ROUND_HALF_UP)]: a result of
    more than [prec] digits is an [InvalidOperation]. *)
Definition quantize2 (d : Decimal) : Exc Decimal :=
  match d with
  | NaN => Ok NaN
  | Fin c x =>
      let r :=
        if -2 <=? x then c * 10 ^ (x + 2)
        else Z.sgn c * round_half_up (Z.abs c) (10 ^ (- 2 - x)) in
      if prec <? ndigits r then Raise InvalidOperation else Ok (Fin r (-2))
  end.

(** What the constructor reads in a string. *)
Inductive Parsed : Set :=
| PFin (c x : Z)
| PInf
| PNaN
| PSNaN.

(** [Decimal(s)] for a [str]: surrounding whitespace and underscores are
    dropped; [None] is [InvalidOperation] (ConversionSyntax). *)
Definition parse (s : string) : option Parsed :=
  let t := PyText.replace "_" "" (PyText.strip s) in
  let '(sgn, body) := PyFloat.split_sign t in
  let low := PyText.lower body in
  if String.eqb low "inf" || String.eqb low "infinity" then Some PInf
  else if PyText.startswith "nan" low && PyText.all_digits (PyFloat.drop 3 low) then Some PNaN
  else if PyText.startswith "snan" low && PyText.all_digits (PyFloat.drop 4 low) then Some PSNaN
  else
    match PyFloat.parse_decimal body with
    | Some (c, x) => Some (PFin (if sgn then - c else c) x)
    | None => None
    end.

(** [Decimal(s).quantize(Decimal('0.01'), rounding=ROUND_HALF_UP)]. *)
Definition of_string_quantized (s : string) : Exc Decimal :=
  match parse s with
  | Some (PFin c x) => quantize2 (Fin c x)
  | Some PNaN => Ok NaN
  | Some PInf | Some PSNaN | None => Raise InvalidOperation
  end.

(** The same for [str(f)] of a float [f]. *)
Definition of_float_quantized (f : float) : Exc Decimal :=
  match PyFloat.repr_value f with
  | Some (c, x) => quantize2 (Fin c x)
  | None => if PrimFloat.is_nan f then Ok NaN else Raise InvalidOperation
  end.

(** [float(d)]. *)
Definition to_float (d : Decimal) : float :=
  match d with
  | Fin c x => PyFloat.of_decimal c x
  | NaN => nan
  end.


End PyDecimal.

Import PyDecimal.

(** ** Python values reaching the validators *)

(** A statement record is whatever dictionary the caller passes: the
    values are JSON-like. *)
Inductive PyVal : Type :=
| PyNone
| PyBool (b : bool)
| PyInt (n : Z)
| PyFloat (f : float)
| PyStr (s : string)
| PyList (l : list PyVal)
| PyDict (d : gmap string PyVal).

Module PyObj.

(** [bool(v)], as [if not v] tests it. *)
Definition truthy (v : PyVal) : bool :=
  match v with
  | PyNone => false
  | PyBool b => b
  | PyInt n => negb (n =? 0)
  | PyFloat f => negb (PrimFloat.eqb f 0%float)
  | PyStr s => negb (String.eqb s "")
  | PyList l => match l with [] => false | _ :: _ => true end
  | PyDict d => negb (bool_decide (d = ∅))
  end.

(** [d.get(key, default)] on a dictionary. *)
Definition dict_get (d : gmap string PyVal) (key : string) (default : PyVal) : PyVal :=
  match d !! key with
  | Some v => v
  | None => default
  end.

(** [v.get(key, default)] on any value: only a dictionary has [get]. *)
Definition get (v : PyVal) (key : string) (default : PyVal) : Exc PyVal :=
  match v with
  | PyDict d => Ok (dict_get d key default)
  | _ => Raise AttributeError
  end.

(** A UTF-8 continuation byte [10xxxxxx]. *)
Definition is_continuation (c : ascii) : bool :=
  let n := nat_of_ascii c in (128 <=? n)%nat && (n <? 192)%nat.

(** The characters of a string, one per code point: a byte is grouped
    with the continuation bytes that follow it. *)
Fixpoint chars (s : string) : list string :=
  match s with
  | EmptyString => []
  | String c s' =>
      let continued :=
        match s' with
        | String c' _ => is_continuation c'
        | EmptyString => false
        end in
      match chars s' with
      | h :: t => if continued then String c h :: t else String c EmptyString :: h :: t
      | [] => [String c EmptyString]
      end
  end.

(** The items [for x in v] yields; iterating a number, a boolean or
    [None] is a [TypeError]. *)
Definition iterate (v : PyVal) : Exc (list PyVal) :=
  match v with
  | PyList l => Ok l
  | PyStr s => Ok (PyStr <$> chars s)
  | PyDict d => Ok ((fun kv => PyStr kv.1) <$> map_to_list d)
  | PyNone | PyBool _ | PyInt _ | PyFloat _ => Raise TypeError
  end.

(** [v[:50]] raises unless [v] is a sequence. *)
Definition sliceable (v : PyVal) : Exc unit :=
  match v with
  | PyStr _ | PyList _ => Ok tt
  | _ => Raise TypeError
  end.

End PyObj.

(** ** validation_models.py *)

Inductive ValidationSeverity : Set := ERROR | WARNING | INFO.

Inductive ValidationErrorType : Set :=
| BALANCE_MISMATCH
| DATE_OUT_OF_ORDER
| DATE_OUT_OF_RANGE
| MISSING_BALANCE
| DUPLICATE_TRANSACTION
| INCOME_IMPLAUSIBLE
| CROSS_DOC_INCONSISTENCY
| CALCULATION_ERROR.

(** An entry of [ValidationResult.errors].  The message text is not
    modelled; of the context only [transaction_index] is kept, and
    [expected] / [actual] hold the decimal the source converts with
    [float(...)]. *)
Record ValidationError : Set := {
  error_type : ValidationErrorType;
  severity : ValidationSeverity;
  field : option string;
  expected : option Decimal;
  actual : option Decimal;
  transaction_index : option nat
}.

(** An entry of [ValidationResult.warnings]; of the context only the
    list [indices] is kept. *)
Record ValidationWarning : Set := {
  warning_type : string;
  warning_field : option string;
  warning_indices : list nat
}.

Record ValidationResult : Set := {
  validator_name : string;
  status : string;
  passed : bool;
  errors : list ValidationError;
  warnings : list ValidationWarning
}.

(** [ValidationResult(validator_name=name, status="passed", passed=True)],
    as every validator creates its result. *)
Definition new_result (name : string) : ValidationResult :=
  {| validator_name := name; status := "passed"; passed := true;
     errors := []; warnings := [] |}.

Definition has_errors (r : ValidationResult) : bool :=
  (0 <? length (errors r))%nat.

Definition has_warnings (r : ValidationResult) : bool :=
  (0 <? length (warnings r))%nat.

Definition error_count (r : ValidationResult) : nat := length (errors r).
Definition warning_count (r : ValidationResult) : nat := length (warnings r).

Definition add_error (r : ValidationResult) (e : ValidationError) : ValidationResult :=
  {| validator_name := validator_name r;
     status := if String.eqb (status r) "passed" then "failed" else status r;
     passed := false;
     errors := errors r ++ [e];
     warnings := warnings r |}.

Definition add_warning (r : ValidationResult) (w : ValidationWarning) : ValidationResult :=
  {| validator_name := validator_name r;
     status := if String.eqb (status r) "passed" then "warnings" else status r;
     passed := passed r;
     errors := errors r;
     warnings := warnings r ++ [w] |}.

(** A call made on a result. *)
Inductive Call : Set :=
| AddError (e : ValidationError)
| AddWarning (w : ValidationWarning).

Definition call (r : ValidationResult) (c : Call) : ValidationResult :=
  match c with
  | AddError e => add_error r e
  | AddWarning w => add_warning r w
  end.

Definition calls (r : ValidationResult) (cs : list Call) : ValidationResult :=
  fold_left call cs r.

Definition is_error_call (c : Call) : bool :=
  match c with AddError _ => true | AddWarning _ => false end.

(** The status the specification derives from the calls made. *)
Definition derived_status (cs : list Call) : string :=
  if existsb is_error_call cs then "failed"
  else if existsb (fun c => negb (is_error_call c)) cs then "warnings"
  else "passed".

Record AggregatedValidationResult : Set := {
  statement_id : string;
  overall_status : string;
  validators_run : list string;
  results : list (string * ValidationResult);
  total_errors : nat;
  total_warnings : nat
}.

(** [AggregatedValidationResult.from_results]; the dictionary of results
    is given in insertion order. *)
Definition from_results (id : string) (rs : list (string * ValidationResult))
  : AggregatedValidationResult :=
  let te := list_sum ((fun r => error_count r.2) <$> rs) in
  let tw := list_sum ((fun r => warning_count r.2) <$> rs) in
  {| statement_id := id;
     overall_status :=
       if (0 <? te)%nat then "failed"
       else if (0 <? tw)%nat then "warnings"
       else "passed";
     validators_run := fst <$> rs;
     results := rs;
     total_errors := te;
     total_warnings := tw |}.

(** ** balance_validator.py *)

Module BalanceValidator.

Import PyObj.

(** The validator object: [self.tolerance] is [Decimal(str(tolerance))]. *)
Record BalanceValidator : Set := { tolerance : Decimal }.

Definition validator_name : string := "balance_validator".

(** [BalanceValidator()] with the default [tolerance = 0.01]. *)
Definition get_balance_validator : BalanceValidator := {| tolerance := Fin 1 (-2) |}.

(** [BalanceValidator._to_decimal].  The only exception the conversion
    raises is [decimal.InvalidOperation], which the handler
    [except (ValueError, TypeError)] does not catch. *)
Definition _to_decimal (value : PyVal) : Exc (option Decimal) :=
  match value with
  | PyNone => Ok None
  | PyStr s =>
      let value :=
        PyText.strip
          (PyText.replace "$" "" (PyText.replace "â‚¹" "" (PyText.replace "," "" s))) in
      d ← of_string_quantized value; Ok (Some d)
  | PyInt n => d ← quantize2 (Fin n 0); Ok (Some d)
  | PyFloat f => d ← of_float_quantized f; Ok (Some d)
  | PyBool _ | PyList _ | PyDict _ => Raise InvalidOperation
  end.

(** An operand that must not be [None]: arithmetic, comparison and
    [float(...)] on [None] are a [TypeError]. *)
Definition require {A : Type} (o : option A) : Exc A :=
  match o with
  | Some a => Ok a
  | None => Raise TypeError
  end.

Definition mk_error (ty : ValidationErrorType) (sev : ValidationSeverity)
    (fld : option string) (exp act : option Decimal) (idx : option nat)
  : ValidationError :=
  {| error_type := ty; severity := sev; field := fld;
     expected := exp; actual := act; transaction_index := idx |}.

Definition mk_warning (ty : string) (fld : option string) : ValidationWarning :=
  {| warning_type := ty; warning_field := fld; warning_indices := [] |}.

(** [f"transactions[{idx}]{suffix}"]. *)
Definition index_field (idx : nat) (suffix : string) : string :=
  "transactions[" ++ PyText.str_int (Z.of_nat idx) ++ "]" ++ suffix.

(** Check 1: [closing_balance = opening_balance + credits - debits]. *)
Definition _validate_opening_closing (self : BalanceValidator)
    (statement_data : gmap string PyVal) (result : ValidationResult)
  : ValidationResult :=
  catch
    (opening ← _to_decimal (dict_get statement_data "opening_balance" PyNone);
     closing ← _to_decimal (dict_get statement_data "closing_balance" PyNone);
     total_credits ← _to_decimal (dict_get statement_data "total_credits" (PyInt 0));
     total_debits ← _to_decimal (dict_get statement_data "total_debits" (PyInt 0));
     match opening, closing with
     | Some opening, Some closing =>
         total_credits ← require total_credits;
         total_debits ← require total_debits;
         let expected_closing := sub (add opening total_credits) total_debits in
         let difference := abs (sub closing expected_closing) in
         over ← gt difference (tolerance self);
         if over : bool then
           Ok (add_error result
                 (mk_error BALANCE_MISMATCH ERROR (Some "closing_balance")
                    (Some expected_closing) (Some closing) None))
         else
           positive ← gt difference zero;
           if positive : bool then
             Ok (add_warning result
                   (mk_warning "minor_balance_difference" (Some "closing_balance")))
           else Ok result
     | _, _ =>
         Ok (add_error result
               (mk_error MISSING_BALANCE ERROR
                  (Some "opening_balance/closing_balance") None None None))
     end)
    (fun _ => add_error result (mk_error CALCULATION_ERROR ERROR None None None None)).

(** Lines 166-170: the balance a transaction is expected to leave. *)
Definition expected_balance (running_balance : Decimal)
    (debit credit : option Decimal) : Exc Decimal :=
  credit ← require credit;
  is_credit ← gt credit zero;
  if is_credit : bool then Ok (add running_balance credit)
  else debit ← require debit; Ok (sub running_balance debit).

(** One iteration of the loop of [_validate_transaction_balances]: the
    state is the running balance and the result under construction. *)
Definition check_transaction (self : BalanceValidator) (idx : nat)
    (transaction : PyVal) (state : Decimal * ValidationResult)
  : Decimal * ValidationResult :=
  let '(running_balance, result) := state in
  catch
    (debit ← get transaction "debit" (PyInt 0) ≫= _to_decimal;
     credit ← get transaction "credit" (PyInt 0) ≫= _to_decimal;
     stated_balance ← get transaction "balance" PyNone ≫= _to_decimal;
     expected ← expected_balance running_balance debit credit;
     match stated_balance with
     | Some stated =>
         let difference := abs (sub stated expected) in
         over ← gt difference (tolerance self);
         if over : bool then
           description ← get transaction "description" (PyStr "");
           _ ← sliceable description;
           _ ← require debit;
           Ok (running_balance,
               add_error result
                 (mk_error BALANCE_MISMATCH ERROR (Some (index_field idx ".balance"))
                    (Some expected) (Some stated) (Some idx)))
         else Ok (stated, result)
     | None => Ok (expected, result)
     end)
    (fun _ =>
       (running_balance,
        add_error result
          (mk_error CALCULATION_ERROR WARNING (Some (index_field idx "")) None None None))).

(** [for idx, transaction in enumerate(transactions)], from index [idx]. *)
Fixpoint walk (self : BalanceValidator) (idx : nat) (transactions : list PyVal)
    (state : Decimal * ValidationResult) : Decimal * ValidationResult :=
  match transactions with
  | [] => state
  | transaction :: rest =>
      walk self (S idx) rest (check_transaction self idx transaction state)
  end.

(** Check 2: each transaction's balance. *)
Definition _validate_transaction_balances (self : BalanceValidator)
    (statement_data : gmap string PyVal) (result : ValidationResult)
  : Exc ValidationResult :=
  let transactions := dict_get statement_data "transactions" (PyList []) in
  if negb (truthy transactions) then
    Ok (add_warning result (mk_warning "no_transactions" None))
  else
    opening_balance ← _to_decimal (dict_get statement_data "opening_balance" PyNone);
    match opening_balance with
    | None => Ok result
    | Some opening_balance =>
        transactions ← iterate transactions;
        Ok (walk self 0 transactions (opening_balance, result)).2
    end.

(** [sum(self._to_decimal(t.get(key, 0)) for t in transactions)],
    continued from the partial sum [acc]. *)
Fixpoint sum_field (key : string) (transactions : list PyVal) (acc : Decimal)
  : Exc Decimal :=
  match transactions with
  | [] => Ok acc
  | t :: rest =>
      amount ← get t key (PyInt 0) ≫= _to_decimal;
      amount ← require amount;
      sum_field key rest (add acc amount)
  end.

(** The comparison of one stated total with the sum of the transactions. *)
Definition check_total (self : BalanceValidator) (fld : string)
    (stated : option Decimal) (actual : Decimal) (result : ValidationResult)
  : Exc ValidationResult :=
  match stated with
  | Some stated =>
      over ← gt (abs (sub stated actual)) (tolerance self);
      if over : bool then
        Ok (add_error result
              (mk_error CALCULATION_ERROR ERROR (Some fld) (Some actual) (Some stated) None))
      else Ok result
  | None => Ok result
  end.

(** Check 3: stated totals against the sums of the transactions. *)
Definition _validate_totals (self : BalanceValidator)
    (statement_data : gmap string PyVal) (result : ValidationResult)
  : Exc ValidationResult :=
  let transactions := dict_get statement_data "transactions" (PyList []) in
  if negb (truthy transactions) then Ok result
  else
    stated_credits ← _to_decimal (dict_get statement_data "total_credits" PyNone);
    stated_debits ← _to_decimal (dict_get statement_data "total_debits" PyNone);
    transactions ← iterate transactions;
    actual_credits ← sum_field "credit" transactions zero;
    actual_debits ← sum_field "debit" transactions zero;
    result ← check_total self "total_credits" stated_credits actual_credits result;
    check_total self "total_debits" stated_debits actual_debits result.

(** [BalanceValidator.validate_statement]. *)
Definition validate_statement (self : BalanceValidator)
    (statement_data : gmap string PyVal) : Exc ValidationResult :=
  let result := new_result validator_name in
  let result := _validate_opening_closing self statement_data result in
  result ← _validate_transaction_balances self statement_data result;
  _validate_totals self statement_data result.

End BalanceValidator.

(** ** date_validator.py *)

Module DateSequencingValidator.

Import PyObj.

Section Library.

(** The [datetime] library, as far as the validator uses it: the values,
    the parser of [_parse_date] for text ([fromisoformat] after replacing
    [Z], then the four [strptime] formats), the clock, the order (a
    [TypeError] between an aware and a naive value), the whole days of a
    difference, and the calendar date of a value. *)
Variable DateTime : Type.
Variable Date : Type.
Context `{EqDecision Date}.
Variable datetime_of_text : string -> option DateTime.
Variable now : DateTime.
Variable lt : DateTime -> DateTime -> Exc bool.
Variable days_between : DateTime -> DateTime -> Exc Z.
Variable date_of : DateTime -> Date.

(** The validator object. *)
Record DateSequencingValidator : Set := { max_gap_days : Z }.

Definition validator_name : string := "date_sequencing_validator".

(** [DateSequencingValidator()] with the default gap of 60 days. *)
Definition get_date_validator : DateSequencingValidator := {| max_gap_days := 60 |}.

(** [DateSequencingValidator._parse_date]: [None] for anything that is
    not text. *)
Definition _parse_date (date_value : PyVal) : option DateTime :=
  match date_value with
  | PyStr s => datetime_of_text s
  | _ => None
  end.

Definition le (a b : DateTime) : Exc bool := negb <$> lt b a.

Definition mk_error (ty : ValidationErrorType) (fld : option string) (idx : option nat)
  : ValidationError :=
  {| error_type := ty; severity := ERROR; field := fld;
     expected := None; actual := None; transaction_index := idx |}.

Definition mk_warning (ty : string) (fld : option string) (indices : list nat)
  : ValidationWarning :=
  {| warning_type := ty; warning_field := fld; warning_indices := indices |}.

(** [f"transactions[{idx}].date"]. *)
Definition date_field (idx : nat) : string :=
  "transactions[" ++ PyText.str_int (Z.of_nat idx) ++ "].date".

(** [transaction.get('description', '')[:50]], evaluated for a context. *)
Definition description_slice (transaction : PyVal) : Exc unit :=
  get transaction "description" (PyStr "") ≫= sliceable.

(** Check 1: the statement period. *)
Definition _validate_period_dates (statement_data : gmap string PyVal)
    (result : ValidationResult) : Exc ValidationResult :=
  match _parse_date (dict_get statement_data "statement_period_from" PyNone),
        _parse_date (dict_get statement_data "statement_period_to" PyNone) with
  | Some period_from, Some period_to =>
      inverted ← le period_to period_from;
      let result :=
        if inverted : bool
        then add_error result
               (mk_error DATE_OUT_OF_ORDER (Some "statement_period_to") None)
        else result in
      future ← lt now period_to;
      let result :=
        if future : bool
        then add_warning result (mk_warning "future_date" (Some "statement_period_to") [])
        else result in
      period_days ← days_between period_to period_from;
      Ok (if 186 <? period_days
          then add_warning result (mk_warning "long_period" (Some "statement_period") [])
          else result)
  | _, _ =>
      Ok (add_error result
            (mk_error DATE_OUT_OF_RANGE
               (Some "statement_period_from/statement_period_to") None))
  end.

(** The loop of check 2, from index [idx] with the previous date
    [prev_date]. *)
Fixpoint ordering_loop (idx : nat) (transactions : list PyVal)
    (prev_date : option DateTime) (result : ValidationResult) : Exc ValidationResult :=
  match transactions with
  | [] => Ok result
  | transaction :: rest =>
      date_value ← get transaction "date" PyNone;
      match _parse_date date_value with
      | None =>
          _ ← description_slice transaction;
          ordering_loop (S idx) rest prev_date
            (add_error result
               (mk_error DATE_OUT_OF_RANGE (Some (date_field idx)) (Some idx)))
      | Some current_date =>
          result ←
            match prev_date with
            | Some prev =>
                earlier ← lt current_date prev;
                if earlier : bool then
                  _ ← description_slice transaction;
                  Ok (add_error result
                        (mk_error DATE_OUT_OF_ORDER (Some (date_field idx)) None))
                else Ok result
            | None => Ok result
            end;
          ordering_loop (S idx) rest (Some current_date) result
      end
  end.

(** Check 2: chronological order. *)
Definition _validate_transaction_ordering (statement_data : gmap string PyVal)
    (result : ValidationResult) : Exc ValidationResult :=
  let transactions := dict_get statement_data "transactions" (PyList []) in
  if negb (truthy transactions) then Ok result
  else
    transactions ← iterate transactions;
    ordering_loop 0 transactions None result.

Fixpoint in_period_loop (period_from period_to : DateTime) (idx : nat)
    (transactions : list PyVal) (result : ValidationResult) : Exc ValidationResult :=
  match transactions with
  | [] => Ok result
  | transaction :: rest =>
      date_value ← get transaction "date" PyNone;
      match _parse_date date_value with
      | None => in_period_loop period_from period_to (S idx) rest result
      | Some trans_date =>
          before ← lt trans_date period_from;
          outside ← (if before : bool then Ok true else lt period_to trans_date);
          result ←
            (if outside : bool then
               _ ← description_slice transaction;
               Ok (add_error result
                     (mk_error DATE_OUT_OF_RANGE (Some (date_field idx)) None))
             else Ok result);
          in_period_loop period_from period_to (S idx) rest result
      end
  end.

(** Check 3: every transaction date within the period. *)
Definition _validate_dates_in_period (statement_data : gmap string PyVal)
    (result : ValidationResult) : Exc ValidationResult :=
  match _parse_date (dict_get statement_data "statement_period_from" PyNone),
        _parse_date (dict_get statement_data "statement_period_to" PyNone) with
  | Some period_from, Some period_to =>
      transactions ← iterate (dict_get statement_data "transactions" (PyList []));
      in_period_loop period_from period_to 0 transactions result
  | _, _ => Ok result
  end.

(** [len(v)]. *)
Definition len (v : PyVal) : Exc nat :=
  match v with
  | PyList l => Ok (length l)
  | PyStr s => Ok (length (chars s))
  | PyDict d => Ok (size d)
  | _ => Raise TypeError
  end.

(** [v.strip().lower()]: only text has these methods. *)
Definition strip_lower (v : PyVal) : Exc string :=
  match v with
  | PyStr s => Ok (PyText.lower (PyText.strip s))
  | _ => Raise AttributeError
  end.

(** The list [date_desc_combos] of check 4. *)
Fixpoint date_desc_combos (idx : nat) (transactions : list PyVal)
  : Exc (list (Date * string * nat)) :=
  match transactions with
  | [] => Ok []
  | transaction :: rest =>
      date_value ← get transaction "date" PyNone;
      match _parse_date date_value with
      | Some trans_date =>
          desc ← get transaction "description" (PyStr "") ≫= strip_lower;
          combos ← date_desc_combos (S idx) rest;
          Ok ((date_of trans_date, desc, idx) :: combos)
      | None => date_desc_combos (S idx) rest
      end
  end.

Definition same_combo (a b : Date * string) : bool :=
  bool_decide (a.1 = b.1) && String.eqb a.2 b.2.

(** The keys of the [Counter], in the order of their first occurrence. *)
Fixpoint distinct_combos (seen : list (Date * string)) (combos : list (Date * string * nat))
  : list (Date * string) :=
  match combos with
  | [] => []
  | (d, desc, _) :: rest =>
      if existsb (same_combo (d, desc)) seen then distinct_combos seen rest
      else (d, desc) :: distinct_combos ((d, desc) :: seen) rest
  end.

(** Check 4: possible duplicates. *)
Definition _detect_date_anomalies (statement_data : gmap string PyVal)
    (result : ValidationResult) : Exc ValidationResult :=
  let transactions := dict_get statement_data "transactions" (PyList []) in
  n ← len transactions;
  if (n <? 2)%nat then Ok result
  else
    transactions ← iterate transactions;
    combos ← date_desc_combos 0 transactions;
    Ok (fold_left
          (fun result key =>
             let duplicate_indices :=
               (fun c => c.2) <$> filter (fun c => same_combo key c.1 = true) combos in
             if (1 <? length duplicate_indices)%nat
             then add_warning result
                    (mk_warning "possible_duplicate" (Some "transactions") duplicate_indices)
             else result)
          (distinct_combos [] combos) result).

(** Insertion of [x] into a list sorted by [lt], before the elements
    that are not earlier than [x]. *)
Fixpoint insert_sorted (x : DateTime) (sorted : list DateTime) : Exc (list DateTime) :=
  match sorted with
  | [] => Ok [x]
  | y :: rest =>
      earlier ← lt y x;
      if earlier : bool then rest ← insert_sorted x rest; Ok (y :: rest)
      else Ok (x :: y :: rest)
  end.

(** [dates.sort()]: a stable ascending sort; a comparison that raises
    makes the sort raise. *)
Fixpoint sort (dates : list DateTime) : Exc (list DateTime) :=
  match dates with
  | [] => Ok []
  | x :: rest => sorted ← sort rest; insert_sorted x sorted
  end.

Fixpoint gaps_loop (self : DateSequencingValidator) (dates : list DateTime)
    (result : ValidationResult) : Exc ValidationResult :=
  match dates with
  | a :: (b :: _) as rest =>
      gap ← days_between b a;
      gaps_loop self rest
        (if max_gap_days self <? gap
         then add_warning result
                (mk_warning "large_transaction_gap" (Some "transactions") [])
         else result)
  | _ => Ok result
  end.

(** The dates of check 5: those that parse. *)
Fixpoint parsed_dates (transactions : list PyVal) : Exc (list DateTime) :=
  match transactions with
  | [] => Ok []
  | transaction :: rest =>
      date_value ← get transaction "date" PyNone;
      dates ← parsed_dates rest;
      Ok (match _parse_date date_value with
          | Some d => d :: dates
          | None => dates
          end)
  end.

(** Check 5: large gaps between transactions. *)
Definition _check_transaction_gaps (self : DateSequencingValidator)
    (statement_data : gmap string PyVal) (result : ValidationResult)
  : Exc ValidationResult :=
  let transactions := dict_get statement_data "transactions" (PyList []) in
  n ← len transactions;
  if (n <? 2)%nat then Ok result
  else
    transactions ← iterate transactions;
    dates ← parsed_dates transactions;
    if (length dates <? 2)%nat then Ok result
    else
      dates ← sort dates;
      gaps_loop self dates result.

(** [DateSequencingValidator.validate_statement]: no check stands in a
    [try]. *)
Definition validate_statement (self : DateSequencingValidator)
    (statement_data : gmap string PyVal) : Exc ValidationResult :=
  let result := new_result validator_name in
  result ← _validate_period_dates statement_data result;
  result ← _validate_transaction_ordering statement_data result;
  result ← _validate_dates_in_period statement_data result;
  result ← _detect_date_anomalies statement_data result;
  _check_transaction_gaps self statement_data result.

End Library.

End DateSequencingValidator.

(** ** Spreadsheet cells and dates *)

(** A [datetime] / pandas [Timestamp], to the second. *)
Record Timestamp : Set := {
  ts_year : Z; ts_month : Z; ts_day : Z;
  ts_hour : Z; ts_minute : Z; ts_second : Z
}.

(** A cell of the data frame: a number, text, or a date-time.  An empty
    cell is the float NaN, as [pandas.read_excel] reads it. *)
Inductive Cell : Set :=
| CInt (n : Z)
| CFloat (f : float)
| CStr (s : string)
| CTime (t : Timestamp).

Definition empty_cell : Cell := CFloat nan.

Definition DataFrame : Set := list (list Cell).

Module Dates.

Definition two (n : Z) : string := PyText.zfill 2 (PyText.str_int n).

(** [t.strftime('%Y-%m-%d')]; the C library prints the year unpadded. *)
Definition strftime (t : Timestamp) : string :=
  PyText.str_int (ts_year t) ++ "-" ++ two (ts_month t) ++ "-" ++ two (ts_day t).

(** [str(t)]. *)
Definition str (t : Timestamp) : string :=
  PyText.zfill 4 (PyText.str_int (ts_year t)) ++ "-" ++ two (ts_month t) ++ "-"
    ++ two (ts_day t) ++ " " ++ two (ts_hour t) ++ ":" ++ two (ts_minute t)
    ++ ":" ++ two (ts_second t).

Definition is_leap (y : Z) : bool :=
  (y mod 4 =? 0) && (negb (y mod 100 =? 0) || (y mod 400 =? 0)).

Definition days_in_month (y m : Z) : Z :=
  if m =? 2 then (if is_leap y then 29 else 28)
  else if (m =? 4) || (m =? 6) || (m =? 9) || (m =? 11) then 30
  else 31.

(** [datetime(year, month, day)]; [None] is [ValueError]. *)
Definition make_date (year month day : Z) : option Timestamp :=
  if (1 <=? year) && (year <=? 9999) && (1 <=? month) && (month <=? 12)
     && (1 <=? day) && (day <=? days_in_month year month)
  then Some {| ts_year := year; ts_month := month; ts_day := day;
               ts_hour := 0; ts_minute := 0; ts_second := 0 |}
  else None.

(** The directives of the formats [_parse_date] tries. *)
Inductive Directive : Set :=
| Dd        (* %d *)
| Dm        (* %m *)
| DY        (* %Y *)
| Db        (* %b *)
| DB        (* %B *)
| Lit (c : ascii).

Record Parts : Set := { p_year : Z; p_month : Z; p_day : Z }.

Definition in_range (lo hi c : ascii) : bool :=
  (nat_of_ascii lo <=? nat_of_ascii c)%nat && (nat_of_ascii c <=? nat_of_ascii hi)%nat.

(** The ways [%d] can match a prefix of [s], in the order the regular
    expression [3[0-1]|[1-2]\d|0[1-9]|[1-9]| [1-9]] tries them. *)
Definition day_matches (s : string) : list (Z * string) :=
  let two_chars (ok : ascii -> ascii -> bool) :=
    match s with
    | String a (String b rest) =>
        if ok a b then [(PyText.digits_value 0 (PyText.lstrip (String a (String b ""))), rest)]
        else []
    | _ => []
    end in
  two_chars (fun a b => Ascii.eqb a "3" && in_range "0" "1" b)
  ++ two_chars (fun a b => in_range "1" "2" a && PyText.is_digit b)
  ++ two_chars (fun a b => Ascii.eqb a "0" && in_range "1" "9" b)
  ++ match s with
     | String a rest => if in_range "1" "9" a then [(PyText.digit_val a, rest)] else []
     | EmptyString => []
     end
  ++ two_chars (fun a b => Ascii.eqb a " " && in_range "1" "9" b).

(** [%m]: [1[0-2]|0[1-9]|[1-9]]. *)
Definition month_matches (s : string) : list (Z * string) :=
  let two_chars (ok : ascii -> ascii -> bool) :=
    match s with
    | String a (String b rest) =>
        if ok a b then [(PyText.digits_value 0 (String a (String b "")), rest)] else []
    | _ => []
    end in
  two_chars (fun a b => Ascii.eqb a "1" && in_range "0" "2" b)
  ++ two_chars (fun a b => Ascii.eqb a "0" && in_range "1" "9" b)
  ++ match s with
     | String a rest => if in_range "1" "9" a then [(PyText.digit_val a, rest)] else []
     | EmptyString => []
     end.

(** [%Y]: four digits. *)
Definition year_matches (s : string) : list (Z * string) :=
  let y := PyFloat.take 4 s in
  if (String.length y =? 4)%nat && PyText.all_digits y
  then [(PyText.digits_value 0 y, PyFloat.drop 4 s)] else [].

Definition month_names : list string :=
  ["january"; "february"; "march"; "april"; "may"; "june"; "july";
   "august"; "september"; "october"; "november"; "december"].

(** [%B] (full names) and [%b] (the first three letters), in the C
    locale, letter case ignored. *)
Definition name_matches (abbreviated : bool) (s : string) : list (Z * string) :=
  let low := PyText.lower s in
  flat_map
    (fun '(i, name) =>
       let name := if abbreviated : bool then PyFloat.take 3 name else name in
       if PyText.startswith name low
       then [(Z.of_nat (S i), PyFloat.drop (String.length name) s)] else [])
    (imap pair month_names).

Fixpoint first_some {A B : Type} (f : A -> option B) (l : list A) : option B :=
  match l with
  | [] => None
  | a :: l' =>
      match f a with
      | Some b => Some b
      | None => first_some f l'
      end
  end.

(** The first way, in backtracking order, a format matches a prefix of
    [s]: the parts read and the text left over. *)
Fixpoint match_format (fmt : list Directive) (s : string) (acc : Parts)
  : option (Parts * string) :=
  match fmt with
  | [] => Some (acc, s)
  | Lit c :: fmt' =>
      match s with
      | String a rest => if Ascii.eqb a c then match_format fmt' rest acc else None
      | EmptyString => None
      end
  | Dd :: fmt' =>
      first_some
        (fun '(v, rest) =>
           match_format fmt' rest
             {| p_year := p_year acc; p_month := p_month acc; p_day := v |})
        (day_matches s)
  | Dm :: fmt' =>
      first_some
        (fun '(v, rest) =>
           match_format fmt' rest
             {| p_year := p_year acc; p_month := v; p_day := p_day acc |})
        (month_matches s)
  | DY :: fmt' =>
      first_some
        (fun '(v, rest) =>
           match_format fmt' rest
             {| p_year := v; p_month := p_month acc; p_day := p_day acc |})
        (year_matches s)
  | Db :: fmt' =>
      first_some
        (fun '(v, rest) =>
           match_format fmt' rest
             {| p_year := p_year acc; p_month := v; p_day := p_day acc |})
        (name_matches true s)
  | DB :: fmt' =>
      first_some
        (fun '(v, rest) =>
           match_format fmt' rest
             {| p_year := p_year acc; p_month := v; p_day := p_day acc |})
        (name_matches false s)
  end.

(** [datetime.strptime(s, fmt)]; [None] is [ValueError]: no match, text
    left over after the match, or a date that does not exist. *)
Definition strptime (s : string) (fmt : list Directive) : option Timestamp :=
  match match_format fmt s {| p_year := 1900; p_month := 1; p_day := 1 |} with
  | Some (p, EmptyString) => make_date (p_year p) (p_month p) (p_day p)
  | _ => None
  end.

(** ['%d-%m-%Y', '%m/%d/%Y', '%Y-%m-%d', '%d/%m/%Y', '%d-%b-%Y',
    '%d-%B-%Y', '%Y%m%d']. *)
Definition formats : list (list Directive) :=
  [ [Dd; Lit "-"; Dm; Lit "-"; DY];
    [Dm; Lit "/"; Dd; Lit "/"; DY];
    [DY; Lit "-"; Dm; Lit "-"; Dd];
    [Dd; Lit "/"; Dm; Lit "/"; DY];
    [Dd; Lit "-"; Db; Lit "-"; DY];
    [Dd; Lit "-"; DB; Lit "-"; DY];
    [DY; Dm; Dd] ].

Definition is_sep (c : ascii) : bool := Ascii.eqb c "-" || Ascii.eqb c "/".

(** [(\d{1,2})[-/]] at the start of [s]: the digits and the text after the
    separator. *)
Definition short_number (s : string) : option (string * string) :=
  match s with
  | String a (String b rest) =>
      if PyText.is_digit a && is_sep b then Some (String a "", rest)
      else
        match rest with
        | String c rest' =>
            if PyText.is_digit a && PyText.is_digit b && is_sep c
            then Some (String a (String b ""), rest')
            else None
        | EmptyString => None
        end
  | _ => None
  end.

(** [(\d{1,2})[-/](\d{1,2})[-/](\d{2,4})] at the start of [s]. *)
Definition match_dmy (s : string) : option (string * string * string) :=
  match short_number s with
  | Some (day, r1) =>
      match short_number r1 with
      | Some (month, r2) =>
          let year := PyFloat.take 4 (PyFloat.span_digits r2).1 in
          if (2 <=? String.length year)%nat then Some (day, month, year) else None
      | None => None
      end
  | None => None
  end.

(** [re.search] of that pattern: the leftmost match. *)
Fixpoint search_dmy (s : string) : option (string * string * string) :=
  match match_dmy s with
  | Some r => Some r
  | None =>
      match s with
      | String _ s' => search_dmy s'
      | EmptyString => None
      end
  end.

(** The last resort of [_parse_date]: a day-month-year pattern anywhere in
    the text, two-digit years pivoting at 50. *)
Definition extract_dmy (s : string) : option Timestamp :=
  match search_dmy s with
  | Some (day, month, year) =>
      let y := PyText.digits_value 0 year in
      let y := if (String.length year =? 2)%nat
               then (if y <? 50 then 2000 + y else 1900 + y) else y in
      make_date y (PyText.digits_value 0 month) (PyText.digits_value 0 day)
  | None => None
  end.

End Dates.

(** ** excel_to_json_converter.py *)

Module ExcelToJSONConverter.

(** [pd.isna(v)]. *)
Definition isna (v : Cell) : bool :=
  match v with
  | CFloat f => PrimFloat.is_nan f
  | _ => false
  end.

(** [str(v)]. *)
Definition str (v : Cell) : string :=
  match v with
  | CInt n => PyText.str_int n
  | CFloat f => PyFloat.repr f
  | CStr s => s
  | CTime t => Dates.str t
  end.

(** [row.iloc[col]]. *)
Definition iloc {A : Type} (row : list A) (col : nat) : Exc A :=
  match row !! col with
  | Some v => Ok v
  | None => Raise IndexError
  end.

Definition DATE_PATTERNS : list string :=
  ["date"; "tran date"; "txn date"; "transaction date"; "value date"].
Definition DESCRIPTION_PATTERNS : list string :=
  ["description"; "narration"; "particulars"; "details"; "transaction details"].
Definition DEBIT_PATTERNS : list string :=
  ["debit"; "withdrawal"; "dr"; "amount withdrawn"; "paid"].
Definition CREDIT_PATTERNS : list string :=
  ["credit"; "deposit"; "cr"; "amount deposited"; "received"].
Definition BALANCE_PATTERNS : list string :=
  ["balance"; "closing balance"; "available balance"].
Definition REFERENCE_PATTERNS : list string :=
  ["chq no"; "cheque"; "ref no"; "reference"; "transaction id"].

(** [any(pattern in text for pattern in patterns)]. *)
Definition any_in (patterns : list string) (text : string) : bool :=
  existsb (fun pattern => PyText.contains pattern text) patterns.

(** *** [_identify_structure] *)

(** The first of the rows, numbered from [idx], whose lower-cased text
    holds a date, debit or credit keyword. *)
Fixpoint find_header (idx : nat) (rows : DataFrame) : option nat :=
  match rows with
  | [] => None
  | row :: rest =>
      let row_text := PyText.join " " ((fun val => PyText.lower (str val)) <$> row) in
      if any_in (DATE_PATTERNS ++ DEBIT_PATTERNS ++ CREDIT_PATTERNS) row_text
      then Some idx
      else find_header (S idx) rest
  end.

(** The role a header cell names, in the priority of the [if / elif]
    chain. *)
Definition column_role (header : Cell) : option string :=
  let header_lower := PyText.strip (PyText.lower (str header)) in
  if any_in DATE_PATTERNS header_lower then Some "date"
  else if any_in DESCRIPTION_PATTERNS header_lower then Some "description"
  else if any_in DEBIT_PATTERNS header_lower then Some "debit"
  else if any_in CREDIT_PATTERNS header_lower then Some "credit"
  else if any_in BALANCE_PATTERNS header_lower then Some "balance"
  else if any_in REFERENCE_PATTERNS header_lower then Some "reference"
  else None.

(** [for col_idx, header in enumerate(header_values)], from [col_idx]. *)
Fixpoint map_columns (col_idx : nat) (header_values : list Cell)
    (column_mapping : gmap string nat) : gmap string nat :=
  match header_values with
  | [] => column_mapping
  | header :: rest =>
      map_columns (S col_idx) rest
        match column_role header with
        | Some role => <[role := col_idx]> column_mapping
        | None => column_mapping
        end
  end.

Definition _identify_structure (df : DataFrame) : Exc (nat * gmap string nat) :=
  let header_row := default 0%nat (find_header 0 (take 10 df)) in
  header_values ← iloc df header_row;
  Ok (header_row, map_columns 0 header_values ∅).

(** *** [_extract_metadata] *)

Record Metadata : Set := {
  bank_name : option string;
  account_number : option string;
  account_holder_name : option string;
  branch_name : option string;
  ifsc_code : option string;
  currency : string
}.

Definition bank_keywords : list string :=
  ["HDFC"; "ICICI"; "SBI"; "AXIS"; "KOTAK"; "YES BANK"; "PNB"; "BOB"; "BANK OF"].

(** The leftmost match of a pattern of the shape [\b ... \b]: [at_start s]
    gives the match starting at the head of [s] and the character after it
    is checked for the closing boundary by [at_start] itself;
    [prev_word] tells whether the character before [s] is a word
    character. *)
Fixpoint search_bounded (at_start : string -> option string) (prev_word : bool)
    (s : string) : option string :=
  match s with
  | EmptyString => None
  | String c s' =>
      match (if prev_word then None else at_start s) with
      | Some m => Some m
      | None => search_bounded at_start (PyText.is_word c) s'
      end
  end.

Definition ends_word (rest : string) : bool :=
  match rest with
  | EmptyString => true
  | String c _ => negb (PyText.is_word c)
  end.

(** [\d{10,16}\b] at the head of [s]. *)
Definition account_at (s : string) : option string :=
  let '(ds, rest) := PyFloat.span_digits s in
  let n := String.length ds in
  if (10 <=? n)%nat && (n <=? 16)%nat && ends_word rest then Some ds else None.

Definition is_upper_or_digit (c : ascii) : bool :=
  PyText.is_upper c || PyText.is_digit c.

Fixpoint all_chars (p : ascii -> bool) (s : string) : bool :=
  match s with
  | EmptyString => true
  | String c s' => p c && all_chars p s'
  end.

(** [[A-Z]{4}0[A-Z0-9]{6}\b] at the head of [s]. *)
Definition ifsc_at (s : string) : option string :=
  let code := PyFloat.take 11 s in
  if (String.length code =? 11)%nat
     && all_chars PyText.is_upper (PyFloat.take 4 code)
     && String.eqb (PyFloat.take 1 (PyFloat.drop 4 code)) "0"
     && all_chars is_upper_or_digit (PyFloat.drop 5 code)
     && ends_word (PyFloat.drop 11 s)
  then Some code else None.

(** The first bank keyword found in the upper-cased row text. *)
Definition find_bank (row_text : string) : option string :=
  List.find (fun bank => PyText.contains bank (PyText.upper row_text)) bank_keywords.

(** [' '.join([str(val) for val in row if pd.notna(val)])]. *)
Definition present_text (row : list Cell) : string :=
  PyText.join " " (str <$> filter (fun val => negb (isna val)) row).

(** The body of the loop over the rows above the header. *)
Definition scan_row (metadata : Metadata) (row : list Cell) : Metadata :=
  let row_text := present_text row in
  let acc_match := search_bounded account_at false row_text in
  let ifsc_match := search_bounded ifsc_at false row_text in
  {| bank_name :=
       match find_bank row_text with
       | Some bank => Some bank
       | None => bank_name metadata
       end;
     account_number :=
       match acc_match, account_number metadata with
       | Some m, None => Some m
       | _, current => current
       end;
     account_holder_name := account_holder_name metadata;
     branch_name := branch_name metadata;
     ifsc_code :=
       match ifsc_match with
       | Some m => Some m
       | None => ifsc_code metadata
       end;
     currency := currency metadata |}.

Definition empty_metadata : Metadata :=
  {| bank_name := None; account_number := None; account_holder_name := None;
     branch_name := None; ifsc_code := None; currency := "INR" |}.

(** [for idx in range(header_row)]: only rows above the header are read. *)
Definition _extract_metadata (df : DataFrame) (header_row : nat) : Exc Metadata :=
  if (length df <? header_row)%nat then Raise IndexError
  else Ok (fold_left scan_row (take header_row df) empty_metadata).

(** *** [_parse_amount] *)

(** The cleaning of the text of an amount: separators and currency marks
    are removed, and an opening parenthesis becomes a minus sign. *)
Definition clean_amount (amount_str : string) : string :=
  let amount_str :=
    PyText.strip
      (PyText.replace "INR" ""
         (PyText.replace "Rs" ""
            (PyText.replace "₹" "" (PyText.replace "," "" amount_str)))) in
  if PyText.contains "(" amount_str
  then PyText.replace ")" "" (PyText.replace "(" "-" amount_str)
  else amount_str.

Definition _parse_amount (amount_value : Cell) : float :=
  if isna amount_value then 0%float
  else
    match amount_value with
    | CInt n => default 0%float (PyFloat.of_int n)
    | CFloat f => f
    | _ =>
        let amount_str := clean_amount (str amount_value) in
        if String.eqb amount_str "" then 0%float
        else default 0%float (PyFloat.of_string amount_str)
    end.

(** *** [_parse_date] *)

Section Pandas.

(** [pd.to_datetime(date_str, dayfirst=True)], the library's own
    date parser; [None] when it raises or yields no date. *)
Variable pd_to_datetime : string -> option Timestamp.

Definition _parse_date (date_value : Cell) : option string :=
  if isna date_value then None
  else
    match date_value with
    | CTime t => Some (Dates.strftime t)
    | _ =>
        let date_str := PyText.strip (str date_value) in
        if any_in ["date"; "tran"; "txn"; "transaction"] (PyText.lower date_str)
        then None
        else
          match pd_to_datetime date_str with
          | Some dt => Some (Dates.strftime dt)
          | None =>
              match Dates.first_some (Dates.strptime date_str) Dates.formats with
              | Some dt => Some (Dates.strftime dt)
              | None => Dates.strftime <$> Dates.extract_dmy date_str
              end
          end
    end.

(** *** [_extract_transactions] *)

Record Transaction : Set := {
  date : string;
  description : string;
  debit : float;
  credit : float;
  balance : float;
  transaction_type : string;
  reference_number : option string
}.

(** The locals of the loop: the list built so far and the skip tallies. *)
Record Extraction : Set := {
  transactions : list Transaction;
  skipped_count : nat;
  skipped_reasons : gmap string nat
}.

Definition start : Extraction :=
  {| transactions := [];
     skipped_count := 0;
     skipped_reasons := <["empty_row" := 0%nat]> (<["no_date" := 0%nat]> (<["parse_fail" := 0%nat]> ∅)) |}.

(** [skipped_count += 1; skipped_reasons[reason] += 1; continue]. *)
Definition skip (reason : string) (st : Extraction) : Extraction :=
  {| transactions := transactions st;
     skipped_count := S (skipped_count st);
     skipped_reasons :=
       <[reason := S (default 0%nat (skipped_reasons st !! reason))]> (skipped_reasons st) |}.

Definition emit (t : Transaction) (st : Extraction) : Extraction :=
  {| transactions := transactions st ++ [t];
     skipped_count := skipped_count st;
     skipped_reasons := skipped_reasons st |}.

(** An amount column: [0.0] unless the role is mapped. *)
Definition amount_of (column_mapping : gmap string nat) (role : string)
    (row : list Cell) : Exc float :=
  match column_mapping !! role with
  | Some col => v ← iloc row col; Ok (_parse_amount v)
  | None => Ok 0%float
  end.

(** The fields of a row whose date parsed. *)
Definition build_transaction (column_mapping : gmap string nat) (row : list Cell)
    (parsed_date : string) : Exc Transaction :=
  description ←
    match column_mapping !! "description" with
    | Some desc_col => v ← iloc row desc_col; Ok (if isna v then "" else str v)
    | None => Ok ""
    end;
  debit ← amount_of column_mapping "debit" row;
  credit ← amount_of column_mapping "credit" row;
  balance ← amount_of column_mapping "balance" row;
  reference ←
    match column_mapping !! "reference" with
    | Some ref_col => v ← iloc row ref_col; Ok (if isna v then None else Some (str v))
    | None => Ok None
    end;
  let transaction_type := if PyFloat.gt credit 0%float then "credit" else "debit" in
  Ok {| date := parsed_date;
        description := PyText.strip description;
        debit := debit;
        credit := credit;
        balance := balance;
        transaction_type := transaction_type;
        reference_number := reference |}.

(** The body of the loop over the rows below the header. *)
Definition process_row (column_mapping : gmap string nat) (st : Extraction)
    (row : list Cell) : Exc Extraction :=
  if forallb isna row then Ok (skip "empty_row" st)
  else
    let date_col := default 0%nat (column_mapping !! "date") in
    date_value ← iloc row date_col;
    if isna date_value then Ok (skip "no_date" st)
    else
      match _parse_date date_value with
      | None | Some EmptyString => Ok (skip "parse_fail" st)
      | Some parsed_date =>
          transaction ← build_transaction column_mapping row parsed_date;
          Ok (emit transaction st)
      end.

(** [for idx, row in transactions_df.iterrows()]. *)
Fixpoint extract_loop (column_mapping : gmap string nat) (rows : DataFrame)
    (st : Extraction) : Exc Extraction :=
  match rows with
  | [] => Ok st
  | row :: rest =>
      st ← process_row column_mapping st row;
      extract_loop column_mapping rest st
  end.

Definition _extract_transactions (transactions_df : DataFrame)
    (column_mapping : gmap string nat) : Exc (list Transaction) :=
  st ← extract_loop column_mapping transactions_df start;
  Ok (transactions st).

(** *** [_calculate_summary] *)

Record Summary : Set := {
  statement_period_from : option string;
  statement_period_to : option string;
  opening_balance : float;
  closing_balance : float;
  total_credits : float;
  total_debits : float
}.

Definition _calculate_summary (transactions : list Transaction) : Summary :=
  match transactions with
  | [] =>
      {| statement_period_from := None; statement_period_to := None;
         opening_balance := 0; closing_balance := 0;
         total_credits := 0; total_debits := 0 |}
  | first :: _ =>
      let dates :=
        date <$> filter (fun t => negb (String.eqb (date t) "")) transactions in
      let total_credits := PyFloat.sum (credit <$> transactions) in
      let total_debits := PyFloat.sum (debit <$> transactions) in
      let opening_balance := (balance first - credit first + debit first)%float in
      let closing_balance := balance (List.last transactions first) in
      {| statement_period_from := head dates;
         statement_period_to := last dates;
         opening_balance := PyFloat.round2 opening_balance;
         closing_balance := PyFloat.round2 closing_balance;
         total_credits := PyFloat.round2 total_credits;
         total_debits := PyFloat.round2 total_debits |}
  end.

(** *** [convert], from the loaded data frame on *)

Definition py_option (o : option string) : PyVal :=
  match o with
  | Some s => PyStr s
  | None => PyNone
  end.

(** The dictionary the loop builds for a transaction. *)
Definition transaction_dict (t : Transaction) : gmap string PyVal :=
  <["date" := PyStr (date t)]>
    (<["description" := PyStr (description t)]>
       (<["debit" := PyFloat (debit t)]>
          (<["credit" := PyFloat (credit t)]>
             (<["balance" := PyFloat (balance t)]>
                (<["transaction_type" := PyStr (transaction_type t)]>
                   (<["reference_number" := py_option (reference_number t)]> ∅)))))).

(** [{**metadata, **summary, "transactions": ..., "number_of_transactions": ...}]. *)
Definition statement_dict (m : Metadata) (s : Summary) (ts : list Transaction)
  : gmap string PyVal :=
  <["bank_name" := py_option (bank_name m)]>
    (<["account_number" := py_option (account_number m)]>
       (<["account_holder_name" := py_option (account_holder_name m)]>
          (<["branch_name" := py_option (branch_name m)]>
             (<["ifsc_code" := py_option (ifsc_code m)]>
                (<["currency" := PyStr (currency m)]>
                   (<["statement_period_from" := py_option (statement_period_from s)]>
                      (<["statement_period_to" := py_option (statement_period_to s)]>
                         (<["opening_balance" := PyFloat (opening_balance s)]>
                            (<["closing_balance" := PyFloat (closing_balance s)]>
                               (<["total_credits" := PyFloat (total_credits s)]>
                                  (<["total_debits" := PyFloat (total_debits s)]>
                                     (<["transactions" := PyList (PyDict ∘ transaction_dict <$> ts)]>
                                        (<["number_of_transactions" := PyInt (Z.of_nat (length ts))]> ∅))))))))))))).

(** Steps 2 to 6 of [convert]; an exception makes [convert] answer
    [{"success": False, ...}], here [Raise]. *)
Definition convert (df : DataFrame) : Exc (gmap string PyVal) :=
  '(header_row, column_mapping) ← _identify_structure df;
  metadata ← _extract_metadata df header_row;
  let transactions_df := drop (S header_row) df in
  transactions ← _extract_transactions transactions_df column_mapping;
  let summary := _calculate_summary transactions in
  Ok (statement_dict metadata summary transactions).

End Pandas.

End ExcelToJSONConverter.

(** ** fallback_extractor.py *)

Module FallbackExtractor.

Definition banks : list string :=
  ["AXIS BANK"; "HDFC BANK"; "ICICI BANK"; "SBI"; "State Bank Of India";
   "YES BANK"; "KOTAK MAHINDRA BANK"; "PUNJAB NATIONAL BANK"; "PNB";
   "BANK OF BARODA"; "CANARA BANK"; "UNION BANK"; "IDBI BANK";
   "INDUSIND BANK"; "FEDERAL BANK"].

(** [extract_bank_from_text]: the first bank of the list whose upper-cased
    name occurs in the upper-cased text. *)
Definition extract_bank_from_text (text : string) : option string :=
  let text_upper := PyText.upper text in
  List.find (fun bank => PyText.contains (PyText.upper bank) text_upper) banks.

End FallbackExtractor.

(** ** extraction_validator.py *)

Module ExtractionValidator.

Import PyObj.

(** What a call can raise here: besides the exceptions of [PyExn],
    [float] of an [int] beyond the range of a float is an
    [OverflowError]. *)
Inductive Failure : Set :=
| Builtin (e : PyExn)
| OverflowError.

Inductive Outcome (A : Type) : Type :=
| Done (a : A)
| Fails (f : Failure).

Arguments Done {A} a.
Arguments Fails {A} f.

Definition of_exc {A : Type} (m : Exc A) : Outcome A :=
  match m with
  | Ok a => Done a
  | Raise e => Fails (Builtin e)
  end.

Inductive ValidationLevel : Set := PASSED | WARNINGS | CRITICAL_ERRORS.

Inductive IssueType : Set :=
| BALANCE_MISMATCH
| DATE_FORMAT_ERROR
| DATE_ORDER_ERROR
| MISSING_REQUIRED_FIELD
| TRANSACTION_COUNT_MISMATCH
| FUTURE_DATE
| BALANCE_PROGRESSION.

(** An entry of [self.issues].  The message and the details are not
    modelled, except for the transaction an issue is about. *)
Record ValidationIssue : Set := {
  issue_type : IssueType;
  severity : string;
  issue_index : option nat
}.

(** The result of [validate]; of the three check dictionaries nothing is
    kept. *)
Record ValidationResult : Set := {
  is_valid : bool;
  validation_level : ValidationLevel;
  issues : list ValidationIssue
}.

(** A method of the validator: it reads and extends [self.issues], and
    what it appended stays when it raises. *)
Definition Run (A : Type) : Type :=
  list ValidationIssue -> list ValidationIssue * Outcome A.

Definition ret {A : Type} (a : A) : Run A := fun issues => (issues, Done a).

Definition bind {A B : Type} (m : Run A) (k : A -> Run B) : Run B :=
  fun issues =>
    let '(issues, r) := m issues in
    match r with
    | Done a => k a issues
    | Fails f => (issues, Fails f)
    end.

(** A step that touches no issue. *)
Definition pure_step {A : Type} (o : Outcome A) : Run A := fun issues => (issues, o).

(** [self.issues.append(ValidationIssue(...))]. *)
Definition append (issue : ValidationIssue) : Run unit :=
  fun issues => ((issues ++ [issue])%list, Done tt).

(** [try: m  except <handled>: handler]. *)
Definition try_except {A : Type} (m : Run A) (handled : Failure -> bool)
    (handler : Run A) : Run A :=
  fun issues =>
    let '(issues, r) := m issues in
    match r with
    | Done a => (issues, Done a)
    | Fails f => if handled f then handler issues else (issues, Fails f)
    end.

(** [except (ValueError, TypeError)] and
    [except (ValueError, TypeError, KeyError)]: no call made here raises
    a [KeyError]. *)
Definition value_or_type_error (f : Failure) : bool :=
  match f with
  | Builtin ValueError | Builtin TypeError => true
  | _ => false
  end.

(** [float(v)]. *)
Definition to_float (v : PyVal) : Outcome float :=
  match v with
  | PyFloat f => Done f
  | PyInt n =>
      match PyFloat.of_int n with
      | Some f => Done f
      | None => Fails OverflowError
      end
  | PyBool b => Done (if b then 1 else 0)%float
  | PyStr s =>
      match PyFloat.of_string s with
      | Some f => Done f
      | None => Fails (Builtin ValueError)
      end
  | PyNone | PyList _ | PyDict _ => Fails (Builtin TypeError)
  end.

(** [v + x] for a float [x]: a number is converted as [float] does. *)
Definition add_float (v : PyVal) (x : float) : Outcome float :=
  match v with
  | PyFloat _ | PyInt _ | PyBool _ =>
      match to_float v with
      | Done f => Done (f + x)%float
      | Fails f => Fails f
      end
  | PyNone | PyStr _ | PyList _ | PyDict _ => Fails (Builtin TypeError)
  end.

(** [v != n] for an [int] [n]: numbers compare by value, anything else
    differs from a number. *)
Definition differs (v : PyVal) (n : Z) : bool :=
  match v with
  | PyInt k => negb (k =? n)
  | PyBool b => negb ((if b then 1 else 0) =? n)
  | PyFloat f =>
      match PyFloat.exact f with
      | Some (m, e) => negb (if 0 <=? e then m * 2 ^ e =? n else m =? n * 2 ^ (- e))
      | None => true
      end
  | PyNone | PyStr _ | PyList _ | PyDict _ => true
  end.

Definition BALANCE_TOLERANCE : float := 0.5%float.

Definition REQUIRED_FIELDS : list string :=
  ["statement_period_from"; "statement_period_to"; "opening_balance";
   "closing_balance"; "transactions"].

Definition issue (ty : IssueType) (sev : string) (idx : option nat) : ValidationIssue :=
  {| issue_type := ty; severity := sev; issue_index := idx |}.

(** [field not in data or data[field] is None]. *)
Definition missing (data : gmap string PyVal) (field : string) : bool :=
  match data !! field with
  | None | Some PyNone => true
  | Some _ => false
  end.

Fixpoint report_missing (data : gmap string PyVal) (fields : list string) : Run unit :=
  match fields with
  | [] => ret tt
  | field :: rest =>
      bind (if missing data field
            then append (issue MISSING_REQUIRED_FIELD "ERROR" None)
            else ret tt)
           (fun _ => report_missing data rest)
  end.

(** [_validate_completeness]: nothing stands in a [try]. *)
Definition _validate_completeness (data : gmap string PyVal) : Run unit :=
  bind (report_missing data REQUIRED_FIELDS) (fun _ =>
  let declared_count := dict_get data "number_of_transactions" (PyInt 0) in
  bind (pure_step (of_exc (DateSequencingValidator.len
                             (dict_get data "transactions" (PyList []))))) (fun actual_count =>
  if differs declared_count (Z.of_nat actual_count)
  then append (issue TRANSACTION_COUNT_MISMATCH "WARNING" None)
  else ret tt)).

(** The body of the [try] of one iteration of
    [_validate_transaction_balances]: the new [prev_balance] and whether a
    progression issue is to be appended. *)
Definition check_progression (txn prev_balance : PyVal) : Outcome (float * bool) :=
  match of_exc (get txn "debit" (PyInt 0)) with
  | Fails f => Fails f
  | Done debit_value =>
  match to_float debit_value with
  | Fails f => Fails f
  | Done debit =>
  match of_exc (get txn "credit" (PyInt 0)) with
  | Fails f => Fails f
  | Done credit_value =>
  match to_float credit_value with
  | Fails f => Fails f
  | Done credit =>
  match of_exc (get txn "balance" (PyInt 0)) with
  | Fails f => Fails f
  | Done balance_value =>
  match to_float balance_value with
  | Fails f => Fails f
  | Done balance =>
  match add_float prev_balance credit with
  | Fails f => Fails f
  | Done sum =>
      let expected_balance := (sum - debit)%float in
      let difference := PrimFloat.abs (balance - expected_balance) in
      Done (balance, PyFloat.gt difference BALANCE_TOLERANCE)
  end end end end end end end.

(** [for i, txn in enumerate(transactions)], from index [i]; the state is
    [prev_balance] and [valid]. *)
Fixpoint progression_loop (i : nat) (transactions : list PyVal)
    (prev_balance : PyVal) (valid : bool) : Run bool :=
  match transactions with
  | [] => ret valid
  | txn :: rest =>
      bind
        (try_except
           (bind (pure_step (check_progression txn prev_balance)) (fun '(balance, off) =>
            bind (if off : bool
                  then append (issue BALANCE_PROGRESSION "WARNING" (Some i))
                  else ret tt) (fun _ =>
            ret (PyFloat balance, if off then false else valid))))
           value_or_type_error
           (ret (prev_balance, false)))
        (fun '(prev_balance, valid) => progression_loop (S i) rest prev_balance valid)
  end.

Definition _validate_transaction_balances (data : gmap string PyVal) : Run bool :=
  let transactions := dict_get data "transactions" (PyList []) in
  if negb (truthy transactions) then ret true
  else
    let prev_balance := dict_get data "opening_balance" (PyInt 0) in
    bind (pure_step (of_exc (iterate transactions))) (fun transactions =>
    progression_loop 0 transactions prev_balance true).

Definition _validate_balance_reconciliation (data : gmap string PyVal) : Run unit :=
  try_except
    (bind (pure_step (to_float (dict_get data "opening_balance" (PyInt 0)))) (fun opening =>
     bind (pure_step (to_float (dict_get data "closing_balance" (PyInt 0)))) (fun closing =>
     bind (pure_step (to_float (dict_get data "total_credits" (PyInt 0)))) (fun total_credits =>
     bind (pure_step (to_float (dict_get data "total_debits" (PyInt 0)))) (fun total_debits =>
     let expected_closing := (opening + total_credits - total_debits)%float in
     let difference := PrimFloat.abs (closing - expected_closing) in
     let is_balanced := PrimFloat.leb difference BALANCE_TOLERANCE in
     bind (if is_balanced then ret tt
           else append (issue BALANCE_MISMATCH "ERROR" None)) (fun _ =>
     bind (_validate_transaction_balances data) (fun _ => ret tt)))))))
    value_or_type_error
    (append (issue BALANCE_MISMATCH "ERROR" None)).

(** [str(v)] for a value that is not a container. *)
Definition str (v : PyVal) : option string :=
  match v with
  | PyNone => Some "None"
  | PyBool b => Some (if b then "True" else "False")
  | PyInt n => Some (PyText.str_int n)
  | PyFloat f => Some (PyFloat.repr f)
  | PyStr s => Some s
  | PyList _ | PyDict _ => None
  end.

(** [_parse_date]: a date, as a [datetime] at midnight.  The text of a
    list or a dictionary starts with a bracket, which neither format
    accepts. *)
Definition _parse_date (date_str : PyVal) : option Timestamp :=
  if negb (truthy date_str) then None
  else
    match str date_str with
    | Some text =>
        match Dates.strptime text
                [Dates.DY; Dates.Lit "-"; Dates.Dm; Dates.Lit "-"; Dates.Dd] with
        | Some d => Some d
        | None =>
            Dates.strptime text
              [Dates.Dd; Dates.Lit "-"; Dates.Dm; Dates.Lit "-"; Dates.DY]
        end
    | None => None
    end.

(** [a < b] on dates. *)
Definition date_lt (a b : Timestamp) : bool :=
  (ts_year a <? ts_year b)
  || ((ts_year a =? ts_year b)
      && ((ts_month a <? ts_month b)
          || ((ts_month a =? ts_month b) && (ts_day a <? ts_day b)))).

Section Clock.

(** [datetime.now().date()]. *)
Variable today : Timestamp.

(** The loop of [_validate_dates], from index [i]. *)
Fixpoint dates_loop (i : nat) (transactions : list PyVal) (prev_date : option Timestamp)
  : Run unit :=
  match transactions with
  | [] => ret tt
  | txn :: rest =>
      bind (pure_step (of_exc (get txn "date" PyNone))) (fun txn_date_str =>
      match _parse_date txn_date_str with
      | None =>
          bind (append (issue DATE_FORMAT_ERROR "WARNING" (Some i))) (fun _ =>
          dates_loop (S i) rest prev_date)
      | Some txn_date =>
          bind (if date_lt today txn_date
                then append (issue FUTURE_DATE "WARNING" (Some i))
                else ret tt) (fun _ =>
          bind (match prev_date with
                | Some prev =>
                    if date_lt txn_date prev
                    then append (issue DATE_ORDER_ERROR "WARNING" (Some i))
                    else ret tt
                | None => ret tt
                end) (fun _ =>
          dates_loop (S i) rest (Some txn_date)))
      end)
  end.

(** [_validate_dates]: everything stands in [try ... except Exception]. *)
Definition _validate_dates (data : gmap string PyVal) : Run unit :=
  try_except
    (let from_date := _parse_date (dict_get data "statement_period_from" PyNone) in
     let to_date := _parse_date (dict_get data "statement_period_to" PyNone) in
     bind (match from_date, to_date with
           | Some from_date, Some to_date =>
               if date_lt to_date from_date
               then append (issue DATE_ORDER_ERROR "ERROR" None)
               else ret tt
           | _, _ => ret tt
           end) (fun _ =>
     bind (pure_step (of_exc (iterate (dict_get data "transactions" (PyList []))))) (fun transactions =>
     dates_loop 0 transactions None)))
    (fun _ => true)
    (ret tt).

(** [validate]. *)
Definition validate (data : gmap string PyVal) : Outcome ValidationResult :=
  let '(issues, r) :=
    bind (_validate_completeness data) (fun _ =>
    bind (_validate_balance_reconciliation data) (fun _ =>
    _validate_dates data)) [] in
  match r with
  | Fails f => Fails f
  | Done _ =>
      let has_errors := existsb (fun i => String.eqb (severity i) "ERROR") issues in
      let has_warnings := existsb (fun i => String.eqb (severity i) "WARNING") issues in
      Done {| is_valid := negb has_errors;
              validation_level :=
                if has_errors then CRITICAL_ERRORS
                else if has_warnings then WARNINGS else PASSED;
              issues := issues |}
  end.

End Clock.

End ExtractionValidator.

(** ** direct_excel_processor.py *)

Module DirectExcelProcessor.

(** [process_excel], from the loaded data frame on: the converted
    statement with its validation, or [None] for
    [{"success": False, ...}]. *)
Definition process_excel (pd_to_datetime : string -> option Timestamp)
    (today : Timestamp) (df : DataFrame)
  : option (gmap string PyVal * ExtractionValidator.ValidationResult) :=
  match ExcelToJSONConverter.convert pd_to_datetime df with
  | Raise _ => None
  | Ok extracted_data =>
      match ExtractionValidator.validate today extracted_data with
      | ExtractionValidator.Fails _ => None
      | ExtractionValidator.Done validation_result =>
          Some (extracted_data, validation_result)
      end
  end.

End DirectExcelProcessor.

(** ** The checks across statements *)

(** [BalanceValidator.validate_multi_statement_continuity]. *)
Module BalanceContinuity.

Import PyObj PyDecimal BalanceValidator.

Section Sorting.

(** [sorted(statements, key=key)]. *)
Variable sorted : (PyVal -> Exc PyVal) -> list PyVal -> Exc (list PyVal).

(** [for i in range(len(statements) - 1)]: [current] is the head of the
    list and [next_stmt] the item after it. *)
Fixpoint continuity_loop (self : BalanceValidator) (statements : list PyVal)
    (result : ValidationResult) : Exc ValidationResult :=
  match statements with
  | [] => Ok result
  | current :: rest =>
      match rest with
      | [] => Ok result
      | next_stmt :: _ =>
          closing_value ← get current "closing_balance" PyNone;
          current_closing ← _to_decimal closing_value;
          opening_value ← get next_stmt "opening_balance" PyNone;
          next_opening ← _to_decimal opening_value;
          match current_closing, next_opening with
          | Some current_closing, Some next_opening =>
              let difference := abs (sub current_closing next_opening) in
              over ← gt difference (tolerance self);
              continuity_loop self rest
                (if over : bool
                 then add_error result
                        (mk_error CROSS_DOC_INCONSISTENCY ERROR None None None None)
                 else result)
          | _, _ => continuity_loop self rest result
          end
      end
  end.

Definition validate_multi_statement_continuity (self : BalanceValidator)
    (statements : list PyVal) (sort_by_date : bool) : Exc ValidationResult :=
  let result := new_result (validator_name ++ "_multi") in
  if (length statements <? 2)%nat
  then Ok (add_warning result (mk_warning "insufficient_statements" None))
  else
    statements ←
      (if sort_by_date
       then sorted (fun s => get s "statement_period_to" (PyStr "1900-01-01")) statements
       else Ok statements);
    continuity_loop self statements result.

End Sorting.

End BalanceContinuity.

(** [DateSequencingValidator.validate_multi_statement_periods]. *)
Module PeriodContinuity.

Import PyObj.

Section Library.

Variable DateTime : Type.
Variable datetime_of_text : string -> option DateTime.
Variable lt : DateTime -> DateTime -> Exc bool.
Variable days_between : DateTime -> DateTime -> Exc Z.

(** [sorted(statements, key=key)]. *)
Variable sorted : (PyVal -> Exc PyVal) -> list PyVal -> Exc (list PyVal).

Fixpoint periods_loop (statements : list PyVal) (result : ValidationResult)
  : Exc ValidationResult :=
  match statements with
  | [] => Ok result
  | current :: rest =>
      match rest with
      | [] => Ok result
      | next_stmt :: _ =>
          to_value ← get current "statement_period_to" PyNone;
          from_value ← get next_stmt "statement_period_from" PyNone;
          match DateSequencingValidator._parse_date DateTime datetime_of_text to_value,
                DateSequencingValidator._parse_date DateTime datetime_of_text from_value with
          | Some current_to, Some next_from =>
              overlapping ← DateSequencingValidator.le DateTime lt next_from current_to;
              result ←
                (if overlapping : bool then
                   _ ← days_between current_to next_from;
                   Ok (add_error result
                         (DateSequencingValidator.mk_error CROSS_DOC_INCONSISTENCY None None))
                 else Ok result);
              days ← days_between next_from current_to;
              let gap_days := days - 1 in
              periods_loop rest
                (if 7 <? gap_days
                 then add_warning result
                        (DateSequencingValidator.mk_warning "statement_gap" None [])
                 else result)
          | _, _ => periods_loop rest result
          end
      end
  end.

Definition validate_multi_statement_periods (statements : list PyVal)
    (sort_by_date : bool) : Exc ValidationResult :=
  let result := new_result (DateSequencingValidator.validator_name ++ "_multi") in
  if (length statements <? 2)%nat then Ok result
  else
    statements ←
      (if sort_by_date
       then sorted (fun s => get s "statement_period_from" (PyStr "1900-01-01")) statements
       else Ok statements);
    periods_loop statements result.

End Library.

End PeriodContinuity.

(** * Properties *)

(** ** Checks of the models of the built-ins *)

Example replace_commas : PyText.replace "," "" "(1,250.50)" = "(1250.50)".
Proof. reflexivity. Qed.

Example strip_both : PyText.strip "  12 000 	" = "12 000".
Proof. reflexivity. Qed.

Example str_int_neg : PyText.str_int (-1205) = "-1205".
Proof. reflexivity. Qed.

Example str_int_zero : PyText.str_int 0 = "0".
Proof. reflexivity. Qed.

Example float_of_tenth : PyFloat.of_string "0.1" = Some 0.1%float.
Proof. vm_compute. reflexivity. Qed.

Example float_of_exponent : PyFloat.of_string " 1_0.5e-1 " = Some 1.05%float.
Proof. vm_compute. reflexivity. Qed.

Example float_of_huge : PyFloat.of_string "1e400" = Some infinity.
Proof. vm_compute. reflexivity. Qed.

Example float_of_max : PyFloat.of_string "1.7976931348623157e308" = Some 0x1.fffffffffffffp+1023%float.
Proof. vm_compute. reflexivity. Qed.

Example float_of_denormal : PyFloat.of_string "5e-324" = Some 0x1p-1074%float.
Proof. vm_compute. reflexivity. Qed.

Example float_of_word : PyFloat.of_string "abc" = None.
Proof. reflexivity. Qed.

Example float_of_bad_underscore : PyFloat.of_string "1__0" = None.
Proof. reflexivity. Qed.

Example repr_sum : PyFloat.repr (0.1 + 0.2)%float = "0.30000000000000004".
Proof. vm_compute. reflexivity. Qed.

Example repr_int : PyFloat.repr 15000%float = "15000.0".
Proof. vm_compute. reflexivity. Qed.

Example repr_big : PyFloat.repr 1e16%float = "1e+16".
Proof. vm_compute. reflexivity. Qed.

Example repr_small : PyFloat.repr 0.00001%float = "1e-05".
Proof. vm_compute. reflexivity. Qed.

Example repr_fixed_small : PyFloat.repr (-0.0001)%float = "-0.0001".
Proof. vm_compute. reflexivity. Qed.

Example repr_denormal : PyFloat.repr 0x1p-1074%float = "5e-324".
Proof. vm_compute. reflexivity. Qed.

Example repr_max : PyFloat.repr 0x1.fffffffffffffp+1023%float = "1.7976931348623157e+308".
Proof. vm_compute. reflexivity. Qed.

Example repr_two53 : PyFloat.repr 0x1p+53%float = "9007199254740992.0".
Proof. vm_compute. reflexivity. Qed.

Example round2_tie : PyFloat.round2 0.125%float = 0.12%float.
Proof. vm_compute. reflexivity. Qed.

Example round2_inexact : PyFloat.round2 2.675%float = 2.67%float.
Proof. vm_compute. reflexivity. Qed.

Example round2_neg : PyFloat.round2 (-1250.505)%float = (-1250.51)%float.
Proof. vm_compute. reflexivity. Qed.

Example quantize_half_up : quantize2 (Fin 5 (-3)) = Ok (Fin 1 (-2)).
Proof. reflexivity. Qed.

Example quantize_neg_half_up : quantize2 (Fin (-12345) (-3)) = Ok (Fin (-1235) (-2)).
Proof. reflexivity. Qed.

Example quantize_too_large : quantize2 (Fin 1 30) = Raise InvalidOperation.
Proof. vm_compute. reflexivity. Qed.

Example quantize_at_limit : quantize2 (Fin 1 25) = Ok (Fin (10 ^ 27) (-2)).
Proof. vm_compute. reflexivity. Qed.

Example decimal_of_word : of_string_quantized "abc" = Raise InvalidOperation.
Proof. reflexivity. Qed.

Example decimal_of_grouped : of_string_quantized " 1_000.5 " = Ok (Fin 100050 (-2)).
Proof. reflexivity. Qed.

Example decimal_of_float : of_float_quantized 15000%float = Ok (Fin 1500000 (-2)).
Proof. vm_compute. reflexivity. Qed.

Example decimal_of_float_half : of_float_quantized 0.125%float = Ok (Fin 13 (-2)).
Proof. vm_compute. reflexivity. Qed.

Example decimal_add_rounds :
  add (Fin (10 ^ 28 - 1) 0) (Fin (10 ^ 28 - 1) 0) = Fin (2 * 10 ^ 27) 1.
Proof. vm_compute. reflexivity. Qed.

Example chars_ascii : PyObj.chars "ab" = ["a"; "b"].
Proof. reflexivity. Qed.

Example chars_rupee : length (PyObj.chars "₹1") = 2%nat.
Proof. reflexivity. Qed.

Example strptime_dmy :
  Dates.strftime <$> Dates.strptime "01-01-2024" [Dates.Dd; Dates.Lit "-"; Dates.Dm; Dates.Lit "-"; Dates.DY]
  = Some "2024-01-01".
Proof. reflexivity. Qed.

Example strptime_backtracks :
  Dates.strftime <$> Dates.strptime "202411" [Dates.DY; Dates.Dm; Dates.Dd] = Some "2024-01-01".
Proof. reflexivity. Qed.

Example strptime_leftover :
  Dates.strptime "20241234" [Dates.DY; Dates.Dm; Dates.Dd] = None.
Proof. reflexivity. Qed.

Example strptime_month_name :
  Dates.strftime <$> Dates.strptime "01-JANUARY-2024" [Dates.Dd; Dates.Lit "-"; Dates.DB; Dates.Lit "-"; Dates.DY]
  = Some "2024-01-01".
Proof. reflexivity. Qed.

Example strptime_no_such_day :
  Dates.strptime "29-02-2023" [Dates.Dd; Dates.Lit "-"; Dates.Dm; Dates.Lit "-"; Dates.DY] = None.
Proof. reflexivity. Qed.

Example extract_dmy_inside : Dates.strftime <$> Dates.extract_dmy "123-4-2024" = Some "2024-04-23".
Proof. reflexivity. Qed.

Example extract_dmy_pivot : Dates.strftime <$> Dates.extract_dmy "1-1-50" = Some "1950-01-01".
Proof. reflexivity. Qed.

Example extract_dmy_short_year : Dates.strftime <$> Dates.extract_dmy "1-2-345" = Some "345-02-01".
Proof. reflexivity. Qed.

Example amount_plain : ExcelToJSONConverter._parse_amount (CStr "Rs 1,00,000.75") = 100000.75%float.
Proof. vm_compute. reflexivity. Qed.

Example amount_word : ExcelToJSONConverter._parse_amount (CStr "N/A") = 0%float.
Proof. vm_compute. reflexivity. Qed.

Example account_found :
  ExcelToJSONConverter.search_bounded ExcelToJSONConverter.account_at false "A/c No: 123456789012 (SB)"
  = Some "123456789012".
Proof. reflexivity. Qed.

Example account_glued :
  ExcelToJSONConverter.search_bounded ExcelToJSONConverter.account_at false "AC123456789012"
  = None.
Proof. reflexivity. Qed.

Example ifsc_found :
  ExcelToJSONConverter.search_bounded ExcelToJSONConverter.ifsc_at false "IFSC: HDFC0001234."
  = Some "HDFC0001234".
Proof. reflexivity. Qed.

(** ** The status of a validation result *)

Lemma status_call_not_passed (r : ValidationResult) (c : Call) :
  status r ≠ "passed" → status (call r c) = status r.
Proof.
  intros Hne. destruct c as [e | w]; simpl;
    destruct (String.eqb_spec (status r) "passed"); congruence.
Qed.

(** Once a result has left ["passed"], no later call changes its status. *)
Lemma status_sticky (cs : list Call) (r : ValidationResult) :
  status r ≠ "passed" → status (calls r cs) = status r.
Proof.
  revert r. induction cs as [| c cs IH]; intros r Hne; [reflexivity |].
  unfold calls in *. simpl. rewrite IH.
  - apply status_call_not_passed, Hne.
  - rewrite status_call_not_passed by exact Hne. exact Hne.
Qed.

(** The status of a fresh result is decided by the first call made on it. *)
Lemma status_follows_first_call (name : string) (c : Call) (cs : list Call) :
  status (calls (new_result name) (c :: cs))
  = if is_error_call c then "failed" else "warnings".
Proof.
  change (calls (new_result name) (c :: cs)) with (calls (call (new_result name) c) cs).
  rewrite status_sticky; destruct c; simpl; congruence.
Qed.

Lemma errors_calls_app (cs : list Call) (r : ValidationResult) (e : ValidationError) :
  errors (calls r (cs ++ [AddError e])) = (errors (calls r cs) ++ [e])%list.
Proof.
  unfold calls. rewrite fold_left_app. reflexivity.
Qed.

(** C2.  After [add_warning] followed, possibly after further calls, by
    [add_error], the status of a fresh result is ["warnings"], although an
    error has been added and the specification derives ["failed"]:
    [add_error] sets ["failed"] only while the status is still
    ["passed"]. *)
Theorem add_error_after_warning_keeps_warnings
    (name : string) (w : ValidationWarning) (cs : list Call) (e : ValidationError) :
  let made := AddWarning w :: cs ++ [AddError e] in
  let r := calls (new_result name) made in
  status r = "warnings" ∧ has_errors r = true ∧ passed r = false
  ∧ derived_status made = "failed".
Proof.
  intros made r. subst made r. split; [| split; [| split]].
  - apply (status_follows_first_call name (AddWarning w)).
  - unfold has_errors.
    change (calls (new_result name) (AddWarning w :: cs ++ [AddError e]))
      with (calls (call (new_result name) (AddWarning w)) (cs ++ [AddError e])).
    rewrite errors_calls_app, length_app. simpl.
    apply Nat.ltb_lt. lia.
  - change (calls (new_result name) (AddWarning w :: cs ++ [AddError e]))
      with (calls (call (new_result name) (AddWarning w)) (cs ++ [AddError e])).
    unfold calls. rewrite fold_left_app. reflexivity.
  - unfold derived_status. simpl. rewrite existsb_app. simpl.
    rewrite orb_true_r. reflexivity.
Qed.

(** The status agrees with the derived one when the calls are all of one
    kind or an error comes first. *)
Lemma status_derived_when_error_first (name : string) (e : ValidationError) (cs : list Call) :
  status (calls (new_result name) (AddError e :: cs)) = derived_status (AddError e :: cs).
Proof.
  rewrite status_follows_first_call. reflexivity.
Qed.

Lemma existsb_fmap {A B : Type} (f : B -> bool) (g : A -> B) (l : list A) :
  existsb f (g <$> l) = existsb (fun a => f (g a)) l.
Proof.
  induction l as [| a l IH]; [reflexivity |].
  rewrite fmap_cons. simpl. rewrite IH. reflexivity.
Qed.

Lemma list_sum_pos (l : list nat) :
  (0 <? list_sum l)%nat = existsb (fun n => (0 <? n)%nat) l.
Proof.
  induction l as [| n l IH]; [reflexivity |].
  simpl. rewrite <- IH.
  destruct n; simpl; [reflexivity |].
  apply Nat.ltb_lt. lia.
Qed.

(** The aggregate works from the counts, so it does give errors
    precedence over warnings. *)
Lemma from_results_status (id : string) (rs : list (string * ValidationResult)) :
  overall_status (from_results id rs)
  = if existsb (fun r => has_errors r.2) rs then "failed"
    else if existsb (fun r => has_warnings r.2) rs then "warnings"
    else "passed".
Proof.
  unfold from_results. simpl.
  rewrite !list_sum_pos, !existsb_fmap. reflexivity.
Qed.

(** ** The progression check of the balance validator *)

Import BalanceValidator.

(** A transaction dictionary with integer amounts. *)
Definition transaction_of (debit credit balance : Z) : PyVal :=
  PyDict (<["debit" := PyInt debit]>
            (<["credit" := PyInt credit]> (<["balance" := PyInt balance]> ∅))).

(** Opening balance 10000; a salary credit of 5000 (balance 15000), then a
    withdrawal of 2000 whose stated balance, 9000, is wrong (13000 is
    expected), then a withdrawal of 1000 whose stated balance, 8000,
    continues from the stated 9000. *)
Definition one_bad_row : gmap string PyVal :=
  <["opening_balance" := PyInt 10000]>
    (<["transactions" :=
         PyList [transaction_of 0 5000 15000;
                 transaction_of 2000 0 9000;
                 transaction_of 1000 0 8000]]> ∅).

(** In the branch that records a mismatch the running balance is left as
    it was before the transaction: it is neither advanced to the expected
    balance nor set to the stated one. *)
Lemma mismatch_keeps_running_balance
    (self : BalanceValidator) (idx : nat) (transaction : PyVal)
    (running : Decimal) (result : ValidationResult)
    (debit credit : option Decimal) (stated expected : Decimal) :
  PyObj.get transaction "debit" (PyInt 0) ≫= _to_decimal = Ok debit →
  PyObj.get transaction "credit" (PyInt 0) ≫= _to_decimal = Ok credit →
  PyObj.get transaction "balance" PyNone ≫= _to_decimal = Ok (Some stated) →
  expected_balance running debit credit = Ok expected →
  gt (abs (sub stated expected)) (tolerance self) = Ok true →
  let after := check_transaction self idx transaction (running, result) in
  after.1 = running ∧ length (errors after.2) = S (length (errors result)).
Proof.
  intros Hd Hc Hb He Hgt after. subst after.
  unfold check_transaction.
  rewrite Hd, Hc, Hb. cbn [mbind exc_bind bind].
  rewrite He. cbn [mbind exc_bind bind].
  rewrite Hgt. cbn [mbind exc_bind bind].
  destruct (PyObj.get transaction "description" (PyStr "")) as [description | ex];
    cbn [mbind exc_bind bind catch];
    [ destruct (PyObj.sliceable description); cbn [mbind exc_bind bind catch];
      [ destruct (require debit); cbn [mbind exc_bind bind catch] | ] | ];
    (split; [reflexivity | cbn; rewrite length_app; cbn; lia]).
Qed.

(** C1.  On [one_bad_row] the progression check records the mismatch of
    the second transaction and then a second mismatch for the third one:
    its expected balance is 14000.00, the running balance 15000 from before
    the bad row less 1000, and not 8000.00, which the stated 9000 would
    give.  The running balance was not resynchronized. *)
Theorem bad_row_is_not_resynchronized :
  errors <$> _validate_transaction_balances get_balance_validator one_bad_row
               (new_result validator_name)
  = Ok [ mk_error BALANCE_MISMATCH ERROR (Some "transactions[1].balance")
           (Some (Fin 1300000 (-2))) (Some (Fin 900000 (-2))) (Some 1%nat);
         mk_error BALANCE_MISMATCH ERROR (Some "transactions[2].balance")
           (Some (Fin 1400000 (-2))) (Some (Fin 800000 (-2))) (Some 2%nat) ].
Proof.
  vm_compute. reflexivity.
Qed.

(** With the second row stated correctly the third one is expected at
    12000.00: the bad row changed what is expected of the row after it. *)
Example good_rows_expected :
  (walk get_balance_validator 0
     [transaction_of 0 5000 15000; transaction_of 2000 0 13000]
     (Fin 1000000 (-2), new_result validator_name)).1
  = Fin 1300000 (-2).
Proof. vm_compute. reflexivity. Qed.

(** ** Exceptions out of the balance validator *)

(** The docstring of [_to_decimal] promises [None] for an invalid value;
    text that is no number raises instead. *)
Lemma to_decimal_raises_on_text : _to_decimal (PyStr "abc") = Raise InvalidOperation.
Proof. reflexivity. Qed.

(** An exception of the opening balance conversion, or of the iteration
    over the transactions, leaves [_validate_transaction_balances]: these
    steps stand outside its [try]. *)
Lemma opening_balance_exception_propagates
    (self : BalanceValidator) (statement_data : gmap string PyVal) (e : PyExn) :
  PyObj.truthy (PyObj.dict_get statement_data "transactions" (PyList [])) = true →
  _to_decimal (PyObj.dict_get statement_data "opening_balance" PyNone) = Raise e →
  validate_statement self statement_data = Raise e.
Proof.
  intros Ht He. unfold validate_statement, _validate_transaction_balances.
  rewrite Ht, He. reflexivity.
Qed.

(** A statement whose opening balance is the text ["abc"] and whose only
    transaction has no date and a null description. *)
Definition malformed_statement : gmap string PyVal :=
  <["opening_balance" := PyStr "abc"]>
    (<["closing_balance" := PyInt 100]>
       (<["transactions" :=
            PyList [PyDict (<["debit" := PyInt 0]>
                              (<["credit" := PyInt 0]>
                                 (<["balance" := PyInt 100]>
                                    (<["description" := PyNone]> ∅))))]]> ∅)).

(** C5.  On [malformed_statement] neither validator returns a result.
    The balance validator raises [decimal.InvalidOperation]: check 1
    catches it and reports it, check 2 converts the same field outside its
    [try].  The date validator, whatever the date library does, raises
    [TypeError]: reporting the missing date slices the null description. *)
Theorem validate_statement_raises_on_malformed_statement
    (DateTime Date : Type) `{EqDecision Date}
    (datetime_of_text : string -> option DateTime) (now : DateTime)
    (lt : DateTime -> DateTime -> Exc bool)
    (days_between : DateTime -> DateTime -> Exc Z) (date_of : DateTime -> Date) :
  validate_statement get_balance_validator malformed_statement = Raise InvalidOperation
  ∧ errors (_validate_opening_closing get_balance_validator malformed_statement
              (new_result validator_name))
    = [mk_error CALCULATION_ERROR ERROR None None None None]
  ∧ DateSequencingValidator.validate_statement DateTime Date datetime_of_text now lt
      days_between date_of DateSequencingValidator.get_date_validator
      malformed_statement
    = Raise TypeError.
Proof.
  split; [| split].
  - apply opening_balance_exception_propagates; reflexivity.
  - reflexivity.
  - reflexivity.
Qed.

(** A total that is no number leaves check 3 the same way. *)
Example totals_raise :
  validate_statement get_balance_validator
    (<["opening_balance" := PyInt 100]>
       (<["closing_balance" := PyInt 100]>
          (<["total_credits" := PyStr "n/a"]>
             (<["transactions" := PyList [transaction_of 0 0 100]]> ∅))))
  = Raise InvalidOperation.
Proof. vm_compute. reflexivity. Qed.

(** ** The expected balance of a transaction *)




(** On a transaction whose credit is positive, the whole step of the
    progression check is the same for any two valid debit amounts. *)
Lemma check_transaction_ignores_debit
    (self : BalanceValidator) (idx : nat) (t : gmap string PyVal)
    (debit1 debit2 : PyVal) (d1 d2 credit : Decimal)
    (state : Decimal * ValidationResult) :
  _to_decimal debit1 = Ok (Some d1) →
  _to_decimal debit2 = Ok (Some d2) →
  _to_decimal (PyObj.dict_get t "credit" (PyInt 0)) = Ok (Some credit) →
  gt credit zero = Ok true →
  check_transaction self idx (PyDict (<["debit" := debit1]> t)) state
  = check_transaction self idx (PyDict (<["debit" := debit2]> t)) state.
Proof.
  intros H1 H2 Hc Hpos. destruct state as [running result].
  unfold check_transaction, PyObj.get, PyObj.dict_get in *.
  rewrite !lookup_insert_eq.
  rewrite !lookup_insert_ne by discriminate.
  cbn [mbind exc_bind bind].
  rewrite H1, H2, Hc. cbn [mbind exc_bind bind].
  unfold expected_balance. cbn [require mbind exc_bind bind].
  rewrite Hpos. cbn [mbind exc_bind bind].
  reflexivity.
Qed.

(** ** Amount cells *)

Import ExcelToJSONConverter.

(** C8.  The cell ["(1,250.50)"] parses to -1250.50 and the cell
    ["₹12,000"] to 12000.0: separators and currency marks are removed and
    an opening parenthesis is read as a minus sign. *)
Theorem parse_amount_scenarios :
  _parse_amount (CStr "(1,250.50)") = (-1250.50)%float
  ∧ _parse_amount (CStr "₹12,000") = 12000.0%float
  ∧ clean_amount "(1,250.50)" = "-1250.50"
  ∧ clean_amount "INR ₹ Rs 12,000" = "12000".
Proof.
  split; [| split; [| split]]; vm_compute; reflexivity.
Qed.

(** Removing the commas of a text a second time changes nothing. *)
Lemma replace_comma_idempotent (s : string) :
  PyText.replace "," "" (PyText.replace "," "" s) = PyText.replace "," "" s.
Proof.
  unfold PyText.replace. induction s as [| c s IH]; [reflexivity |].
  cbn [PyText.replace_from PyText.startswith String.length Nat.pred].
  destruct (Ascii.eqb_spec "," c) as [<- | Hne]; cbn [andb].
  - exact IH.
  - cbn [PyText.replace_from PyText.startswith].
    destruct (Ascii.eqb_spec "," c) as [Heq | _]; [congruence |].
    cbn [andb]. rewrite IH. reflexivity.
Qed.

(** Thousands separators never matter to the amount read. *)
Lemma parse_amount_ignores_commas (s : string) :
  _parse_amount (CStr (PyText.replace "," "" s)) = _parse_amount (CStr s).
Proof.
  unfold _parse_amount, clean_amount. cbn [isna str].
  rewrite replace_comma_idempotent. reflexivity.
Qed.



(** ** The transaction extractor *)

Lemma bind_ok {A B : Type} (m : Exc A) (k : A -> Exc B) (b : B) :
  m ≫= k = Ok b → ∃ a, m = Ok a ∧ k a = Ok b.
Proof.
  destruct m as [a | e]; cbn; [eauto | discriminate].
Qed.

(** Splits a hypothesis [x ← m; k = Ok b] into [m = Ok x] and [k = Ok b]. *)
Ltac bind_inv H :=
  let a := fresh "a" in
  let Ha := fresh "H" a in
  apply bind_ok in H; destruct H as (a & Ha & H).

(** What [build_transaction] returns, field by field. *)
Lemma build_transaction_ok
    (column_mapping : gmap string nat) (row : list Cell) (parsed : string)
    (t : Transaction) :
  build_transaction column_mapping row parsed = Ok t →
  date t = parsed
  ∧ amount_of column_mapping "debit" row = Ok (debit t)
  ∧ amount_of column_mapping "credit" row = Ok (credit t)
  ∧ amount_of column_mapping "balance" row = Ok (balance t)
  ∧ transaction_type t = (if PyFloat.gt (credit t) 0%float then "credit" else "debit").
Proof.
  unfold build_transaction. intros H.
  bind_inv H. bind_inv H. bind_inv H. bind_inv H. bind_inv H.
  injection H as <-. cbn. repeat split; assumption.
Qed.

(** The transactions a row adds to the list: none or one. *)
Lemma process_row_cases
    (pd : string -> option Timestamp) (column_mapping : gmap string nat)
    (st st' : Extraction) (row : list Cell) :
  process_row pd column_mapping st row = Ok st' →
  (∃ reason, reason ∈ ["empty_row"; "no_date"; "parse_fail"] ∧ st' = skip reason st)
  ∨ (∃ parsed t, build_transaction column_mapping row parsed = Ok t ∧ st' = emit t st).
Proof.
  unfold process_row. intros H.
  destruct (forallb isna row).
  { injection H as <-. left. exists "empty_row". split; [set_solver | reflexivity]. }
  bind_inv H.
  destruct (isna a).
  { injection H as <-. left. exists "no_date". split; [set_solver | reflexivity]. }
  destruct (_parse_date pd a) as [[| c parsed] |].
  - injection H as <-. left. exists "parse_fail". split; [set_solver | reflexivity].
  - bind_inv H. injection H as <-. right. eauto.
  - injection H as <-. left. exists "parse_fail". split; [set_solver | reflexivity].
Qed.

Definition type_follows_credit (t : Transaction) : Prop :=
  (transaction_type t = "credit" ↔ PyFloat.gt (credit t) 0%float = true)
  ∧ (transaction_type t = "debit" ↔ PyFloat.gt (credit t) 0%float = false).

Lemma build_transaction_type
    (column_mapping : gmap string nat) (row : list Cell) (parsed : string)
    (t : Transaction) :
  build_transaction column_mapping row parsed = Ok t → type_follows_credit t.
Proof.
  intros H. apply build_transaction_ok in H as (_ & _ & _ & _ & Hty).
  unfold type_follows_credit. rewrite Hty.
  destruct (PyFloat.gt (credit t) 0%float); split; split; congruence.
Qed.

Lemma extract_loop_invariant
    (P : Transaction -> Prop)
    (pd : string -> option Timestamp) (column_mapping : gmap string nat)
    (rows : DataFrame) (st st' : Extraction) :
  (∀ row parsed t, build_transaction column_mapping row parsed = Ok t → P t) →
  extract_loop pd column_mapping rows st = Ok st' →
  Forall P (transactions st) → Forall P (transactions st').
Proof.
  intros HP. revert st. induction rows as [| row rows IH]; intros st H Hst.
  - injection H as <-. exact Hst.
  - cbn [extract_loop] in H. bind_inv H.
    apply (IH a H).
    apply process_row_cases in Ha as [(reason & _ & ->) | (parsed & t & Ht & ->)].
    + exact Hst.
    + cbn. apply Forall_app. split; [exact Hst |].
      constructor; [eapply HP, Ht | constructor].
Qed.

(** C6.  Every transaction the extractor emits has [transaction_type]
    ["credit"] exactly when its credit amount is greater than 0, and
    ["debit"] otherwise. *)
Theorem transaction_type_iff_credit
    (pd : string -> option Timestamp) (df : DataFrame)
    (column_mapping : gmap string nat) (ts : list Transaction) :
  _extract_transactions pd df column_mapping = Ok ts →
  Forall type_follows_credit ts.
Proof.
  unfold _extract_transactions. intros H. bind_inv H. injection H as <-.
  eapply extract_loop_invariant; [| exact Ha | constructor].
  intros row parsed t. apply build_transaction_type.
Qed.

Lemma strftime_nonempty (t : Timestamp) : Dates.strftime t ≠ "".
Proof.
  unfold Dates.strftime. destruct (PyText.str_int (ts_year t)); discriminate.
Qed.

(** A parsed date is never the empty text, so the test [if not
    parsed_date] only ever sees [None]. *)
Lemma parse_date_nonempty (pd : string -> option Timestamp) (v : Cell) (d : string) :
  _parse_date pd v = Some d → d ≠ "".
Proof.
  unfold _parse_date.
  destruct (isna v); [discriminate |].
  assert (Hstr : ∀ s, (if any_in ["date"; "tran"; "txn"; "transaction"] (PyText.lower s)
                       then None
                       else match pd s with
                            | Some dt => Some (Dates.strftime dt)
                            | None =>
                                match Dates.first_some (Dates.strptime s) Dates.formats with
                                | Some dt => Some (Dates.strftime dt)
                                | None => Dates.strftime <$> Dates.extract_dmy s
                                end
                            end) = Some d → d ≠ "").
  { intros s. destruct (any_in _ _); [discriminate |].
    destruct (pd s); [intros [= <-]; apply strftime_nonempty |].
    destruct (Dates.first_some _ _); [intros [= <-]; apply strftime_nonempty |].
    destruct (Dates.extract_dmy s); [intros [= <-]; apply strftime_nonempty | discriminate]. }
  destruct v; try apply Hstr.
  intros [= <-]. apply strftime_nonempty.
Qed.

(** The date the extractor reads in the first column of a row, if any. *)
Definition first_column_date (pd : string -> option Timestamp) (row : list Cell)
  : option string :=
  head row ≫= _parse_date pd.

(** The sum of the three tallies of skip reasons. *)
Definition tally (st : Extraction) : nat :=
  default 0%nat (skipped_reasons st !! "empty_row")
  + default 0%nat (skipped_reasons st !! "no_date")
  + default 0%nat (skipped_reasons st !! "parse_fail").

Lemma tally_skip (reason : string) (st : Extraction) :
  reason ∈ ["empty_row"; "no_date"; "parse_fail"] →
  tally (skip reason st) = S (tally st).
Proof.
  intros Hin. unfold tally, skip. cbn [skipped_reasons].
  repeat (apply elem_of_cons in Hin as [-> | Hin]);
    [ | | | apply elem_of_nil in Hin; contradiction ];
    rewrite ?lookup_insert_eq, ?lookup_insert_ne by discriminate;
    simpl; lia.
Qed.

(** With no date role in the map, a row is emitted when its first cell
    parses as a date, with that date, and skipped otherwise. *)
Lemma process_row_first_column
    (pd : string -> option Timestamp) (column_mapping : gmap string nat)
    (st st' : Extraction) (row : list Cell) :
  column_mapping !! "date" = None →
  process_row pd column_mapping st row = Ok st' →
  match first_column_date pd row with
  | Some d => ∃ t, date t = d ∧ st' = emit t st
  | None => ∃ reason, reason ∈ ["empty_row"; "no_date"; "parse_fail"] ∧ st' = skip reason st
  end.
Proof.
  intros Hdate. unfold process_row, first_column_date. rewrite Hdate. cbn [default].
  destruct row as [| v row]; cbn [forallb head mbind option_bind].
  { intros H; injection H as <-. exists "empty_row". split; [set_solver | reflexivity]. }
  assert (Hna : isna v = true → _parse_date pd v = None).
  { intros Hv. unfold _parse_date. rewrite Hv. reflexivity. }
  unfold iloc. cbn [lookup list_lookup mbind exc_bind bind].
  destruct (isna v) eqn:Hv; cbn [andb].
  - rewrite (Hna eq_refl).
    destruct (forallb isna row); intros H; injection H as <-.
    + exists "empty_row". split; [set_solver | reflexivity].
    + exists "no_date". split; [set_solver | reflexivity].
  - destruct (_parse_date pd v) as [d |] eqn:Hd.
    + destruct d as [| c d]; [apply parse_date_nonempty in Hd; contradiction |].
      intros H. bind_inv H. injection H as <-.
      exists a. split; [| reflexivity].
      apply build_transaction_ok in Ha. tauto.
    + intros H; injection H as <-. exists "parse_fail". split; [set_solver | reflexivity].
Qed.

Lemma extract_loop_first_column
    (pd : string -> option Timestamp) (column_mapping : gmap string nat)
    (rows : DataFrame) (st st' : Extraction) :
  column_mapping !! "date" = None →
  extract_loop pd column_mapping rows st = Ok st' →
  date <$> transactions st'
  = ((date <$> transactions st) ++ omap (first_column_date pd) rows)%list
  ∧ (skipped_count st' + length (transactions st')
     = skipped_count st + length (transactions st) + length rows)%nat
  ∧ (tally st' + skipped_count st = tally st + skipped_count st')%nat.
Proof.
  intros Hdate. revert st. induction rows as [| row rows IH]; intros st H.
  - injection H as <-. cbn. rewrite app_nil_r. repeat split; lia.
  - cbn [extract_loop] in H. bind_inv H.
    destruct (IH a H) as (Hdates & Hcount & Htally).
    pose proof (process_row_first_column pd column_mapping st a row Hdate Ha) as Hrow.
    cbn [omap list_omap length].
    destruct (first_column_date pd row) as [d |].
    + destruct Hrow as (t & <- & ->).
      cbn [emit transactions skipped_count skipped_reasons] in *.
      rewrite fmap_app in Hdates. cbn in Hdates.
      rewrite <- app_assoc in Hdates. cbn in Hdates.
      rewrite length_app in Hcount. cbn in Hcount.
      repeat split; [exact Hdates | lia | exact Htally].
    + destruct Hrow as (reason & Hin & ->).
      rewrite (tally_skip reason st Hin) in Htally.
      cbn [skip transactions skipped_count] in *.
      repeat split; [exact Hdates | lia | lia].
Qed.

(** Every mapped column lies inside the row, and the row has a first
    cell: what holds of the rows of a data frame under a column map read
    from its own header. *)
Definition columns_in_range (column_mapping : gmap string nat) (row : list Cell) : Prop :=
  (0 < length row)%nat
  ∧ ∀ role col, column_mapping !! role = Some col → (col < length row)%nat.

Lemma iloc_in_range {A : Type} (row : list A) (col : nat) :
  (col < length row)%nat → ∃ v, iloc row col = Ok v.
Proof.
  intros H. unfold iloc.
  destruct (lookup_lt_is_Some_2 row col H) as [v ->]. eauto.
Qed.

Lemma amount_of_total (column_mapping : gmap string nat) (role : string) (row : list Cell) :
  columns_in_range column_mapping row →
  ∃ x, amount_of column_mapping role row = Ok x.
Proof.
  intros [_ Hcols]. unfold amount_of.
  destruct (column_mapping !! role) as [col |] eqn:Hrole; [| eauto].
  destruct (iloc_in_range row col (Hcols _ _ Hrole)) as [v ->]. cbn. eauto.
Qed.

Lemma build_transaction_total
    (column_mapping : gmap string nat) (row : list Cell) (parsed : string) :
  columns_in_range column_mapping row →
  ∃ t, build_transaction column_mapping row parsed = Ok t.
Proof.
  intros Hrow. unfold build_transaction.
  destruct (amount_of_total column_mapping "debit" row Hrow) as [d ->].
  destruct (amount_of_total column_mapping "credit" row Hrow) as [c ->].
  destruct (amount_of_total column_mapping "balance" row Hrow) as [b ->].
  destruct Hrow as [_ Hcols].
  destruct (column_mapping !! "description") as [dc |] eqn:Hd;
    [destruct (iloc_in_range row dc (Hcols _ _ Hd)) as [v ->] |];
    (destruct (column_mapping !! "reference") as [rc |] eqn:Hr;
     [destruct (iloc_in_range row rc (Hcols _ _ Hr)) as [w ->] |]);
    cbn; eauto.
Qed.

(** On such rows the loop runs to its end: no [IndexError]. *)
Lemma extract_loop_total
    (pd : string -> option Timestamp) (column_mapping : gmap string nat)
    (rows : DataFrame) (st : Extraction) :
  Forall (columns_in_range column_mapping) rows →
  ∃ st', extract_loop pd column_mapping rows st = Ok st'.
Proof.
  intros Hrows. revert st. induction Hrows as [| row rows Hrow _ IH]; intros st.
  - cbn. eauto.
  - cbn [extract_loop].
    assert (Hstep : ∃ st1, process_row pd column_mapping st row = Ok st1).
    { unfold process_row. destruct (forallb isna row); [eauto |].
      assert (Hcol : (default 0%nat (column_mapping !! "date") < length row)%nat).
      { destruct Hrow as [Hlen Hcols].
        destruct (column_mapping !! "date") as [col |] eqn:Hd; cbn; eauto. }
      destruct (iloc_in_range row _ Hcol) as [v ->]. cbn.
      destruct (isna v); [eauto |].
      destruct (_parse_date pd v) as [[| c parsed] |]; eauto.
      destruct (build_transaction_total column_mapping row (String c parsed) Hrow) as [t ->].
      cbn. eauto. }
    destruct Hstep as [st1 ->]. cbn. apply IH.
Qed.

(** C9.  When the column map has no date role the extractor reads the
    date in column 0: the transactions emitted are, in order, those of the
    rows whose first cell parses as a date, each with that date; every other
    row is skipped and counted, once in [skipped_count] and once under a
    reason. *)
Theorem date_defaults_to_first_column
    (pd : string -> option Timestamp) (column_mapping : gmap string nat)
    (df : DataFrame) :
  column_mapping !! "date" = None →
  Forall (columns_in_range column_mapping) df →
  ∃ st, extract_loop pd column_mapping df start = Ok st
    ∧ _extract_transactions pd df column_mapping = Ok (transactions st)
    ∧ date <$> transactions st = omap (first_column_date pd) df
    ∧ (skipped_count st + length (transactions st) = length df)%nat
    ∧ tally st = skipped_count st.
Proof.
  intros Hdate Hrows.
  destruct (extract_loop_total pd column_mapping df start Hrows) as [st Hst].
  exists st. split; [exact Hst |].
  split; [unfold _extract_transactions; rewrite Hst; reflexivity |].
  destruct (extract_loop_first_column pd column_mapping df start st Hdate Hst)
    as (Hdates & Hcount & Htally).
  cbn in Hdates, Hcount. change (tally start) with 0%nat in Htally.
  cbn in Htally. repeat split; [exact Hdates | lia | lia].
Qed.






Lemma convert_ok_parts
    (pd : string -> option Timestamp) (df : DataFrame) (header_row : nat)
    (column_mapping : gmap string nat) (metadata : Metadata) (ts : list Transaction) :
  _identify_structure df = Ok (header_row, column_mapping) →
  _extract_metadata df header_row = Ok metadata →
  _extract_transactions pd (drop (S header_row) df) column_mapping = Ok ts →
  convert pd df = Ok (statement_dict metadata (_calculate_summary ts) ts).
Proof.
  intros Hs Hm Ht. unfold convert. rewrite Hs. cbn [mbind exc_bind bind].
  rewrite Hm. cbn [mbind exc_bind bind]. rewrite Ht. reflexivity.
Qed.

(** ** Extraction returns on every rectangular frame *)

Lemma find_header_bounds (rows : DataFrame) (idx k : nat) :
  find_header idx rows = Some k → (idx <= k < idx + length rows)%nat.
Proof.
  revert idx. induction rows as [| row rows IH]; intros idx; cbn [find_header length].
  - discriminate.
  - destruct (any_in _ _).
    + intros H. injection H as <-. lia.
    + intros H. apply IH in H. lia.
Qed.

Lemma map_columns_bounds
    (header_values : list Cell) (col_idx : nat) (column_mapping : gmap string nat)
    (role : string) (col : nat) :
  map_columns col_idx header_values column_mapping !! role = Some col →
  column_mapping !! role = Some col
  ∨ (col_idx <= col < col_idx + length header_values)%nat.
Proof.
  revert col_idx column_mapping.
  induction header_values as [| header rest IH]; intros col_idx column_mapping;
    cbn [map_columns length].
  - auto.
  - intros H. apply IH in H as [H | H]; [| right; lia].
    destruct (column_role header) as [r |]; [| auto].
    destruct (decide (r = role)) as [-> | Hne].
    + rewrite lookup_insert_eq in H. injection H as <-. right. lia.
    + rewrite lookup_insert_ne in H by exact Hne. auto.
Qed.

(** Steps 2 to 6 of [convert] raise nothing on a frame that has a row and
    whose rows all have the same positive width: malformed rows are
    skipped, never an error. *)
Theorem convert_returns
    (pd : string -> option Timestamp) (df : DataFrame) (width : nat) :
  df ≠ [] → (0 < width)%nat → Forall (fun row => length row = width) df →
  ∃ data, convert pd df = Ok data.
Proof.
  intros Hne Hw Hrect.
  assert (Hh : ∃ header_row header_values,
             (header_row < length df)%nat
             ∧ df !! header_row = Some header_values
             ∧ _identify_structure df
               = Ok (header_row, map_columns 0 header_values ∅)).
  { unfold _identify_structure, iloc.
    set (header_row := default 0%nat (find_header 0 (take 10 df))).
    assert (Hlt : (header_row < length df)%nat).
    { subst header_row. destruct (find_header 0 (take 10 df)) as [k |] eqn:Hk; cbn.
      - apply find_header_bounds in Hk. rewrite length_take in Hk. lia.
      - destruct df; [contradiction | cbn; lia]. }
    destruct (lookup_lt_is_Some_2 df header_row Hlt) as [hv Hhv].
    exists header_row, hv. rewrite Hhv. auto. }
  destruct Hh as (header_row & header_values & Hlt & Hhv & Hs).
  assert (Hlen : length header_values = width).
  { rewrite Forall_forall in Hrect. apply Hrect.
    apply list_elem_of_lookup. eauto. }
  assert (Hrows : Forall (columns_in_range (map_columns 0 header_values ∅))
                    (drop (S header_row) df)).
  { apply Forall_drop. eapply Forall_impl; [exact Hrect |].
    intros row Hrow. cbn beta in Hrow. split; [lia |].
    intros role col Hcol.
    apply map_columns_bounds in Hcol as [Hcol | Hcol];
      [rewrite lookup_empty in Hcol; discriminate | lia]. }
  destruct (extract_loop_total pd _ _ start Hrows) as [st Hst].
  exists (statement_dict (fold_left scan_row (take header_row df) empty_metadata)
            (_calculate_summary (transactions st)) (transactions st)).
  apply (convert_ok_parts pd df header_row _ _ _ Hs).
  - unfold _extract_metadata.
    destruct (Nat.ltb_spec (length df) header_row); [lia | reflexivity].
  - unfold _extract_transactions. rewrite Hst. reflexivity.
Qed.

(** ** The bank name *)

Lemma find_bank_some (row_text bank : string) :
  find_bank row_text = Some bank →
  bank ∈ bank_keywords ∧ PyText.contains bank (PyText.upper row_text) = true.
Proof.
  unfold find_bank. intros H. apply find_some in H as [Hin Hc].
  split; [apply list_elem_of_In, Hin | exact Hc].
Qed.

Lemma bank_name_scan (rows : DataFrame) (metadata : Metadata) :
  bank_name (fold_left scan_row rows metadata)
  = match last (omap (fun row => find_bank (present_text row)) rows) with
    | Some bank => Some bank
    | None => bank_name metadata
    end.
Proof.
  revert metadata. induction rows as [| row rows IH]; intros metadata; [reflexivity |].
  cbn [fold_left omap list_omap]. rewrite IH. cbn [scan_row bank_name].
  destruct (find_bank (present_text row)) as [bank |]; [| reflexivity].
  rewrite last_cons.
  destruct (last _); reflexivity.
Qed.

(** C7, as the code has it.  The bank name is a keyword of the fixed list
    found in the upper-cased text of a row above the header: the first
    keyword, in list order, of the last such row that holds one, and null
    when no row above the header holds one.  No other row is read. *)
Theorem bank_name_from_rows_above_header
    (df : DataFrame) (header_row : nat) (metadata : Metadata) :
  _extract_metadata df header_row = Ok metadata →
  bank_name metadata
  = last (omap (fun row => find_bank (present_text row)) (take header_row df))
  ∧ ∀ bank, bank_name metadata = Some bank →
      bank ∈ bank_keywords
      ∧ ∃ row, row ∈ take header_row df
          ∧ PyText.contains bank (PyText.upper (present_text row)) = true.
Proof.
  unfold _extract_metadata. destruct (_ <? _)%nat; [discriminate |].
  intros H. injection H as <-.
  assert (Hlast : bank_name (fold_left scan_row (take header_row df) empty_metadata)
                  = last (omap (fun row => find_bank (present_text row))
                            (take header_row df))).
  { rewrite bank_name_scan. destruct (last _); reflexivity. }
  split; [exact Hlast |].
  intros bank Hbank. rewrite Hlast in Hbank.
  apply last_Some_elem_of in Hbank.
  apply list_elem_of_omap in Hbank as (row & Hrow & Hfind).
  apply find_bank_some in Hfind as [Hkw Hc].
  split; [exact Hkw | exists row; split; assumption].
Qed.

(** ** Scenarios *)

(** A stand-in for the date parser of pandas on the scenario's dates: it
    reads dashed dates day first, as [dayfirst=True] asks. *)
Definition dayfirst_dashed (s : string) : option Timestamp :=
  Dates.strptime s [Dates.Dd; Dates.Lit "-"; Dates.Dm; Dates.Lit "-"; Dates.DY].

(** How a spreadsheet reader may hand over a number and a date. *)
Inductive NumberCell : Set := AsInt | AsFloat | AsText.
Inductive DateCell : Set := DateAsText | DateAsTimestamp.

Definition amount_cell (k : NumberCell) (n : Z) : Cell :=
  match k with
  | AsInt => CInt n
  | AsFloat => CFloat (PyFloat.of_ratio n 1)
  | AsText => CStr (PyText.str_int n)
  end.

Definition date_cell (k : DateCell) (day month year : Z) : Cell :=
  match k with
  | DateAsText =>
      CStr (Dates.two day ++ "-" ++ Dates.two month ++ "-" ++ PyText.str_int year)
  | DateAsTimestamp =>
      CTime {| ts_year := year; ts_month := month; ts_day := day;
               ts_hour := 0; ts_minute := 0; ts_second := 0 |}
  end.

(** The grid of the scenario, with the stated balance of its second row. *)
Definition scenario_grid (nk : NumberCell) (dk : DateCell) (second_balance : Z)
  : DataFrame :=
  [ [CStr "Date"; CStr "Narration"; CStr "Debit"; CStr "Credit"; CStr "Balance"];
    [date_cell dk 1 1 2024; CStr "Salary";
     amount_cell nk 0; amount_cell nk 5000; amount_cell nk 15000];
    [date_cell dk 2 1 2024; CStr "ATM";
     amount_cell nk 2000; amount_cell nk 0; amount_cell nk second_balance] ].

Definition scenario_mapping : gmap string nat :=
  <["date" := 0%nat]>
    (<["description" := 1%nat]>
       (<["debit" := 2%nat]> (<["credit" := 3%nat]> (<["balance" := 4%nat]> ∅)))).

Definition scenario_transactions (date1 date2 : string) (second_balance : float)
  : list Transaction :=
  [ {| date := date1; description := "Salary"; debit := 0; credit := 5000;
       balance := 15000; transaction_type := "credit"; reference_number := None |};
    {| date := date2; description := "ATM"; debit := 2000; credit := 0;
       balance := second_balance; transaction_type := "debit";
       reference_number := None |} ].

Example scenario_grid_text :
  scenario_grid AsText DateAsText 9000
  = [ [CStr "Date"; CStr "Narration"; CStr "Debit"; CStr "Credit"; CStr "Balance"];
      [CStr "01-01-2024"; CStr "Salary"; CStr "0"; CStr "5000"; CStr "15000"];
      [CStr "02-01-2024"; CStr "ATM"; CStr "2000"; CStr "0"; CStr "9000"] ].
Proof. reflexivity. Qed.

Lemma scenario_structure (nk : NumberCell) (dk : DateCell) (b : Z) :
  _identify_structure (scenario_grid nk dk b) = Ok (0%nat, scenario_mapping).
Proof. vm_compute. reflexivity. Qed.

Lemma parse_date_some_nonempty (pd : string -> option Timestamp) (v : Cell) (d : string) :
  _parse_date pd v = Some d → ∃ c d', d = String c d'.
Proof.
  intros H. apply parse_date_nonempty in H. destruct d; [contradiction | eauto].
Qed.

(** Text that is no header word and that one of the explicit formats
    reads is a date for [_parse_date], whatever pandas makes of it. *)
Lemma parse_date_by_format
    (pd : string -> option Timestamp) (s : string) (t : Timestamp) :
  any_in ["date"; "tran"; "txn"; "transaction"] (PyText.lower (PyText.strip s)) = false →
  Dates.first_some (Dates.strptime (PyText.strip s)) Dates.formats = Some t →
  ∃ c d, _parse_date pd (CStr s) = Some (String c d).
Proof.
  intros Hkw Hfmt.
  assert (H : ∃ d, _parse_date pd (CStr s) = Some d).
  { unfold _parse_date. cbn [isna str]. rewrite Hkw, Hfmt.
    destruct (pd _); eauto. }
  destruct H as [d Hd].
  destruct (parse_date_some_nonempty pd _ d Hd) as (c & d' & ->). eauto.
Qed.

(** Each date cell of the scenario parses, in either form. *)
Lemma scenario_date (pd : string -> option Timestamp) (dk : DateCell) (day : Z) :
  day = 1 ∨ day = 2 →
  ∃ c d, _parse_date pd (date_cell dk day 1 2024) = Some (String c d).
Proof.
  intros Hday. destruct dk.
  - destruct Hday as [-> | ->];
      eapply (parse_date_by_format pd); reflexivity.
  - destruct Hday as [-> | ->]; eexists _, _; reflexivity.
Qed.

Lemma process_row_emit
    (pd : string -> option Timestamp) (column_mapping : gmap string nat)
    (st : Extraction) (row : list Cell) (v : Cell) (c : ascii) (d : string)
    (t : Transaction) :
  forallb isna row = false →
  iloc row (default 0%nat (column_mapping !! "date")) = Ok v →
  isna v = false →
  _parse_date pd v = Some (String c d) →
  build_transaction column_mapping row (String c d) = Ok t →
  process_row pd column_mapping st row = Ok (emit t st).
Proof.
  intros Hrow Hv Hna Hd Ht. unfold process_row.
  rewrite Hrow, Hv. cbn [mbind exc_bind bind]. rewrite Hna, Hd, Ht. reflexivity.
Qed.

(** The stated balances of the second row the scenarios use. *)
Definition scenario_balance (b : Z) : Prop := b = 13000 ∨ b = 9000.

(** The extractor on the scenario's rows, for any date parser of pandas
    and either form of the cells: both rows are emitted, with some
    non-empty dates. *)
Lemma scenario_extraction
    (pd : string -> option Timestamp) (nk : NumberCell) (dk : DateCell) (b : Z) :
  scenario_balance b →
  ∃ c1 d1 c2 d2,
    _extract_transactions pd (drop 1 (scenario_grid nk dk b)) scenario_mapping
    = Ok (scenario_transactions (String c1 d1) (String c2 d2) (PyFloat.of_ratio b 1)).
Proof.
  intros Hb.
  destruct (scenario_date pd dk 1) as (c1 & d1 & H1); [left; reflexivity |].
  destruct (scenario_date pd dk 2) as (c2 & d2 & H2); [right; reflexivity |].
  exists c1, d1, c2, d2.
  unfold _extract_transactions, scenario_grid.
  cbn [drop extract_loop].
  destruct Hb as [-> | ->].
  all: erewrite process_row_emit;
    [| destruct nk, dk; reflexivity | reflexivity | destruct dk; reflexivity
     | exact H1 | destruct nk; vm_compute; reflexivity ].
  all: cbn [mbind exc_bind bind].
  all: erewrite process_row_emit;
    [| destruct nk, dk; reflexivity | reflexivity | destruct dk; reflexivity
     | exact H2 | destruct nk; vm_compute; reflexivity ].
  all: reflexivity.
Qed.


(** The record [convert] builds from the scenario's grid. *)
Lemma scenario_convert
    (pd : string -> option Timestamp) (nk : NumberCell) (dk : DateCell) (b : Z) :
  scenario_balance b →
  ∃ c1 d1 c2 d2,
    let ts := scenario_transactions (String c1 d1) (String c2 d2) (PyFloat.of_ratio b 1) in
    convert pd (scenario_grid nk dk b)
    = Ok (statement_dict empty_metadata (_calculate_summary ts) ts).
Proof.
  intros Hb.
  destruct (scenario_extraction pd nk dk b Hb) as (c1 & d1 & c2 & d2 & Hx).
  exists c1, d1, c2, d2. intros ts.
  apply (convert_ok_parts pd _ 0%nat scenario_mapping).
  - apply scenario_structure.
  - reflexivity.
  - exact Hx.
Qed.

Definition closing_mismatch (expected_closing closing : Z) : ValidationError :=
  mk_error BALANCE_MISMATCH ERROR (Some "closing_balance")
    (Some (Fin expected_closing (-2))) (Some (Fin closing (-2))) None.

Definition progression_mismatch (idx : nat) (expected_balance stated : Z) : ValidationError :=
  mk_error BALANCE_MISMATCH ERROR (Some (index_field idx ".balance"))
    (Some (Fin expected_balance (-2))) (Some (Fin stated (-2))) (Some idx).

(** C3, as the code has it.  With the second row's stated balance changed
    to 9000, extraction followed by the balance validator yields exactly one
    progression error, for index 1, and the opening/closing reconciliation
    reports an error too: the closing balance is the last row's stated
    balance, 9000, against 10000 + 5000 - 2000 = 13000.  This holds whether
    the cells arrive as numbers or text and as text or timestamps, and for
    whatever pandas reads in the two date cells. *)
Theorem scenario_second_balance_9000
    (pd : string -> option Timestamp) (nk : NumberCell) (dk : DateCell) :
  ∃ data,
    convert pd (scenario_grid nk dk 9000) = Ok data
    ∧ errors <$> _validate_transaction_balances get_balance_validator data
                   (new_result validator_name)
      = Ok [progression_mismatch 1 1300000 900000]
    ∧ errors (_validate_opening_closing get_balance_validator data
                (new_result validator_name))
      = [closing_mismatch 1300000 900000]
    ∧ errors <$> validate_statement get_balance_validator data
      = Ok [closing_mismatch 1300000 900000; progression_mismatch 1 1300000 900000].
Proof.
  destruct (scenario_convert pd nk dk 9000) as (c1 & d1 & c2 & d2 & Hc);
    [right; reflexivity |].
  eexists. split; [exact Hc |].
  split; [| split]; vm_compute; reflexivity.
Qed.

(** The claim read on the code: the reconciliation check does report an
    error on the scenario. *)
Lemma scenario_reconciliation_reports_error :
  (fun data =>
     errors (_validate_opening_closing get_balance_validator data
               (new_result validator_name)))
  <$> convert dayfirst_dashed (scenario_grid AsText DateAsText 9000)
  = Ok [closing_mismatch 1300000 900000].
Proof.
  vm_compute. reflexivity.
Qed.

(** The unchanged grid: totals 5000 and 2000, closing balance 13000,
    opening balance 10000, and no error of the balance validator. *)
Lemma scenario_unchanged
    (pd : string -> option Timestamp) (nk : NumberCell) (dk : DateCell) :
  ∃ data,
    convert pd (scenario_grid nk dk 13000) = Ok data
    ∧ data !! "total_credits" = Some (PyFloat 5000)
    ∧ data !! "total_debits" = Some (PyFloat 2000)
    ∧ data !! "closing_balance" = Some (PyFloat 13000)
    ∧ data !! "opening_balance" = Some (PyFloat 10000)
    ∧ errors <$> validate_statement get_balance_validator data = Ok [].
Proof.
  destruct (scenario_convert pd nk dk 13000) as (c1 & d1 & c2 & d2 & Hc);
    [left; reflexivity |].
  eexists. split; [exact Hc |].
  split; [| split; [| split; [| split]]]; vm_compute; reflexivity.
Qed.

Lemma transaction_type_iff_credit_witness :
  Forall type_follows_credit (scenario_transactions "2024-01-01" "2024-01-02" 13000).
Proof.
  apply (transaction_type_iff_credit dayfirst_dashed
           (drop 1 (scenario_grid AsInt DateAsText 13000)) scenario_mapping).
  vm_compute. reflexivity.
Defined.

(** Rows whose amount cells are empty or hold text that is no number. *)
Definition blank_rows : DataFrame :=
  [ [CStr "03-01-2024"; CStr "Fee"; CStr "N/A"; empty_cell; empty_cell];
    [CStr "04-01-2024"; CStr "Refund"; empty_cell; CStr "5,000"; CStr "pending"] ].

Definition blank_transactions : list Transaction :=
  [ {| date := "2024-01-03"; description := "Fee"; debit := 0; credit := 0;
       balance := 0; transaction_type := "debit"; reference_number := None |};
    {| date := "2024-01-04"; description := "Refund"; debit := 0; credit := 5000;
       balance := 0; transaction_type := "credit"; reference_number := None |} ].

Lemma blank_rows_extraction :
  _extract_transactions dayfirst_dashed blank_rows scenario_mapping = Ok blank_transactions.
Proof.
  vm_compute. reflexivity.
Qed.



(** A sheet that names the bank only inside a narration. *)
Definition bank_in_narration : DataFrame :=
  [ [CStr "Account statement"; empty_cell; empty_cell; empty_cell; empty_cell];
    [CStr "Date"; CStr "Narration"; CStr "Debit"; CStr "Credit"; CStr "Balance"];
    [CStr "01-01-2024"; CStr "UPI-HDFC BANK-SALARY"; CInt 0; CInt 5000; CInt 15000] ].

(** The claim read on the code: the narration names a bank of the list,
    yet [convert] leaves [bank_name] null. *)
Lemma bank_in_narration_is_not_found :
  (fun data => data !! "bank_name") <$> convert dayfirst_dashed bank_in_narration
  = Ok (Some PyNone)
  ∧ find_bank "UPI-HDFC BANK-SALARY" = Some "HDFC".
Proof.
  split; vm_compute; reflexivity.
Qed.

(** A sheet that names the bank above the header. *)
Definition bank_above_header : DataFrame :=
  [ [CStr "HDFC Bank Ltd, Pune"; empty_cell; empty_cell; empty_cell; empty_cell];
    [CStr "A/c 123456789012 IFSC HDFC0001234"; empty_cell; empty_cell; empty_cell; empty_cell];
    [CStr "Date"; CStr "Narration"; CStr "Debit"; CStr "Credit"; CStr "Balance"];
    [CStr "01-01-2024"; CStr "UPI-ICICI-SALARY"; CInt 0; CInt 5000; CInt 15000] ].

Definition bank_above_header_metadata : Metadata :=
  {| bank_name := Some "HDFC"; account_number := Some "123456789012";
     account_holder_name := None; branch_name := None;
     ifsc_code := Some "HDFC0001234"; currency := "INR" |}.

Lemma bank_name_from_rows_above_header_witness :
  bank_name bank_above_header_metadata
  = last (omap (fun row => find_bank (present_text row)) (take 2 bank_above_header))
  ∧ ∀ bank, bank_name bank_above_header_metadata = Some bank →
      bank ∈ bank_keywords
      ∧ ∃ row, row ∈ take 2 bank_above_header
          ∧ PyText.contains bank (PyText.upper (present_text row)) = true.
Proof.
  apply (bank_name_from_rows_above_header bank_above_header 2).
  vm_compute. reflexivity.
Defined.

Lemma columns_in_range_check (column_mapping : gmap string nat) (row : list Cell) :
  (0 <? length row)%nat
  && forallb (fun kv => (kv.2 <? length row)%nat) (map_to_list column_mapping) = true →
  columns_in_range column_mapping row.
Proof.
  intros H. apply andb_true_iff in H as [Hlen Hall].
  split; [apply Nat.ltb_lt, Hlen |].
  intros role col Hrole.
  rewrite forallb_forall in Hall.
  apply Nat.ltb_lt.
  apply (Hall (role, col)).
  apply list_elem_of_In, elem_of_map_to_list, Hrole.
Qed.

(** A column map with no date role, as a header "When | Narration | Debit
    | Credit | Balance" gives. *)
Definition dateless_mapping : gmap string nat :=
  <["description" := 1%nat]>
    (<["debit" := 2%nat]> (<["credit" := 3%nat]> (<["balance" := 4%nat]> ∅))).

Definition dateless_rows : DataFrame :=
  [ [CStr "01-01-2024"; CStr "Salary"; CInt 0; CInt 5000; CInt 15000];
    [CStr "Opening"; CStr "brought forward"; empty_cell; empty_cell; CInt 15000];
    [empty_cell; CStr "ATM"; CInt 2000; CInt 0; CInt 13000];
    [empty_cell; empty_cell; empty_cell; empty_cell; empty_cell];
    [CStr "05-01-2024"; CStr "ATM"; CInt 1000; CInt 0; CInt 12000] ].

Lemma date_defaults_to_first_column_witness :
  ∃ st, extract_loop dayfirst_dashed dateless_mapping dateless_rows start = Ok st
    ∧ _extract_transactions dayfirst_dashed dateless_rows dateless_mapping
      = Ok (transactions st)
    ∧ date <$> transactions st = omap (first_column_date dayfirst_dashed) dateless_rows
    ∧ (skipped_count st + length (transactions st) = length dateless_rows)%nat
    ∧ tally st = skipped_count st.
Proof.
  apply (date_defaults_to_first_column dayfirst_dashed dateless_mapping dateless_rows).
  - reflexivity.
  - unfold dateless_rows.
    repeat (apply Forall_cons_2;
            [apply columns_in_range_check; vm_compute; reflexivity |]).
    apply Forall_nil_2.
Defined.

Example dateless_rows_dates :
  omap (first_column_date dayfirst_dashed) dateless_rows = ["2024-01-01"; "2024-01-05"].
Proof. vm_compute. reflexivity. Qed.

Example dateless_rows_tallies :
  (fun st => (skipped_count st, skipped_reasons st !! "empty_row",
              skipped_reasons st !! "no_date", skipped_reasons st !! "parse_fail"))
  <$> extract_loop dayfirst_dashed dateless_mapping dateless_rows start
  = Ok (3%nat, Some 1%nat, Some 1%nat, Some 1%nat).
Proof. vm_compute. reflexivity. Qed.

(** * Further properties of the code *)

(** ** The result models *)

(** The errors and the warnings a sequence of calls adds, in call order. *)
Definition added_errors (cs : list Call) : list ValidationError :=
  omap (fun c => match c with AddError e => Some e | AddWarning _ => None end) cs.

Definition added_warnings (cs : list Call) : list ValidationWarning :=
  omap (fun c => match c with AddWarning w => Some w | AddError _ => None end) cs.

Lemma calls_records (cs : list Call) (r : ValidationResult) :
  errors (calls r cs) = (errors r ++ added_errors cs)%list
  ∧ warnings (calls r cs) = (warnings r ++ added_warnings cs)%list
  ∧ passed (calls r cs) = passed r && negb (existsb is_error_call cs).
Proof.
  revert r. induction cs as [| c cs IH]; intros r.
  - cbn. rewrite !app_nil_r, andb_true_r. done.
  - change (calls r (c :: cs)) with (calls (call r c) cs).
    destruct (IH (call r c)) as (He & Hw & Hp).
    rewrite He, Hw, Hp.
    destruct c as [e | w]; cbn.
    + rewrite <- !app_assoc, andb_false_r. done.
    + rewrite <- !app_assoc. done.
Qed.

(** X1: whatever calls are made on a fresh result, its [errors] and
    [warnings] are exactly the issues added, in the order of the calls,
    and [passed] is true exactly when no error was added (unlike
    [status], which the first call fixes). *)
Theorem result_records_calls_in_order (name : string) (cs : list Call) :
  let r := calls (new_result name) cs in
  errors r = added_errors cs
  ∧ warnings r = added_warnings cs
  ∧ passed r = negb (existsb is_error_call cs)
  ∧ has_errors r = existsb is_error_call cs
  ∧ (error_count r + warning_count r = length cs)%nat.
Proof.
  intros r. subst r.
  destruct (calls_records cs (new_result name)) as (He & Hw & Hp).
  cbn in He, Hw, Hp.
  unfold has_errors, error_count, warning_count.
  rewrite He, Hw, Hp. clear.
  repeat split.
  - induction cs as [| [e | w] cs IH]; cbn; done.
  - unfold added_errors, added_warnings.
    induction cs as [| [e | w] cs IH]; cbn in *; lia.
Qed.

Lemma has_errors_false (r : ValidationResult) : has_errors r = false ↔ errors r = [].
Proof. unfold has_errors. destruct (errors r); cbn; split; done. Qed.

Lemma has_warnings_false (r : ValidationResult) : has_warnings r = false ↔ warnings r = [].
Proof. unfold has_warnings. destruct (warnings r); cbn; split; done. Qed.

Lemma existsb_false_Forall {A : Type} (f : A -> bool) (l : list A) :
  existsb f l = false ↔ Forall (fun a => f a = false) l.
Proof.
  induction l as [| a l IH]; cbn.
  - split; [intros _; apply Forall_nil_2 | done].
  - rewrite orb_false_iff, IH, Forall_cons. done.
Qed.

Lemma existsb_true_Exists {A : Type} (f : A -> bool) (l : list A) :
  existsb f l = true ↔ Exists (fun a => f a = true) l.
Proof.
  induction l as [| a l IH]; cbn.
  - split; [done | intros H; inversion H].
  - rewrite orb_true_iff, IH, Exists_cons. done.
Qed.

(** X2: the overall status of an aggregate is decided by the issues the
    results hold, errors first, whatever their own [status] fields say:
    failed exactly when some result holds an error, warnings exactly
    when none holds an error and some holds a warning, passed exactly when
    no result holds any issue. *)
Theorem aggregate_status_by_issues (id : string) (rs : list (string * ValidationResult)) :
  (overall_status (from_results id rs) = "failed"
   ↔ Exists (fun r => errors r.2 ≠ []) rs)
  ∧ (overall_status (from_results id rs) = "warnings"
     ↔ Forall (fun r => errors r.2 = []) rs ∧ Exists (fun r => warnings r.2 ≠ []) rs)
  ∧ (overall_status (from_results id rs) = "passed"
     ↔ Forall (fun r => errors r.2 = [] ∧ warnings r.2 = []) rs)
  ∧ total_errors (from_results id rs) = length (rs ≫= fun r => errors r.2)
  ∧ total_warnings (from_results id rs) = length (rs ≫= fun r => warnings r.2).
Proof.
  rewrite from_results_status.
  assert (He : existsb (fun r : string * ValidationResult => has_errors r.2) rs = true
               ↔ Exists (fun r => errors r.2 ≠ []) rs).
  { rewrite existsb_true_Exists. apply Exists_proper; [| done].
    intros r. rewrite <- has_errors_false. destruct (has_errors r.2); split; done. }
  assert (Hw : existsb (fun r : string * ValidationResult => has_warnings r.2) rs = true
               ↔ Exists (fun r => warnings r.2 ≠ []) rs).
  { rewrite existsb_true_Exists. apply Exists_proper; [| done].
    intros r. rewrite <- has_warnings_false. destruct (has_warnings r.2); split; done. }
  assert (He' : existsb (fun r : string * ValidationResult => has_errors r.2) rs = false
                ↔ Forall (fun r => errors r.2 = []) rs).
  { rewrite existsb_false_Forall. apply Forall_proper; [| done].
    intros r. apply has_errors_false. }
  assert (Hw' : existsb (fun r : string * ValidationResult => has_warnings r.2) rs = false
                ↔ Forall (fun r => warnings r.2 = []) rs).
  { rewrite existsb_false_Forall. apply Forall_proper; [| done].
    intros r. apply has_warnings_false. }
  split; [| split; [| split; [| split]]].
  - rewrite <- He.
    destruct (existsb (fun r => has_errors r.2) rs),
             (existsb (fun r => has_warnings r.2) rs); split; done.
  - rewrite <- He', <- Hw.
    destruct (existsb (fun r => has_errors r.2) rs),
             (existsb (fun r => has_warnings r.2) rs); split; try done;
      intros [? ?]; done.
  - rewrite Forall_and, <- He', <- Hw'.
    destruct (existsb (fun r => has_errors r.2) rs),
             (existsb (fun r => has_warnings r.2) rs); split; try done;
      intros [? ?]; done.
  - clear. cbn. induction rs as [| r rs IH]; [done |].
    rewrite fmap_cons, bind_cons, length_app, <- IH. done.
  - clear. cbn. induction rs as [| r rs IH]; [done |].
    rewrite fmap_cons, bind_cons, length_app, <- IH. done.
Qed.

(** ** The balance validator *)

(** *** Decimal arithmetic within the context precision *)


Lemma digits_fuel_length_le (fuel : nat) (n : Z) (acc : string) (k : nat) :
  n < 10 ^ Z.of_nat (S k) →
  (String.length (PyText.digits_fuel fuel n acc) <= String.length acc + S k)%nat.
Proof.
  revert n acc k. induction fuel as [| fuel IH]; intros n acc k Hn; cbn; [lia |].
  destruct (Z.ltb_spec n 10) as [Hlt | Hge]; [cbn; lia |].
  destruct k as [| k]; [change (10 ^ Z.of_nat 1) with 10 in Hn; lia |].
  etransitivity; [apply (IH _ _ k) |]; [| cbn; lia].
  rewrite Nat2Z.inj_succ, Z.pow_succ_r in Hn by lia.
  apply Z.div_lt_upper_bound; lia.
Qed.


Lemma ndigits_le (c : Z) (k : nat) :
  Z.abs c < 10 ^ Z.of_nat (S k) → ndigits c <= Z.of_nat (S k).
Proof.
  intros H. unfold ndigits, PyText.digits_of.
  pose proof (digits_fuel_length_le (S (Z.to_nat (Z.log2 (Z.abs c)))) (Z.abs c) "" k H) as Hle.
  cbn [String.length] in Hle. lia.
Qed.


Lemma round_ctx_exact (c x : Z) : Z.abs c < 10 ^ 28 → round_ctx c x = Fin c x.
Proof.
  intros H. unfold round_ctx.
  pose proof (ndigits_le c 27 H) as Hn.
  change (Z.of_nat 28) with 28 in Hn. unfold prec.
  destruct (Z.leb_spec (ndigits c) 28); [reflexivity | lia].
Qed.

Lemma add_cents (a b : Z) :
  Z.abs (a + b) < 10 ^ 28 → add (Fin a (-2)) (Fin b (-2)) = Fin (a + b) (-2).
Proof.
  intros H. unfold add, align. cbn [Z.min Z.compare Z.sub Z.add Z.opp Z.pos_sub].
  change (-2 - Z.min (-2) (-2)) with 0. rewrite !Z.pow_0_r, !Z.mul_1_r.
  apply round_ctx_exact, H.
Qed.

Lemma sub_cents (a b : Z) :
  Z.abs (a - b) < 10 ^ 28 → sub (Fin a (-2)) (Fin b (-2)) = Fin (a - b) (-2).
Proof. intros H. unfold sub, neg. rewrite add_cents; [reflexivity | exact H]. Qed.

Lemma abs_cents (a : Z) :
  Z.abs a < 10 ^ 28 → abs (Fin a (-2)) = Fin (Z.abs a) (-2).
Proof. intros H. unfold abs. apply round_ctx_exact. rewrite Z.abs_idemp. exact H. Qed.

Lemma gt_cents (a b : Z) : gt (Fin a (-2)) (Fin b (-2)) = Ok (b <? a).
Proof.
  unfold gt, align. change (-2 - Z.min (-2) (-2)) with 0.
  rewrite !Z.pow_0_r, !Z.mul_1_r. reflexivity.
Qed.

Lemma gt_cents_zero (a : Z) : gt (Fin a (-2)) zero = Ok (0 <? a).
Proof.
  unfold gt, zero, align. change (Z.min (-2) 0) with (-2).
  change (-2 - -2) with 0. rewrite Z.pow_0_r, Z.mul_1_r. reflexivity.
Qed.






(** *** Check 1 in integer arithmetic *)

(** The value converts to [z] hundredths. *)
Definition in_cents (value : PyVal) (z : Z) : Prop :=
  _to_decimal value = Ok (Some (Fin z (-2))).

(** X4: when the four amounts of a statement convert to hundredths below
    10^27 and the tolerance is a number of hundredths, the
    opening/closing check is exact integer arithmetic: a BALANCE_MISMATCH
    error when |closing - (opening + credits - debits)| exceeds the
    tolerance, a minor_balance_difference warning when it is positive and
    within the tolerance, and nothing when it is zero. *)
Theorem opening_closing_in_cents
    (self : BalanceValidator) (statement_data : gmap string PyVal)
    (result : ValidationResult) (tol o c tc td : Z) :
  tolerance self = Fin tol (-2) →
  in_cents (PyObj.dict_get statement_data "opening_balance" PyNone) o →
  in_cents (PyObj.dict_get statement_data "closing_balance" PyNone) c →
  in_cents (PyObj.dict_get statement_data "total_credits" (PyInt 0)) tc →
  in_cents (PyObj.dict_get statement_data "total_debits" (PyInt 0)) td →
  Z.abs o < 10 ^ 27 → Z.abs c < 10 ^ 27 → Z.abs tc < 10 ^ 27 → Z.abs td < 10 ^ 27 →
  let expected := o + tc - td in
  _validate_opening_closing self statement_data result
  = if tol <? Z.abs (c - expected) then
      add_error result
        (mk_error BALANCE_MISMATCH ERROR (Some "closing_balance")
           (Some (Fin expected (-2))) (Some (Fin c (-2))) None)
    else if 0 <? Z.abs (c - expected) then
      add_warning result (mk_warning "minor_balance_difference" (Some "closing_balance"))
    else result.
Proof.
  intros Htol Ho Hc Htc Htd Bo Bc Btc Btd expected. subst expected.
  unfold _validate_opening_closing, in_cents in *.
  rewrite Ho, Hc, Htc, Htd, Htol. cbn [mbind exc_bind bind require].
  assert (H28 : 10 ^ 28 = 10 * 10 ^ 27) by reflexivity.
  rewrite add_cents by lia.
  rewrite sub_cents by lia.
  rewrite sub_cents by lia.
  rewrite abs_cents by lia.
  rewrite gt_cents, gt_cents_zero. cbn [mbind exc_bind bind].
  destruct (tol <? _); [reflexivity |].
  cbn [mbind exc_bind bind].
  destruct (0 <? _); reflexivity.
Qed.

Lemma opening_closing_in_cents_witness :
  _validate_opening_closing get_balance_validator
    (<["opening_balance" := PyInt 10000]>
       (<["closing_balance" := PyStr "13,000.01"]>
          (<["total_credits" := PyFloat 5000]> (<["total_debits" := PyInt 2000]> ∅))))
    (new_result validator_name)
  = add_warning (new_result validator_name)
      (mk_warning "minor_balance_difference" (Some "closing_balance")).
Proof.
  apply (opening_closing_in_cents get_balance_validator _ _ 1 1000000 1300001 500000 200000);
    try reflexivity; try (vm_compute; reflexivity).
Defined.

(** *** A consistent statement passes *)

(** A transaction dictionary whose debit, credit and balance convert to
    [d], [c] and [b] hundredths. *)
Definition row_in_cents (transaction : PyVal) (row : Z * Z * Z) : Prop :=
  let '(d, c, b) := row in
  ∃ fields : gmap string PyVal,
    transaction = PyDict fields
    ∧ in_cents (PyObj.dict_get fields "debit" (PyInt 0)) d
    ∧ in_cents (PyObj.dict_get fields "credit" (PyInt 0)) c
    ∧ in_cents (PyObj.dict_get fields "balance" PyNone) b.

(** The rows of a ledger that starts at [running]: amounts are not
    negative, a row is a credit or a debit, and each balance is the one
    before plus the credit minus the debit. *)
Fixpoint ledger (running : Z) (rows : list (Z * Z * Z)) : Prop :=
  match rows with
  | [] => True
  | (d, c, b) :: rest =>
      0 <= d ∧ 0 <= c ∧ (0 < c → d = 0) ∧ b = running + c - d ∧ Z.abs b < 10 ^ 27
      ∧ ledger b rest
  end.

Definition sum_debits (rows : list (Z * Z * Z)) : Z :=
  foldr (fun row acc => row.1.1 + acc) 0 rows.
Definition sum_credits (rows : list (Z * Z * Z)) : Z :=
  foldr (fun row acc => row.1.2 + acc) 0 rows.
Definition last_balance (running : Z) (rows : list (Z * Z * Z)) : Z :=
  foldl (fun _ row => row.2) running rows.

Lemma check_transaction_accepts
    (self : BalanceValidator) (idx : nat) (transaction : PyVal)
    (result : ValidationResult) (tol running d c b : Z) :
  tolerance self = Fin tol (-2) → 0 <= tol →
  row_in_cents transaction (d, c, b) →
  Z.abs running < 10 ^ 27 → Z.abs d < 10 ^ 27 → Z.abs c < 10 ^ 27 → Z.abs b < 10 ^ 27 →
  Z.abs (b - (if 0 <? c then running + c else running - d)) <= tol →
  check_transaction self idx transaction (Fin running (-2), result)
  = (Fin b (-2), result).
Proof.
  intros Htol Hpos (fields & -> & Hd & Hc & Hb) Br Bd Bc Bb Hnear.
  unfold check_transaction, in_cents in *.
  cbn [PyObj.get mbind exc_bind bind].
  rewrite Hd, Hc, Hb, Htol. cbn [mbind exc_bind bind].
  unfold expected_balance. cbn [require mbind exc_bind bind].
  rewrite gt_cents_zero. cbn [mbind exc_bind bind].
  assert (H28 : 10 ^ 28 = 10 * 10 ^ 27) by reflexivity.
  destruct (0 <? c); cbn [require mbind exc_bind bind].
  - rewrite add_cents by lia. cbn [mbind exc_bind bind].
    rewrite sub_cents by lia. rewrite abs_cents by lia.
    rewrite gt_cents. cbn [mbind exc_bind bind].
    destruct (Z.ltb_spec tol (Z.abs (b - (running + c)))); [lia | reflexivity].
  - rewrite sub_cents by lia. cbn [mbind exc_bind bind].
    rewrite sub_cents by lia. rewrite abs_cents by lia.
    rewrite gt_cents. cbn [mbind exc_bind bind].
    destruct (Z.ltb_spec tol (Z.abs (b - (running - d)))); [lia | reflexivity].
Qed.

Lemma ledger_sums (running : Z) (rows : list (Z * Z * Z)) :
  ledger running rows →
  0 <= sum_debits rows ∧ 0 <= sum_credits rows
  ∧ last_balance running rows = running + sum_credits rows - sum_debits rows
  ∧ Forall (fun row => 0 <= row.1.1 <= sum_debits rows
                       ∧ 0 <= row.1.2 <= sum_credits rows) rows.
Proof.
  revert running. induction rows as [| [[d c] b] rows IH]; intros running H.
  - cbn. repeat split; try lia. apply Forall_nil_2.
  - destruct H as (Hd & Hc & _ & Hb & _ & Hrest).
    destruct (IH b Hrest) as (Hsd & Hsc & Hlast & Hall).
    change (last_balance running ((d, c, b) :: rows)) with (last_balance b rows).
    change (sum_debits ((d, c, b) :: rows)) with (d + sum_debits rows).
    change (sum_credits ((d, c, b) :: rows)) with (c + sum_credits rows).
    rewrite Hlast.
    repeat split; try lia.
    apply Forall_cons_2; [cbn; lia |].
    eapply Forall_impl; [exact Hall |]. cbn. intros row. lia.
Qed.

Lemma walk_accepts
    (self : BalanceValidator) (tol : Z) (transactions : list PyVal)
    (rows : list (Z * Z * Z)) (idx : nat) (running : Z) (result : ValidationResult) :
  tolerance self = Fin tol (-2) → 0 <= tol →
  Forall2 row_in_cents transactions rows →
  ledger running rows →
  Z.abs running < 10 ^ 27 →
  sum_debits rows < 10 ^ 27 → sum_credits rows < 10 ^ 27 →
  walk self idx transactions (Fin running (-2), result)
  = (Fin (last_balance running rows) (-2), result).
Proof.
  intros Htol Hpos Hrows. revert idx running.
  induction Hrows as [| transaction [[d c] b] transactions rows Hrow Hrows IH];
    intros idx running Hledger Br Bd Bc; [reflexivity |].
  pose proof (ledger_sums _ _ Hledger) as (_ & _ & _ & Hall).
  apply Forall_cons in Hall as [Hhead _]. cbn in Hhead.
  destruct Hledger as (Hd & Hc & Hone & Hb & Bb & Hrest).
  pose proof (ledger_sums _ _ Hrest) as (Hsd & Hsc & _ & _).
  change (sum_debits ((d, c, b) :: rows)) with (d + sum_debits rows) in *.
  change (sum_credits ((d, c, b) :: rows)) with (c + sum_credits rows) in *.
  change (last_balance running ((d, c, b) :: rows)) with (last_balance b rows).
  cbn [walk].
  rewrite (check_transaction_accepts self idx transaction result tol running d c b);
    try assumption; try lia.
  - apply IH; try assumption; lia.
  - destruct (Z.ltb_spec 0 c); lia.
Qed.

Lemma sum_field_in_cents
    (key : string) (transactions : list PyVal) (amounts : list Z) (acc : Z) :
  Forall2 (fun t a => ∃ fields, t = PyDict fields
                        ∧ in_cents (PyObj.dict_get fields key (PyInt 0)) a ∧ 0 <= a)
    transactions amounts →
  0 <= acc → acc + foldr Z.add 0 amounts < 10 ^ 28 →
  sum_field key transactions (Fin acc (-2)) = Ok (Fin (acc + foldr Z.add 0 amounts) (-2)).
Proof.
  intros H. revert acc.
  induction H as [| t a transactions amounts (fields & -> & Ha & Hpos) Hrest IH];
    intros acc Hacc Hsum.
  - cbn. rewrite Z.add_0_r. reflexivity.
  - assert (0 <= foldr Z.add 0 amounts).
    { clear -Hrest. induction Hrest as [| ? ? ? ? (? & _ & _ & ?) _ IH']; cbn; lia. }
    cbn [sum_field PyObj.get mbind exc_bind bind].
    unfold in_cents in Ha. rewrite Ha. cbn [require mbind exc_bind bind foldr] in *.
    rewrite add_cents by lia.
    rewrite IH by lia. f_equal. f_equal. lia.
Qed.

Lemma sum_field_from_zero
    (key : string) (transactions : list PyVal) (amounts : list Z) :
  transactions ≠ [] →
  Forall2 (fun t a => ∃ fields, t = PyDict fields
                        ∧ in_cents (PyObj.dict_get fields key (PyInt 0)) a ∧ 0 <= a)
    transactions amounts →
  foldr Z.add 0 amounts < 10 ^ 28 →
  sum_field key transactions zero = Ok (Fin (foldr Z.add 0 amounts) (-2)).
Proof.
  intros Hne H Hsum.
  destruct H as [| t a transactions amounts (fields & -> & Ha & Hpos) Hrest]; [done |].
  assert (0 <= foldr Z.add 0 amounts).
  { clear -Hrest. induction Hrest as [| ? ? ? ? (? & _ & _ & ?) _ IH']; cbn; lia. }
  cbn [sum_field PyObj.get mbind exc_bind bind].
  unfold in_cents in Ha. rewrite Ha. cbn [require mbind exc_bind bind foldr] in *.
  assert (Hz : add zero (Fin a (-2)) = Fin a (-2)).
  { unfold add, zero, align. change (Z.min 0 (-2)) with (-2).
    change (0 - -2) with 2. change (-2 - -2) with 0.
    rewrite Z.pow_0_r, Z.mul_1_r, Z.mul_0_l, Z.add_0_l.
    apply round_ctx_exact. lia. }
  rewrite Hz. apply (sum_field_in_cents key transactions amounts a Hrest); lia.
Qed.

(** The statement holds a value under [key] that converts to [z]
    hundredths. *)
Definition field_in_cents (statement_data : gmap string PyVal) (key : string) (z : Z)
  : Prop :=
  ∃ value, statement_data !! key = Some value ∧ in_cents value z.

Lemma field_dict_get
    (statement_data : gmap string PyVal) (key : string) (z : Z) (default : PyVal) :
  field_in_cents statement_data key z →
  _to_decimal (PyObj.dict_get statement_data key default) = Ok (Some (Fin z (-2))).
Proof. intros (v & Hv & Hz). unfold PyObj.dict_get. rewrite Hv. exact Hz. Qed.

Lemma ledger_last_bound (running : Z) (rows : list (Z * Z * Z)) :
  ledger running rows → Z.abs running < 10 ^ 27 →
  Z.abs (last_balance running rows) < 10 ^ 27.
Proof.
  revert running. induction rows as [| [[d c] b] rows IH]; intros running H Hr.
  - exact Hr.
  - destruct H as (_ & _ & _ & _ & Bb & Hrest).
    change (last_balance running ((d, c, b) :: rows)) with (last_balance b rows).
    apply IH; assumption.
Qed.

Lemma ledger_amounts
    (key : string) (pick : Z * Z * Z -> Z) (running : Z)
    (transactions : list PyVal) (rows : list (Z * Z * Z)) :
  (∀ fields row, row_in_cents (PyDict fields) row →
     in_cents (PyObj.dict_get fields key (PyInt 0)) (pick row)) →
  (∀ running row rest, ledger running (row :: rest) → 0 <= pick row) →
  Forall2 row_in_cents transactions rows →
  ledger running rows →
  Forall2 (fun t a => ∃ fields, t = PyDict fields
                        ∧ in_cents (PyObj.dict_get fields key (PyInt 0)) a ∧ 0 <= a)
    transactions (pick <$> rows).
Proof.
  intros Hpick Hpos H. revert running.
  induction H as [| t row transactions rows Hrow Hrest IH]; intros running Hledger.
  - apply Forall2_nil_2.
  - rewrite fmap_cons. apply Forall2_cons_2.
    + pose proof Hrow as Hrow'.
      destruct row as [[d c] b]. destruct Hrow' as (fields & -> & _).
      exists fields. split; [reflexivity |]. split.
      * apply Hpick, Hrow.
      * apply (Hpos running _ rows Hledger).
    + destruct row as [[d c] b]. destruct Hledger as (_ & _ & _ & _ & _ & Hledger).
      apply (IH b Hledger).
Qed.

(** X5: a statement that is arithmetically consistent passes the balance
    validator with no issue at all.  The statement gives opening and
    closing balance and both totals; its rows carry amounts that are not
    negative, each row a credit or a debit, each balance the previous one
    plus the credit minus the debit; the closing balance is the last
    balance and the totals are the sums.  All amounts are hundredths
    below 10^27 and the tolerance is not negative. *)
Theorem consistent_statement_passes
    (self : BalanceValidator) (statement_data : gmap string PyVal)
    (transactions : list PyVal) (rows : list (Z * Z * Z)) (tol opening : Z) :
  tolerance self = Fin tol (-2) → 0 <= tol →
  statement_data !! "transactions" = Some (PyList transactions) →
  transactions ≠ [] →
  Forall2 row_in_cents transactions rows →
  ledger opening rows →
  Z.abs opening < 10 ^ 27 → sum_debits rows < 10 ^ 27 → sum_credits rows < 10 ^ 27 →
  field_in_cents statement_data "opening_balance" opening →
  field_in_cents statement_data "closing_balance" (last_balance opening rows) →
  field_in_cents statement_data "total_credits" (sum_credits rows) →
  field_in_cents statement_data "total_debits" (sum_debits rows) →
  validate_statement self statement_data = Ok (new_result validator_name).
Proof.
  intros Htol Hpos Hts Hne Hrows Hledger Bo Bd Bc Ho Hc Htc Htd.
  pose proof (ledger_sums _ _ Hledger) as (Hsd & Hsc & Hlast & _).
  pose proof (ledger_last_bound _ _ Hledger Bo) as Bl.
  unfold validate_statement.
  rewrite (opening_closing_in_cents self statement_data _ tol opening
             (last_balance opening rows) (sum_credits rows) (sum_debits rows));
    try assumption; try (apply field_dict_get; assumption); try lia.
  rewrite Hlast.
  replace (opening + sum_credits rows - sum_debits rows
           - (opening + sum_credits rows - sum_debits rows)) with 0 by lia.
  change (Z.abs 0) with 0. change (0 <? 0) with false.
  destruct (Z.ltb_spec tol 0) as [| _]; [lia |].
  assert (Hget : PyObj.dict_get statement_data "transactions" (PyList [])
                 = PyList transactions)
    by (unfold PyObj.dict_get; rewrite Hts; reflexivity).
  assert (Htruthy : PyObj.truthy (PyList transactions) = true)
    by (destruct transactions; done).
  unfold _validate_transaction_balances, _validate_totals.
  rewrite !Hget, Htruthy. cbn [negb].
  rewrite (field_dict_get _ _ _ _ Ho), (field_dict_get _ _ _ _ Htc),
    (field_dict_get _ _ _ _ Htd).
  cbn [mbind exc_bind bind PyObj.iterate].
  rewrite (walk_accepts self tol transactions rows 0 opening _ Htol Hpos Hrows Hledger)
    by assumption.
  cbn [snd mbind exc_bind bind].
  assert (H28 : 10 ^ 28 = 10 * 10 ^ 27) by reflexivity.
  assert (Hcs : foldr Z.add 0 ((fun row : Z * Z * Z => row.1.2) <$> rows) = sum_credits rows).
  { clear. induction rows as [| row rows IH]; [reflexivity |].
    rewrite fmap_cons. cbn. rewrite IH. reflexivity. }
  assert (Hds : foldr Z.add 0 ((fun row : Z * Z * Z => row.1.1) <$> rows) = sum_debits rows).
  { clear. induction rows as [| row rows IH]; [reflexivity |].
    rewrite fmap_cons. cbn. rewrite IH. reflexivity. }
  rewrite (sum_field_from_zero "credit" transactions ((fun row => row.1.2) <$> rows) Hne).
  2: { apply (ledger_amounts "credit" (fun row => row.1.2) opening); try assumption.
       - intros fields [[d c] b] (fields' & Heq & _ & H & _).
         injection Heq as <-. exact H.
       - intros running [[d c] b] rest (_ & H & _). exact H. }
  2: { rewrite Hcs. lia. }
  cbn [mbind exc_bind bind].
  rewrite (sum_field_from_zero "debit" transactions ((fun row => row.1.1) <$> rows) Hne).
  2: { apply (ledger_amounts "debit" (fun row => row.1.1) opening); try assumption.
       - intros fields [[d c] b] (fields' & Heq & H & _).
         injection Heq as <-. exact H.
       - intros running [[d c] b] rest (H & _). exact H. }
  2: { rewrite Hds. lia. }
  cbn [mbind exc_bind bind]. rewrite Hcs, Hds.
  unfold check_total. rewrite Htol.
  rewrite !sub_cents by lia. rewrite !Z.sub_diag.
  rewrite abs_cents by (cbn; lia). change (Z.abs 0) with 0.
  rewrite gt_cents. destruct (Z.ltb_spec tol 0) as [| _]; [lia |].
  cbn [mbind exc_bind bind]. reflexivity.
Qed.

(** The two-row statement of the specification's scenario, consistent. *)
Definition consistent_statement : gmap string PyVal :=
  <["opening_balance" := PyInt 10000]>
    (<["closing_balance" := PyInt 13000]>
       (<["total_credits" := PyInt 5000]>
          (<["total_debits" := PyInt 2000]>
             (<["transactions" :=
                  PyList [transaction_of 0 5000 15000; transaction_of 2000 0 13000]]> ∅)))).

Lemma consistent_statement_passes_witness :
  validate_statement get_balance_validator consistent_statement
  = Ok (new_result validator_name).
Proof.
  apply (consistent_statement_passes get_balance_validator consistent_statement
           [transaction_of 0 5000 15000; transaction_of 2000 0 13000]
           [(0, 500000, 1500000); (200000, 0, 1300000)] 1 1000000);
    [reflexivity | lia | reflexivity | done | | | reflexivity | reflexivity
    | reflexivity | | | |].
  - repeat (apply Forall2_cons_2; [eexists; repeat split; vm_compute; reflexivity |]).
    apply Forall2_nil_2.
  - cbn. repeat split; try lia; reflexivity.
  - eexists; split; [reflexivity | vm_compute; reflexivity].
  - eexists; split; [reflexivity | vm_compute; reflexivity].
  - eexists; split; [reflexivity | vm_compute; reflexivity].
  - eexists; split; [reflexivity | vm_compute; reflexivity].
Defined.

(** *** The progression check keeps failures to their row *)

(** The two kinds of entry the loop of check 2 files under [errors] for
    the transaction at [idx]. *)
Definition progression_issue (idx : nat) (e : ValidationError) : Prop :=
  (error_type e = BALANCE_MISMATCH ∧ severity e = ERROR
   ∧ field e = Some (index_field idx ".balance") ∧ transaction_index e = Some idx)
  ∨ (error_type e = CALCULATION_ERROR ∧ severity e = WARNING
     ∧ field e = Some (index_field idx "")).

Ltac step_binds :=
  repeat match goal with
         | |- context [bind ?m _] =>
             let H := fresh "Hstep" in
             destruct m eqn:H; cbn [mbind exc_bind bind catch snd]
         | |- context [match ?o with Some _ => _ | None => _ end] =>
             destruct o; cbn [mbind exc_bind bind catch snd]
         | |- context [if ?b then _ else _] =>
             destruct b; cbn [mbind exc_bind bind catch snd]
         end.

Lemma check_transaction_cases
    (self : BalanceValidator) (idx : nat) (transaction : PyVal)
    (running : Decimal) (result : ValidationResult) :
  (check_transaction self idx transaction (running, result)).2 = result
  ∨ ∃ e, (check_transaction self idx transaction (running, result)).2 = add_error result e
       ∧ progression_issue idx e.
Proof.
  unfold check_transaction, mbind, exc_bind.
  step_binds;
    solve [ left; reflexivity
          | right; eexists; split; [reflexivity |];
            (left + right); repeat split; reflexivity ].
Qed.

(** X6: the loop over the transactions never adds a warning and never
    drops an issue; it appends at most one entry to [errors] per
    transaction, in transaction order, each a BALANCE_MISMATCH for that
    transaction's balance or, when handling the transaction raised, a
    CALCULATION_ERROR of severity WARNING for that transaction. *)
Theorem progression_appends_one_error_per_row
    (self : BalanceValidator) (transactions : list PyVal) (idx : nat)
    (running : Decimal) (result : ValidationResult) :
  let after := (walk self idx transactions (running, result)).2 in
  warnings after = warnings result
  ∧ ∃ new : list (nat * ValidationError),
      errors after = (errors result ++ new.*2)%list
      ∧ passed after = match new with [] => passed result | _ :: _ => false end
      ∧ Forall (fun '(i, e) => progression_issue i e) new
      ∧ sublist new.*1 (seq idx (length transactions)).
Proof.
  revert idx running result.
  induction transactions as [| transaction transactions IH]; intros idx running result.
  - cbn. split; [reflexivity |].
    exists []. cbn. rewrite app_nil_r. repeat split; constructor.
  - cbn [walk].
    destruct (check_transaction self idx transaction (running, result))
      as [running' result'] eqn:Hstep.
    pose proof (check_transaction_cases self idx transaction running result) as Hcases.
    rewrite Hstep in Hcases. cbn [snd] in Hcases.
    destruct (IH (S idx) running' result') as (Hw & new & He & Hp & Hnew & Hsub).
    cbn zeta. rewrite Hw, Hp, He. cbn [length seq].
    destruct Hcases as [-> | (e & -> & Hissue)].
    + split; [reflexivity |].
      exists new. repeat split; try assumption.
      apply sublist_cons, Hsub.
    + split; [reflexivity |].
      exists ((idx, e) :: new). cbn [add_error errors passed].
      rewrite <- app_assoc. repeat split.
      * destruct new; reflexivity.
      * apply Forall_cons_2; assumption.
      * rewrite fmap_cons. apply sublist_skip, Hsub.
Qed.

(** ** Extraction followed by validation *)

Lemma convert_inv (pd : string -> option Timestamp) (df : DataFrame)
    (data : gmap string PyVal) :
  convert pd df = Ok data →
  ∃ header_row column_mapping metadata ts,
    _identify_structure df = Ok (header_row, column_mapping)
    ∧ _extract_metadata df header_row = Ok metadata
    ∧ _extract_transactions pd (drop (S header_row) df) column_mapping = Ok ts
    ∧ data = statement_dict metadata (_calculate_summary ts) ts.
Proof.
  unfold convert. intros H.
  bind_inv H. destruct a as [header_row column_mapping].
  bind_inv H. bind_inv H. injection H as <-.
  eauto 10.
Qed.

Lemma statement_dict_transactions (m : Metadata) (s : Summary) (ts : list Transaction) :
  statement_dict m s ts !! "transactions" = Some (PyList (PyDict ∘ transaction_dict <$> ts))
  ∧ statement_dict m s ts !! "number_of_transactions" = Some (PyInt (Z.of_nat (length ts))).
Proof.
  unfold statement_dict. split.
  - rewrite !lookup_insert_ne by discriminate. apply lookup_insert_eq.
  - rewrite !lookup_insert_ne by discriminate. apply lookup_insert_eq.
Qed.

(** X7: when the extractor finds no transaction, the balance validator
    returns a result with the single warning no_transactions and no error
    (the summary is all zeros, so the reconciliation holds exactly), and
    the date validator returns a result whose only issue is the
    DATE_OUT_OF_RANGE error for the missing statement period, for every
    behaviour of the datetime library. *)
Theorem empty_extraction_validation
    (pd : string -> option Timestamp) (df : DataFrame) (data : gmap string PyVal)
    (DateTime Date : Type) `{EqDecision Date}
    (datetime_of_text : string -> option DateTime) (now : DateTime)
    (lt : DateTime -> DateTime -> Exc bool)
    (days_between : DateTime -> DateTime -> Exc Z) (date_of : DateTime -> Date)
    (date_validator : DateSequencingValidator.DateSequencingValidator) :
  convert pd df = Ok data →
  data !! "transactions" = Some (PyList []) →
  validate_statement get_balance_validator data
  = Ok (add_warning (new_result validator_name) (mk_warning "no_transactions" None))
  ∧ DateSequencingValidator.validate_statement DateTime Date datetime_of_text now lt
      days_between date_of date_validator data
    = Ok (add_error (new_result DateSequencingValidator.validator_name)
            (DateSequencingValidator.mk_error DATE_OUT_OF_RANGE
               (Some "statement_period_from/statement_period_to") None)).
Proof.
  intros Hconvert Hts.
  apply convert_inv in Hconvert as (header_row & column_mapping & m & ts & _ & _ & _ & ->).
  rewrite (proj1 (statement_dict_transactions _ _ _)) in Hts.
  injection Hts as Hts. apply fmap_nil_inv in Hts. subst ts.
  split.
  - vm_compute. reflexivity.
  - unfold DateSequencingValidator.validate_statement.
    vm_compute. reflexivity.
Qed.

Lemma empty_extraction_validation_witness :
  let data := statement_dict empty_metadata (_calculate_summary []) [] in
  validate_statement get_balance_validator data
  = Ok (add_warning (new_result validator_name) (mk_warning "no_transactions" None))
  ∧ DateSequencingValidator.validate_statement unit unit (fun _ => None) tt
      (fun _ _ => Ok false) (fun _ _ => Ok 0) (fun d => d)
      DateSequencingValidator.get_date_validator data
    = Ok (add_error (new_result DateSequencingValidator.validator_name)
            (DateSequencingValidator.mk_error DATE_OUT_OF_RANGE
               (Some "statement_period_from/statement_period_to") None)).
Proof.
  apply (empty_extraction_validation dayfirst_dashed
           [[CStr "Date"; CStr "Narration"; CStr "Debit"; CStr "Credit"; CStr "Balance"]]).
  - vm_compute. reflexivity.
  - reflexivity.
Defined.

(** ** The date validator *)

#[local] Set Warnings "-notation-for-abbreviation".

Section DateLibrary.

Variable DateTime : Type.
Variable Date : Type.
Context `{EqDecision Date}.
Variable datetime_of_text : string -> option DateTime.
Variable now : DateTime.
Variable lt : DateTime -> DateTime -> Exc bool.
Variable days_between : DateTime -> DateTime -> Exc Z.
Variable date_of : DateTime -> Date.

#[local] Notation parse_date := (DateSequencingValidator._parse_date DateTime datetime_of_text).
#[local] Notation date_desc_combos :=
  (DateSequencingValidator.date_desc_combos DateTime Date datetime_of_text date_of).
#[local] Notation detect_date_anomalies :=
  (DateSequencingValidator._detect_date_anomalies DateTime Date datetime_of_text date_of).

(** What the date checks read in a transaction dictionary: a date that
    parses, with a description that is text, or a date that does not
    parse. *)
Definition reads (transaction : PyVal) (entry : option (DateTime * string)) : Prop :=
  ∃ fields : gmap string PyVal,
    transaction = PyDict fields
    ∧ match entry with
      | Some (dt, text) =>
          parse_date (PyObj.dict_get fields "date" PyNone) = Some dt
          ∧ PyObj.dict_get fields "description" (PyStr "") = PyStr text
      | None => parse_date (PyObj.dict_get fields "date" PyNone) = None
      end.

(** The key check 4 compares: the calendar date and the description,
    stripped and lower-cased. *)
Definition combo_key (entry : DateTime * string) : Date * string :=
  (date_of entry.1, PyText.lower (PyText.strip entry.2)).

Fixpoint combos_of (idx : nat) (entries : list (option (DateTime * string)))
  : list (Date * string * nat) :=
  match entries with
  | [] => []
  | Some entry :: rest => (combo_key entry, idx) :: combos_of (S idx) rest
  | None :: rest => combos_of (S idx) rest
  end.

Lemma date_desc_combos_reads
    (transactions : list PyVal) (entries : list (option (DateTime * string))) (idx : nat) :
  Forall2 reads transactions entries →
  date_desc_combos idx transactions = Ok (combos_of idx entries).
Proof.
  intros H. revert idx.
  induction H as [| t entry transactions entries (fields & -> & Hentry) _ IH];
    intros idx; [reflexivity |].
  cbn [DateSequencingValidator.date_desc_combos PyObj.get mbind exc_bind bind].
  destruct entry as [[dt text] |].
  - destruct Hentry as [Hdate Hdesc]. rewrite Hdate, Hdesc.
    cbn [DateSequencingValidator.strip_lower mbind exc_bind bind].
    rewrite IH. reflexivity.
  - rewrite Hentry. apply IH.
Qed.





Lemma distinct_combos_sound
    (seen : list (Date * string)) (combos : list (Date * string * nat))
    (key : Date * string) :
  key ∈ DateSequencingValidator.distinct_combos Date seen combos →
  ∃ i, (key, i) ∈ combos.
Proof.
  revert seen. induction combos as [| [[d desc] i] combos IH]; intros seen Hin.
  - inversion Hin.
  - cbn [DateSequencingValidator.distinct_combos] in Hin.
    destruct (existsb _ seen).
    + destruct (IH _ Hin) as (j & Hj). exists j. right. exact Hj.
    + apply elem_of_cons in Hin as [-> | Hin]; [exists i; left |].
      destruct (IH _ Hin) as (j & Hj). exists j. right. exact Hj.
Qed.

(** The indices check 4 lists for a key. *)
Definition indices_of (combos : list (Date * string * nat)) (key : Date * string)
  : list nat :=
  (fun c => c.2) <$> filter (fun c => DateSequencingValidator.same_combo Date key c.1 = true) combos.

Definition duplicate_warning (combos : list (Date * string * nat)) (key : Date * string)
  : option ValidationWarning :=
  if (1 <? length (indices_of combos key))%nat
  then Some (DateSequencingValidator.mk_warning "possible_duplicate" (Some "transactions")
               (indices_of combos key))
  else None.




Lemma fold_duplicate_warnings
    (combos : list (Date * string * nat)) (keys : list (Date * string))
    (result : ValidationResult) :
  let after :=
    fold_left
      (fun result key =>
         let duplicate_indices :=
           (fun c => c.2) <$> filter (fun c => DateSequencingValidator.same_combo Date key c.1 = true) combos in
         if (1 <? length duplicate_indices)%nat
         then add_warning result
                (DateSequencingValidator.mk_warning "possible_duplicate" (Some "transactions")
                   duplicate_indices)
         else result)
      keys result in
  errors after = errors result ∧ passed after = passed result
  ∧ warnings after = (warnings result ++ omap (duplicate_warning combos) keys)%list.
Proof.
  revert result. induction keys as [| key keys IH]; intros result.
  - cbn. rewrite app_nil_r. done.
  - cbn [fold_left omap list_omap]. cbn zeta.
    match goal with |- context [fold_left ?f keys ?r] => destruct (IH r) as (He & Hp & Hw) end.
    cbn zeta in He, Hp, Hw. rewrite He, Hp, Hw.
    unfold duplicate_warning at 2, indices_of.
    destruct (1 <? _)%nat; cbn [add_warning errors passed warnings].
    + rewrite <- app_assoc. done.
    + done.
Qed.





(** *** Dates in order and inside the period *)

(** The order of the library's values is that of a time line, and the
    difference of two values always has a number of days: the behaviour of
    [datetime] on naive values. *)
Variable ord : DateTime -> Z.
Hypothesis lt_ord : ∀ a b, lt a b = Ok (ord a <? ord b).
Hypothesis days_between_total : ∀ a b, ∃ days, days_between a b = Ok days.

(** [lo <= d1 <= d2 <= ... <= dn <= hi]. *)
Fixpoint chain (lo : Z) (dates : list Z) (hi : Z) : Prop :=
  match dates with
  | [] => lo <= hi
  | d :: rest => lo <= d ∧ chain d rest hi
  end.

Lemma chain_bounds (lo hi : Z) (dates : list Z) :
  chain lo dates hi → lo <= hi ∧ Forall (fun d => lo <= d <= hi) dates.
Proof.
  revert lo. induction dates as [| d dates IH]; intros lo H.
  - split; [exact H | constructor].
  - destruct H as [Hlo H]. destruct (IH _ H) as [Hhi Hall].
    split; [lia |]. constructor; [lia |].
    eapply Forall_impl; [exact Hall |]. cbn. intros x. lia.
Qed.

(** A result that differs from [before] by warnings only. *)
Definition only_warnings_added (before after : ValidationResult) : Prop :=
  errors after = errors before ∧ passed after = passed before.

Lemma only_warnings_refl (r : ValidationResult) : only_warnings_added r r.
Proof. split; reflexivity. Qed.

Lemma only_warnings_trans (a b c : ValidationResult) :
  only_warnings_added a b → only_warnings_added b c → only_warnings_added a c.
Proof. intros [? ?] [? ?]. split; congruence. Qed.

Lemma only_warnings_add (r : ValidationResult) (w : ValidationWarning) :
  only_warnings_added r (add_warning r w).
Proof. split; reflexivity. Qed.

Lemma ordering_loop_in_order
    (transactions : list PyVal) (entries : list (DateTime * string))
    (idx : nat) (prev : option DateTime) (result : ValidationResult) (lo hi : Z) :
  Forall2 (fun t entry => reads t (Some entry)) transactions entries →
  chain lo ((fun entry => ord entry.1) <$> entries) hi →
  (∀ p, prev = Some p → ord p <= lo) →
  DateSequencingValidator.ordering_loop DateTime datetime_of_text lt idx transactions
    prev result = Ok result.
Proof.
  intros H. revert idx prev lo.
  induction H as [| t [dt text] transactions entries (fields & -> & Hdate & _) _ IH];
    intros idx prev lo Hchain Hprev; [reflexivity |].
  rewrite fmap_cons in Hchain. destruct Hchain as [Hlo Hchain]. cbn [fst] in Hlo.
  cbn [DateSequencingValidator.ordering_loop PyObj.get mbind exc_bind bind].
  rewrite Hdate.
  assert (Hstep : match prev with
                  | Some prev0 =>
                      lt dt prev0 ≫= (fun earlier : bool =>
                        if earlier
                        then DateSequencingValidator.description_slice (PyDict fields)
                             ≫= (fun _ => Ok (add_error result
                                   (DateSequencingValidator.mk_error DATE_OUT_OF_ORDER
                                      (Some (DateSequencingValidator.date_field idx)) None)))
                        else Ok result)
                  | None => Ok result
                  end = Ok result).
  { destruct prev as [p |]; [| reflexivity].
    rewrite lt_ord. specialize (Hprev p eq_refl).
    destruct (Z.ltb_spec (ord dt) (ord p)); [lia | reflexivity]. }
  rewrite Hstep. cbn [mbind exc_bind bind].
  apply (IH _ _ (ord dt) Hchain). intros p [= <-]. lia.
Qed.

Lemma in_period_loop_inside
    (transactions : list PyVal) (entries : list (DateTime * string))
    (period_from period_to : DateTime) (idx : nat) (result : ValidationResult) :
  Forall2 (fun t entry => reads t (Some entry)) transactions entries →
  Forall (fun d => ord period_from <= d <= ord period_to)
    ((fun entry => ord entry.1) <$> entries) →
  DateSequencingValidator.in_period_loop DateTime datetime_of_text lt period_from
    period_to idx transactions result = Ok result.
Proof.
  intros H. revert idx.
  induction H as [| t [dt text] transactions entries (fields & -> & Hdate & _) _ IH];
    intros idx Hall; [reflexivity |].
  rewrite fmap_cons in Hall. apply Forall_cons in Hall as [Hin Hall]. cbn [fst] in Hin.
  cbn [DateSequencingValidator.in_period_loop PyObj.get mbind exc_bind bind].
  rewrite Hdate, !lt_ord. cbn [mbind exc_bind bind].
  destruct (Z.ltb_spec (ord dt) (ord period_from)); [lia |].
  cbn [mbind exc_bind bind].
  destruct (Z.ltb_spec (ord period_to) (ord dt)); [lia |].
  cbn [mbind exc_bind bind]. apply IH, Hall.
Qed.

Lemma parsed_dates_reads
    (transactions : list PyVal) (entries : list (DateTime * string)) :
  Forall2 (fun t entry => reads t (Some entry)) transactions entries →
  DateSequencingValidator.parsed_dates DateTime datetime_of_text transactions
  = Ok (fst <$> entries).
Proof.
  induction 1 as [| t [dt text] transactions entries (fields & -> & Hdate & _) _ IH];
    [reflexivity |].
  cbn [DateSequencingValidator.parsed_dates PyObj.get mbind exc_bind bind].
  rewrite IH. cbn [mbind exc_bind bind]. rewrite Hdate. reflexivity.
Qed.

Lemma insert_sorted_returns (x : DateTime) (sorted : list DateTime) :
  ∃ l, DateSequencingValidator.insert_sorted DateTime lt x sorted = Ok l.
Proof.
  induction sorted as [| y sorted [l IH]]; [eexists; reflexivity |].
  cbn [DateSequencingValidator.insert_sorted]. rewrite lt_ord.
  cbn [mbind exc_bind bind]. destruct (ord y <? ord x); [| eexists; reflexivity].
  rewrite IH. eexists; reflexivity.
Qed.

Lemma sort_returns (dates : list DateTime) :
  ∃ l, DateSequencingValidator.sort DateTime lt dates = Ok l.
Proof.
  induction dates as [| x dates [l IH]]; [eexists; reflexivity |].
  cbn [DateSequencingValidator.sort]. rewrite IH. cbn [mbind exc_bind bind].
  apply insert_sorted_returns.
Qed.

Lemma gaps_loop_step
    (self : DateSequencingValidator.DateSequencingValidator) (a b : DateTime)
    (dates : list DateTime) (result : ValidationResult) :
  DateSequencingValidator.gaps_loop DateTime days_between self (a :: b :: dates) result
  = days_between b a ≫= fun gap =>
      DateSequencingValidator.gaps_loop DateTime days_between self (b :: dates)
        (if DateSequencingValidator.max_gap_days self <? gap
         then add_warning result
                (DateSequencingValidator.mk_warning "large_transaction_gap"
                   (Some "transactions") [])
         else result).
Proof. reflexivity. Qed.

Lemma gaps_loop_warns
    (self : DateSequencingValidator.DateSequencingValidator) (dates : list DateTime)
    (result : ValidationResult) :
  ∃ after, DateSequencingValidator.gaps_loop DateTime days_between self dates result
           = Ok after
    ∧ only_warnings_added result after.
Proof.
  revert result. induction dates as [| a dates IH]; intros result.
  - exists result. split; [reflexivity | apply only_warnings_refl].
  - destruct dates as [| b dates].
    + exists result. split; [reflexivity | apply only_warnings_refl].
    + rewrite gaps_loop_step.
      destruct (days_between_total b a) as [gap ->]. cbn [mbind exc_bind bind].
      match goal with |- context [DateSequencingValidator.gaps_loop _ _ _ _ ?r] =>
        destruct (IH r) as (after & -> & Hadded) end.
      exists after. split; [reflexivity |].
      eapply only_warnings_trans; [| exact Hadded].
      destruct (_ <? gap); [apply only_warnings_add | apply only_warnings_refl].
Qed.

(** X9: for a statement whose period dates parse with the start before
    the end, and whose transactions all carry a date that parses and a
    text description, with dates that never decrease and lie inside the
    period, the date validator returns a result without any error
    ([passed] stays true; warnings may be present).  The datetime library
    is any whose order is that of a time line and whose differences have
    days. *)
Theorem ordered_dates_in_period_pass
    (self : DateSequencingValidator.DateSequencingValidator)
    (statement_data : gmap string PyVal) (transactions : list PyVal)
    (entries : list (DateTime * string)) (period_from period_to : DateTime) :
  parse_date (PyObj.dict_get statement_data "statement_period_from" PyNone)
  = Some period_from →
  parse_date (PyObj.dict_get statement_data "statement_period_to" PyNone)
  = Some period_to →
  ord period_from < ord period_to →
  statement_data !! "transactions" = Some (PyList transactions) →
  Forall2 (fun t entry => reads t (Some entry)) transactions entries →
  chain (ord period_from) ((fun entry => ord entry.1) <$> entries) (ord period_to) →
  ∃ after,
    DateSequencingValidator.validate_statement DateTime Date datetime_of_text now lt
      days_between date_of self statement_data = Ok after
    ∧ errors after = [] ∧ passed after = true.
Proof.
  intros Hfrom Hto Hperiod Hts Hreads Hchain.
  pose proof (chain_bounds _ _ _ Hchain) as [_ Hinside].
  assert (Hget : PyObj.dict_get statement_data "transactions" (PyList [])
                 = PyList transactions)
    by (unfold PyObj.dict_get; rewrite Hts; reflexivity).
  unfold DateSequencingValidator.validate_statement.
  (* check 1 *)
  assert (H1 : ∃ r1, DateSequencingValidator._validate_period_dates DateTime
                       datetime_of_text now lt days_between statement_data
                       (new_result DateSequencingValidator.validator_name) = Ok r1
                     ∧ only_warnings_added (new_result DateSequencingValidator.validator_name) r1).
  { unfold DateSequencingValidator._validate_period_dates.
    rewrite Hfrom, Hto. unfold DateSequencingValidator.le.
    rewrite !lt_ord. cbn [fmap exc_fmap mbind exc_bind bind].
    destruct (Z.ltb_spec (ord period_from) (ord period_to)); [| lia]. cbn [negb].
    destruct (days_between_total period_to period_from) as [days ->].
    cbn [mbind exc_bind bind].
    eexists. split; [reflexivity |].
    destruct (ord now <? ord period_to), (186 <? days);
      repeat first [apply only_warnings_refl | apply only_warnings_add
                   | eapply only_warnings_trans; [apply only_warnings_add |]]. }
  destruct H1 as (r1 & -> & Hr1). cbn [mbind exc_bind bind].
  (* check 2 *)
  unfold DateSequencingValidator._validate_transaction_ordering. rewrite Hget.
  assert (H2 : (if negb (PyObj.truthy (PyList transactions)) then Ok r1
                else PyObj.iterate (PyList transactions)
                     ≫= (fun transactions0 =>
                           DateSequencingValidator.ordering_loop DateTime datetime_of_text
                             lt 0 transactions0 None r1)) = Ok r1).
  { destruct (negb _); [reflexivity |]. cbn [PyObj.iterate mbind exc_bind bind].
    apply (ordering_loop_in_order _ _ _ _ _ _ _ Hreads Hchain). discriminate. }
  rewrite H2. cbn [mbind exc_bind bind].
  (* check 3 *)
  unfold DateSequencingValidator._validate_dates_in_period.
  rewrite Hfrom, Hto, Hget. cbn [PyObj.iterate mbind exc_bind bind].
  rewrite (in_period_loop_inside _ _ _ _ _ _ Hreads Hinside). cbn [mbind exc_bind bind].
  (* check 4 *)
  assert (Hreads' : Forall2 reads transactions (Some <$> entries)).
  { clear -Hreads. induction Hreads; [constructor |].
    rewrite fmap_cons. constructor; assumption. }
  assert (H4 : ∃ r4, detect_date_anomalies statement_data r1 = Ok r4
                     ∧ only_warnings_added r1 r4).
  { unfold DateSequencingValidator._detect_date_anomalies. rewrite Hget.
    cbn [DateSequencingValidator.len mbind exc_bind bind].
    destruct (_ <? 2)%nat; [exists r1; split; [reflexivity | apply only_warnings_refl] |].
    cbn [PyObj.iterate mbind exc_bind bind].
    rewrite (date_desc_combos_reads _ _ _ Hreads'). cbn [mbind exc_bind bind].
    eexists. split; [reflexivity |].
    match goal with |- context [fold_left _ ?keys r1] =>
      pose proof (fold_duplicate_warnings (combos_of 0 (Some <$> entries)) keys r1)
        as (He & Hp & _) end.
    split; assumption. }
  destruct H4 as (r4 & -> & Hr4). cbn [mbind exc_bind bind].
  (* check 5 *)
  assert (H5 : ∃ r5, DateSequencingValidator._check_transaction_gaps DateTime
                       datetime_of_text lt days_between self statement_data r4 = Ok r5
                     ∧ only_warnings_added r4 r5).
  { unfold DateSequencingValidator._check_transaction_gaps. rewrite Hget.
    cbn [DateSequencingValidator.len mbind exc_bind bind].
    destruct (_ <? 2)%nat; [exists r4; split; [reflexivity | apply only_warnings_refl] |].
    cbn [PyObj.iterate mbind exc_bind bind].
    rewrite (parsed_dates_reads _ _ Hreads). cbn [mbind exc_bind bind].
    destruct (_ <? 2)%nat; [exists r4; split; [reflexivity | apply only_warnings_refl] |].
    destruct (sort_returns (fst <$> entries)) as [sorted ->]. cbn [mbind exc_bind bind].
    apply gaps_loop_warns. }
  destruct H5 as (r5 & -> & Hr5).
  exists r5. split; [reflexivity |].
  destruct (only_warnings_trans _ _ _ Hr1 (only_warnings_trans _ _ _ Hr4 Hr5)) as [He Hp].
  rewrite He, Hp. split; reflexivity.
Qed.

End DateLibrary.

(** A stand-in for the datetime library on naive values to the day: ISO
    dates, the proleptic Gregorian day number, its order and
    differences. *)
Definition iso_date (s : string) : option Timestamp :=
  Dates.strptime s [Dates.DY; Dates.Lit "-"; Dates.Dm; Dates.Lit "-"; Dates.Dd].

Definition calendar_date (t : Timestamp) : Z * Z * Z :=
  (ts_year t, ts_month t, ts_day t).

Definition day_number (t : Timestamp) : Z :=
  let y := if ts_month t <=? 2 then ts_year t - 1 else ts_year t in
  let m := if ts_month t <=? 2 then ts_month t + 9 else ts_month t - 3 in
  365 * y + y / 4 - y / 100 + y / 400 + (153 * m + 2) / 5 + ts_day t.

Definition earlier (a b : Timestamp) : Exc bool := Ok (day_number a <? day_number b).

Definition days_apart (a b : Timestamp) : Exc Z := Ok (day_number a - day_number b).

Definition dated_row (date description : string) : PyVal :=
  PyDict (<["date" := PyStr date]> (<["description" := PyStr description]> ∅)).

Definition day_of_2024 (month day : Z) : Timestamp :=
  {| ts_year := 2024; ts_month := month; ts_day := day;
     ts_hour := 0; ts_minute := 0; ts_second := 0 |}.

Definition duplicate_rows : list PyVal :=
  [dated_row "2024-01-05" " ATM "; dated_row "2024-01-07" "POS"; dated_row "2024-01-05" "atm"].


Example duplicate_rows_warning :
  warnings <$> DateSequencingValidator._detect_date_anomalies Timestamp (Z * Z * Z)
                 iso_date calendar_date (<["transactions" := PyList duplicate_rows]> ∅)
                 (new_result DateSequencingValidator.validator_name)
  = Ok [DateSequencingValidator.mk_warning "possible_duplicate" (Some "transactions")
          [0%nat; 2%nat]].
Proof. vm_compute. reflexivity. Qed.

Definition ordered_statement : gmap string PyVal :=
  <["statement_period_from" := PyStr "2024-01-01"]>
    (<["statement_period_to" := PyStr "2024-01-31"]>
       (<["transactions" :=
            PyList [dated_row "2024-01-01" "Salary"; dated_row "2024-01-02" "ATM";
                    dated_row "2024-01-02" "POS"]]> ∅)).

Lemma ordered_dates_in_period_pass_witness :
  ∃ after,
    DateSequencingValidator.validate_statement Timestamp (Z * Z * Z) iso_date
      (day_of_2024 6 1) earlier days_apart calendar_date
      DateSequencingValidator.get_date_validator ordered_statement = Ok after
    ∧ errors after = [] ∧ passed after = true.
Proof.
  apply (ordered_dates_in_period_pass Timestamp (Z * Z * Z) iso_date (day_of_2024 6 1)
           earlier days_apart calendar_date day_number
           (fun a b => eq_refl) (fun a b => ex_intro _ _ eq_refl)
           DateSequencingValidator.get_date_validator ordered_statement
           [dated_row "2024-01-01" "Salary"; dated_row "2024-01-02" "ATM";
            dated_row "2024-01-02" "POS"]
           [(day_of_2024 1 1, "Salary"); (day_of_2024 1 2, "ATM"); (day_of_2024 1 2, "POS")]
           (day_of_2024 1 1) (day_of_2024 1 31)).
  - vm_compute. reflexivity.
  - vm_compute. reflexivity.
  - vm_compute. reflexivity.
  - reflexivity.
  - repeat (apply Forall2_cons_2;
            [eexists; split; [reflexivity | split; vm_compute; reflexivity] |]).
    apply Forall2_nil_2.
  - vm_compute. repeat split; discriminate.
Defined.

(** ** The extractor *)

(** *** [convert] on the frames [_load_excel] produces *)




(** *** Header row and column roles *)

(** The test of the header scan: the lower-cased text of the row holds a
    date, debit or credit keyword. *)
Definition has_header_keyword (row : list Cell) : bool :=
  any_in (DATE_PATTERNS ++ DEBIT_PATTERNS ++ CREDIT_PATTERNS)
    (PyText.join " " ((fun val => PyText.lower (str val)) <$> row)).

Definition roles : list string :=
  ["date"; "description"; "debit"; "credit"; "balance"; "reference"].

(** [col] is the last column of the header whose cell names [role]. *)
Definition last_column_of (header_values : list Cell) (role : string) (col : nat) : Prop :=
  (∃ header, header_values !! col = Some header ∧ column_role header = Some role)
  ∧ ∀ col' header', (col < col')%nat → header_values !! col' = Some header' →
      column_role header' ≠ Some role.

Lemma column_role_roles (header : Cell) (role : string) :
  column_role header = Some role → role ∈ roles.
Proof.
  unfold column_role, roles.
  repeat (destruct (any_in _ _); [intros [= <-]; set_solver |]).
  discriminate.
Qed.

Lemma find_header_first (rows : DataFrame) (idx : nat) :
  match find_header idx rows with
  | Some k =>
      (idx <= k)%nat
      ∧ (∃ row, rows !! (k - idx)%nat = Some row ∧ has_header_keyword row = true)
      ∧ ∀ i row, (i < k - idx)%nat → rows !! i = Some row → has_header_keyword row = false
  | None => ∀ i row, rows !! i = Some row → has_header_keyword row = false
  end.
Proof.
  revert idx. induction rows as [| row rows IH]; intros idx; cbn [find_header].
  - intros i row H. discriminate.
  - fold (has_header_keyword row).
    destruct (has_header_keyword row) eqn:Hrow.
    + rewrite Nat.sub_diag. split; [lia |]. split; [exists row; done |].
      intros i row' Hi. lia.
    + specialize (IH (S idx)).
      destruct (find_header (S idx) rows) as [k |].
      * destruct IH as (Hle & (row' & Hrow' & Hkw) & Hbefore).
        split; [lia |]. split.
        -- exists row'. replace (k - idx)%nat with (S (k - S idx)) by lia. done.
        -- intros [| i] row'' Hi Hlook; [injection Hlook as <-; exact Hrow |].
           apply (Hbefore i); [lia | exact Hlook].
      * intros [| i] row' Hlook; [injection Hlook as <-; exact Hrow |].
        apply (IH i), Hlook.
Qed.

Lemma map_columns_last
    (header_values : list Cell) (col_idx : nat) (column_mapping : gmap string nat)
    (role : string) (col : nat) :
  map_columns col_idx header_values column_mapping !! role = Some col
  ↔ ((col_idx <= col)%nat ∧ last_column_of header_values role (col - col_idx))
    ∨ (column_mapping !! role = Some col
       ∧ ∀ i header, header_values !! i = Some header → column_role header ≠ Some role).
Proof.
  revert col_idx column_mapping.
  induction header_values as [| header rest IH]; intros col_idx column_mapping;
    cbn [map_columns].
  - split.
    + intros H. right. split; [exact H | intros i h Hi; discriminate].
    + intros [[_ [(h & Hh & _) _]] | [H _]]; [discriminate | exact H].
  - rewrite IH. unfold last_column_of. split.
    + intros [[Hle [(h & Hh & Hrole) Hlast]] | [Hm Hnone]].
      * left. split; [lia |].
        replace (col - col_idx)%nat with (S (col - S col_idx)) by lia.
        split; [exists h; done |].
        intros [| col'] h' Hlt Hh'; [lia |].
        apply (Hlast col'); [lia | exact Hh'].
      * destruct (column_role header) as [r |] eqn:Hr.
        -- destruct (decide (r = role)) as [-> | Hne].
           ++ rewrite lookup_insert_eq in Hm. injection Hm as <-.
              left. split; [lia |]. rewrite Nat.sub_diag.
              split; [exists header; done |].
              intros [| col'] h' Hlt Hh'; [lia |]. apply (Hnone col'), Hh'.
           ++ rewrite lookup_insert_ne in Hm by exact Hne.
              right. split; [exact Hm |].
              intros [| i] h Hh; [injection Hh as <-; congruence |].
              apply (Hnone i), Hh.
        -- right. split; [exact Hm |].
           intros [| i] h Hh; [injection Hh as <-; congruence |].
           apply (Hnone i), Hh.
    + intros [[Hle [(h & Hh & Hrole) Hlast]] | [Hm Hnone]].
      * destruct (decide (col = col_idx)) as [-> | Hne].
        -- right. rewrite Nat.sub_diag in Hh, Hlast. injection Hh as <-.
           rewrite Hrole, lookup_insert_eq. split; [reflexivity |].
           intros i h' Hh'. apply (Hlast (S i)); [lia | exact Hh'].
        -- left. split; [lia |].
           replace (col - col_idx)%nat with (S (col - S col_idx)) in Hh, Hlast by lia.
           split; [exists h; done |].
           intros col' h' Hlt Hh'. apply (Hlast (S col')); [lia | exact Hh'].
      * right. pose proof (Hnone 0%nat header eq_refl) as Hhead.
        split.
        -- destruct (column_role header) as [r |]; [| exact Hm].
           rewrite lookup_insert_ne by congruence. exact Hm.
        -- intros i h Hh. apply (Hnone (S i)), Hh.
Qed.

(** X11: what [_identify_structure] returns.  The header row is the
    first of the first ten rows whose text holds a date, debit or credit
    keyword, and row 0 when none does; a role is mapped exactly to the
    last column of the header row whose cell names it (a later column
    overwrites an earlier one), so every mapped column lies inside the
    header row; and only the six roles are mapped. *)
Theorem identify_structure_header_and_roles
    (df : DataFrame) (header_row : nat) (column_mapping : gmap string nat) :
  _identify_structure df = Ok (header_row, column_mapping) →
  ∃ header_values,
    df !! header_row = Some header_values
    ∧ (header_row < 10)%nat
    ∧ (∀ i row, (i < header_row)%nat → df !! i = Some row → has_header_keyword row = false)
    ∧ (has_header_keyword header_values = true
       ∨ header_row = 0%nat
         ∧ ∀ i row, (i < 10)%nat → df !! i = Some row → has_header_keyword row = false)
    ∧ (∀ role col, column_mapping !! role = Some col
                   ↔ last_column_of header_values role col)
    ∧ ∀ role col, column_mapping !! role = Some col →
        role ∈ roles ∧ (col < length header_values)%nat.
Proof.
  unfold _identify_structure. intros H. bind_inv H. injection H as <- <-.
  rename a into header_values. unfold iloc in Ha.
  match type of Ha with
  | match ?x with _ => _ end = _ => destruct x as [hv |] eqn:Hhv; [| discriminate]
  end.
  injection Ha as ->. exists header_values.
  assert (Hmap : ∀ role col, map_columns 0 header_values ∅ !! role = Some col
                             ↔ last_column_of header_values role col).
  { intros role col. rewrite map_columns_last, Nat.sub_0_r. split.
    - intros [[_ H] | [H _]]; [exact H | rewrite lookup_empty in H; discriminate].
    - intros H. left. split; [lia | exact H]. }
  pose proof (find_header_first (take 10 df) 0) as Hfirst.
  destruct (find_header 0 (take 10 df)) as [k |] eqn:Hk; cbn [from_option id] in *.
  - destruct Hfirst as (_ & (row & Hrow & Hkw) & Hbefore).
    rewrite Nat.sub_0_r in Hrow, Hbefore.
    apply lookup_take_Some in Hrow as [Hrow Hlt].
    rewrite Hhv in Hrow. injection Hrow as <-.
    split; [exact Hhv |]. split; [lia |]. split; [| split; [left; exact Hkw | split]].
    + intros i r Hi Hr. apply (Hbefore i); [exact Hi |].
      apply lookup_take_Some. split; [exact Hr | lia].
    + exact Hmap.
    + intros role col Hcol. apply Hmap in Hcol as [(h & Hh & Hrole) _].
      split; [eapply column_role_roles, Hrole | eapply lookup_lt_Some, Hh].
  - split; [exact Hhv |]. split; [lia |]. split; [intros i r Hi; lia |].
    split; [| split].
    + right. split; [reflexivity |]. intros i r Hi Hr. apply (Hfirst i).
      apply lookup_take_Some. split; [exact Hr | lia].
    + exact Hmap.
    + intros role col Hcol. apply Hmap in Hcol as [(h & Hh & Hrole) _].
      split; [eapply column_role_roles, Hrole | eapply lookup_lt_Some, Hh].
Qed.

Lemma identify_structure_header_and_roles_witness :
  ∃ header_values,
    scenario_grid AsText DateAsText 13000 !! 0%nat = Some header_values
    ∧ (0 < 10)%nat
    ∧ (∀ i row, (i < 0)%nat → scenario_grid AsText DateAsText 13000 !! i = Some row →
         has_header_keyword row = false)
    ∧ (has_header_keyword header_values = true
       ∨ 0%nat = 0%nat
         ∧ ∀ i row, (i < 10)%nat → scenario_grid AsText DateAsText 13000 !! i = Some row →
             has_header_keyword row = false)
    ∧ (∀ role col, scenario_mapping !! role = Some col
                   ↔ last_column_of header_values role col)
    ∧ ∀ role col, scenario_mapping !! role = Some col →
        role ∈ roles ∧ (col < length header_values)%nat.
Proof.
  apply (identify_structure_header_and_roles (scenario_grid AsText DateAsText 13000)).
  vm_compute. reflexivity.
Defined.

(** A later header cell with the same role takes the column over. *)
Example last_balance_column_wins :
  _identify_structure
    [[CStr "Date"; CStr "Balance"; CStr "Debit"; CStr "Credit"; CStr "Closing Balance"]]
  = Ok (0%nat,
        <["date" := 0%nat]> (<["debit" := 2%nat]> (<["credit" := 3%nat]>
          (<["balance" := 4%nat]> ∅)))).
Proof. vm_compute. reflexivity. Qed.

(** *** Account number and IFSC code *)

Lemma span_digits_all_digits (s : string) :
  PyText.all_digits (PyFloat.span_digits s).1 = true.
Proof.
  induction s as [| c s IH]; [reflexivity |].
  cbn [PyFloat.span_digits]. destruct (PyText.is_digit c) eqn:Hc; [| reflexivity].
  destruct (PyFloat.span_digits s) as [ds rest]. cbn in *. rewrite Hc, IH. reflexivity.
Qed.

Lemma search_bounded_some
    (at_start : string -> option string) (prev_word : bool) (s m : string) :
  search_bounded at_start prev_word s = Some m → ∃ s', at_start s' = Some m.
Proof.
  revert prev_word. induction s as [| c s IH]; intros prev_word; cbn [search_bounded].
  - discriminate.
  - destruct (if prev_word then None else at_start (String c s)) as [m' |] eqn:Hm.
    + intros [= <-]. destruct prev_word; [discriminate | eauto].
    + apply IH.
Qed.

Lemma account_at_some (s a : string) :
  account_at s = Some a →
  PyText.all_digits a = true ∧ (10 <= String.length a <= 16)%nat.
Proof.
  unfold account_at. pose proof (span_digits_all_digits s) as Hd.
  destruct (PyFloat.span_digits s) as [ds rest]. cbn [fst] in Hd.
  destruct (_ && _) eqn:Hc; [| discriminate].
  intros [= <-]. apply andb_true_iff in Hc as [Hc _].
  apply andb_true_iff in Hc as [H10 H16].
  apply Nat.leb_le in H10, H16. auto.
Qed.

(** The shape [[A-Z]{4}0[A-Z0-9]{6}] of an IFSC code. *)
Definition ifsc_shape (code : string) : Prop :=
  String.length code = 11%nat
  ∧ all_chars PyText.is_upper (PyFloat.take 4 code) = true
  ∧ PyFloat.take 1 (PyFloat.drop 4 code) = "0"
  ∧ all_chars is_upper_or_digit (PyFloat.drop 5 code) = true.

Lemma ifsc_at_some (s code : string) : ifsc_at s = Some code → ifsc_shape code.
Proof.
  unfold ifsc_at, ifsc_shape.
  destruct (_ && _) eqn:Hc; [| discriminate].
  intros [= <-].
  repeat (apply andb_true_iff in Hc as [Hc ?]).
  repeat split; try assumption.
  - apply Nat.eqb_eq, Hc.
  - apply String.eqb_eq. assumption.
Qed.

Lemma account_number_scan (rows : DataFrame) (metadata : Metadata) :
  account_number (fold_left scan_row rows metadata)
  = match account_number metadata with
    | Some a => Some a
    | None => head (omap (fun row => search_bounded account_at false (present_text row)) rows)
    end.
Proof.
  revert metadata. induction rows as [| row rows IH]; intros metadata.
  - cbn. destruct (account_number metadata); reflexivity.
  - cbn [fold_left omap list_omap]. rewrite IH. cbn [scan_row account_number].
    destruct (search_bounded account_at false (present_text row)) as [m |],
             (account_number metadata); reflexivity.
Qed.

Lemma ifsc_code_scan (rows : DataFrame) (metadata : Metadata) :
  ifsc_code (fold_left scan_row rows metadata)
  = match last (omap (fun row => search_bounded ifsc_at false (present_text row)) rows) with
    | Some code => Some code
    | None => ifsc_code metadata
    end.
Proof.
  revert metadata. induction rows as [| row rows IH]; intros metadata; [reflexivity |].
  cbn [fold_left omap list_omap]. rewrite IH. cbn [scan_row ifsc_code].
  destruct (search_bounded ifsc_at false (present_text row)) as [m |]; [| reflexivity].
  rewrite last_cons. destruct (last _); reflexivity.
Qed.

Lemma untouched_fields_scan (rows : DataFrame) (metadata : Metadata) :
  account_holder_name (fold_left scan_row rows metadata) = account_holder_name metadata
  ∧ branch_name (fold_left scan_row rows metadata) = branch_name metadata
  ∧ currency (fold_left scan_row rows metadata) = currency metadata.
Proof.
  revert metadata. induction rows as [| row rows IH]; intros metadata; [done |].
  cbn [fold_left]. destruct (IH (scan_row metadata row)) as (-> & -> & ->). done.
Qed.

(** X12: of the rows above the header, the account number is the first
    match of [\b\d{10,16}\b] in the first row that has one (later rows do
    not replace it), while the IFSC code is the match in the last row that
    has one; an account number found is 10 to 16 digits and an IFSC code
    has the shape [A-Z]{4}0[A-Z0-9]{6}; the account holder and the branch
    are never filled in and the currency is always INR. *)
Theorem metadata_account_and_ifsc
    (df : DataFrame) (header_row : nat) (metadata : Metadata) :
  _extract_metadata df header_row = Ok metadata →
  let rows := take header_row df in
  account_number metadata
  = head (omap (fun row => search_bounded account_at false (present_text row)) rows)
  ∧ ifsc_code metadata
    = last (omap (fun row => search_bounded ifsc_at false (present_text row)) rows)
  ∧ (∀ a, account_number metadata = Some a →
       PyText.all_digits a = true ∧ (10 <= String.length a <= 16)%nat)
  ∧ (∀ code, ifsc_code metadata = Some code → ifsc_shape code)
  ∧ account_holder_name metadata = None
  ∧ branch_name metadata = None
  ∧ currency metadata = "INR".
Proof.
  unfold _extract_metadata. destruct (_ <? _)%nat; [discriminate |].
  intros H. injection H as <-. cbn zeta. set (rows := take header_row df).
  assert (Hacc : account_number (fold_left scan_row rows empty_metadata)
                 = head (omap (fun row => search_bounded account_at false (present_text row))
                           rows))
    by (rewrite account_number_scan; reflexivity).
  assert (Hifsc : ifsc_code (fold_left scan_row rows empty_metadata)
                  = last (omap (fun row => search_bounded ifsc_at false (present_text row))
                            rows))
    by (rewrite ifsc_code_scan; destruct (last _); reflexivity).
  destruct (untouched_fields_scan rows empty_metadata) as (Hh & Hb & Hc).
  split; [exact Hacc |]. split; [exact Hifsc |].
  split; [| split; [| split; [exact Hh | split; [exact Hb | exact Hc]]]].
  - intros a Ha. rewrite Hacc in Ha.
    apply head_Some_elem_of, list_elem_of_omap in Ha as (row & _ & Hrow).
    apply search_bounded_some in Hrow as [s' Hs']. eapply account_at_some, Hs'.
  - intros code Hcode. rewrite Hifsc in Hcode.
    apply last_Some_elem_of, list_elem_of_omap in Hcode as (row & _ & Hrow).
    apply search_bounded_some in Hrow as [s' Hs']. eapply ifsc_at_some, Hs'.
Qed.

(** Two rows above a header, each with an account number and an IFSC
    code. *)
Definition two_accounts : DataFrame :=
  [ [CStr "HDFC BANK"; CStr "A/c 123456789012"; CStr "IFSC HDFC0001234"];
    [CStr "Joint A/c 998877665544"; CStr "IFSC SBIN0005678"; empty_cell];
    [CStr "Date"; CStr "Debit"; CStr "Credit"] ].

Lemma metadata_account_and_ifsc_witness :
  let metadata :=
    {| bank_name := Some "SBI"; account_number := Some "123456789012";
       account_holder_name := None; branch_name := None;
       ifsc_code := Some "SBIN0005678"; currency := "INR" |} in
  let rows := take 2 two_accounts in
  account_number metadata
  = head (omap (fun row => search_bounded account_at false (present_text row)) rows)
  ∧ ifsc_code metadata
    = last (omap (fun row => search_bounded ifsc_at false (present_text row)) rows)
  ∧ (∀ a, account_number metadata = Some a →
       PyText.all_digits a = true ∧ (10 <= String.length a <= 16)%nat)
  ∧ (∀ code, ifsc_code metadata = Some code → ifsc_shape code)
  ∧ account_holder_name metadata = None
  ∧ branch_name metadata = None
  ∧ currency metadata = "INR".
Proof.
  apply (metadata_account_and_ifsc two_accounts 2).
  vm_compute. reflexivity.
Defined.

(** *** Amounts in parentheses *)

(** The characters of a plain amount: digits, the decimal point and the
    thousands separator. *)
Definition amount_char (c : ascii) : bool :=
  PyText.is_digit c || Ascii.eqb c "." || Ascii.eqb c ",".

Definition plain_char (c : ascii) : bool := PyText.is_digit c || Ascii.eqb c ".".

Lemma append_cons (c : ascii) (s1 s2 : string) :
  String c s1 ++ s2 = String c (s1 ++ s2).
Proof. reflexivity. Qed.

Lemma append_empty (s : string) : "" ++ s = s.
Proof. reflexivity. Qed.

Lemma all_chars_app (p : ascii -> bool) (s1 s2 : string) :
  all_chars p (s1 ++ s2) = all_chars p s1 && all_chars p s2.
Proof.
  induction s1 as [| c s1 IH]; [reflexivity |].
  rewrite append_cons. cbn [all_chars]. rewrite IH, andb_assoc. reflexivity.
Qed.

Lemma all_chars_impl (p q : ascii -> bool) (s : string) :
  (∀ c, p c = true → q c = true) → all_chars p s = true → all_chars q s = true.
Proof.
  intros Hpq. induction s as [| c s IH]; [reflexivity |].
  cbn [all_chars]. rewrite !andb_true_iff. intros [Hc Hs]. auto.
Qed.

Lemma replace_absent (c0 : ascii) (old new s : string) :
  all_chars (fun c => negb (Ascii.eqb c0 c)) s = true →
  PyText.replace (String c0 old) new s = s.
Proof.
  unfold PyText.replace. induction s as [| c s IH]; [reflexivity |].
  cbn [all_chars PyText.replace_from PyText.startswith].
  rewrite andb_true_iff, negb_true_iff. intros [Hc Hs].
  rewrite Hc. cbn [andb]. rewrite IH by exact Hs. reflexivity.
Qed.

Lemma replace_drop_app (c0 : ascii) (s1 s2 : string) :
  PyText.replace (String c0 "") "" (s1 ++ s2)
  = PyText.replace (String c0 "") "" s1 ++ PyText.replace (String c0 "") "" s2.
Proof.
  unfold PyText.replace. induction s1 as [| c s1 IH]; [reflexivity |].
  rewrite append_cons.
  cbn [PyText.replace_from PyText.startswith String.length Nat.pred].
  rewrite andb_true_r.
  destruct (Ascii.eqb c0 c); rewrite ?append_cons, ?append_empty, IH; reflexivity.
Qed.

Lemma replace_drop_chars (c0 : ascii) (p : ascii -> bool) (s : string) :
  all_chars p s = true →
  all_chars (fun c => p c && negb (Ascii.eqb c0 c)) (PyText.replace (String c0 "") "" s) = true.
Proof.
  unfold PyText.replace. induction s as [| c s IH]; [reflexivity |].
  cbn [all_chars PyText.replace_from PyText.startswith String.length Nat.pred].
  rewrite andb_true_iff. intros [Hc Hs]. rewrite andb_true_r.
  destruct (Ascii.eqb c0 c) eqn:Heq; rewrite ?append_empty; cbn [all_chars].
  - apply IH, Hs.
  - rewrite Hc, Heq, IH by exact Hs. reflexivity.
Qed.

Lemma rstrip_no_space (s : string) :
  all_chars (fun c => negb (PyText.is_space c)) s = true → PyText.rstrip s = s.
Proof.
  induction s as [| c s IH]; [reflexivity |].
  cbn [all_chars PyText.rstrip]. rewrite andb_true_iff, negb_true_iff. intros [Hc Hs].
  rewrite IH by exact Hs. destruct s; [rewrite Hc |]; reflexivity.
Qed.

Lemma strip_no_space (s : string) :
  all_chars (fun c => negb (PyText.is_space c)) s = true → PyText.strip s = s.
Proof.
  intros H. unfold PyText.strip.
  assert (Hl : PyText.lstrip s = s).
  { destruct s as [| c s]; [reflexivity |]. cbn in *.
    apply andb_true_iff in H as [Hc _]. apply negb_true_iff in Hc. rewrite Hc. reflexivity. }
  rewrite Hl. apply rstrip_no_space, H.
Qed.

Lemma contains_absent (c0 : ascii) (old s : string) :
  all_chars (fun c => negb (Ascii.eqb c0 c)) s = true →
  PyText.contains (String c0 old) s = false.
Proof.
  induction s as [| c s IH]; [reflexivity |].
  cbn [all_chars PyText.contains PyText.startswith].
  rewrite andb_true_iff, negb_true_iff. intros [Hc Hs].
  rewrite Hc, IH by exact Hs. reflexivity.
Qed.

Lemma underscores_ok_absent (prev : ascii) (s : string) :
  Ascii.eqb prev "_" = false →
  all_chars (fun c => negb (Ascii.eqb "_" c)) s = true →
  PyFloat.underscores_ok prev s = true.
Proof.
  revert prev. induction s as [| c s IH]; intros prev Hprev.
  - intros _. cbn. rewrite Hprev. reflexivity.
  - cbn [all_chars PyFloat.underscores_ok].
    rewrite andb_true_iff, negb_true_iff. intros [Hc Hs].
    rewrite Ascii.eqb_sym in Hc. rewrite Hc, Hprev. cbn [negb orb andb].
    apply IH; assumption.
Qed.

(** What the characters of a plain amount are not. *)
Lemma amount_char_facts (c : ascii) :
  amount_char c = true →
  PyText.is_space c = false
  ∧ Ascii.eqb "226" c = false ∧ Ascii.eqb "R" c = false ∧ Ascii.eqb "I" c = false
  ∧ Ascii.eqb "(" c = false ∧ Ascii.eqb ")" c = false ∧ Ascii.eqb "_" c = false
  ∧ Ascii.eqb "-" c = false ∧ Ascii.eqb "+" c = false
  ∧ (Ascii.eqb "," c = false → plain_char c = true)
  ∧ (plain_char c = true → PyText.lower_char c = c ∧ Ascii.eqb c "i" = false
                           ∧ Ascii.eqb c "n" = false).
Proof.
  destruct c as [[] [] [] [] [] [] [] []]; vm_compute; intros H;
    first [discriminate H | repeat split; intros; congruence].
Qed.

Lemma plain_char_amount (c : ascii) : plain_char c = true → amount_char c = true.
Proof. unfold plain_char, amount_char. intros ->. reflexivity. Qed.

Lemma append_nil_r (s : string) : s ++ "" = s.
Proof. induction s as [| c s IH]; [reflexivity |]. rewrite append_cons, IH. reflexivity. Qed.

Lemma split_sign_plain (c : ascii) (s : string) :
  plain_char c = true → PyFloat.split_sign (String c s) = (false, String c s).
Proof.
  destruct c as [[] [] [] [] [] [] [] []]; vm_compute; intros H;
    first [discriminate H | reflexivity].
Qed.

(** [float(s)] on text made of digits and points, with and without a
    minus sign in front. *)
Lemma of_string_plain (u : string) :
  all_chars plain_char u = true →
  PyFloat.of_string u
  = (fun cx : Z * Z => PyFloat.of_decimal cx.1 cx.2) <$> PyFloat.parse_decimal u
  ∧ PyFloat.of_string (String "-" u)
    = (fun cx : Z * Z => (- PyFloat.of_decimal cx.1 cx.2)%float) <$> PyFloat.parse_decimal u.
Proof.
  intros Hu.
  assert (Hfacts : ∀ p, (∀ c, amount_char c = true → p c = true) →
                        all_chars p u = true).
  { intros p Hp. eapply all_chars_impl; [| exact Hu].
    intros c Hc. apply Hp, plain_char_amount, Hc. }
  assert (Hspace : all_chars (fun c => negb (PyText.is_space c)) u = true).
  { apply Hfacts. intros c Hc. apply amount_char_facts in Hc as (-> & _). reflexivity. }
  assert (Hunder : all_chars (fun c => negb (Ascii.eqb "_" c)) u = true).
  { apply Hfacts. intros c Hc.
    apply amount_char_facts in Hc as (_ & _ & _ & _ & _ & _ & -> & _). reflexivity. }
  assert (Hwords : String.eqb (PyText.lower u) "inf" = false
                   ∧ String.eqb (PyText.lower u) "infinity" = false
                   ∧ String.eqb (PyText.lower u) "nan" = false).
  { destruct u as [| c u]; [done |].
    cbn [all_chars] in Hu. apply andb_true_iff in Hu as [Hc _].
    pose proof (amount_char_facts c (plain_char_amount c Hc))
      as (_ & _ & _ & _ & _ & _ & _ & _ & _ & _ & Hplain).
    destruct (Hplain Hc) as (Hlow & Hi & Hn).
    unfold PyText.lower. cbn [PyText.map_chars String.eqb]. rewrite Hlow, Hi, Hn. done. }
  destruct Hwords as (Hinf & Hinfinity & Hnan).
  assert (Hsign : PyFloat.split_sign u = (false, u)).
  { destruct u as [| c u]; [reflexivity |].
    cbn [all_chars] in Hu. apply andb_true_iff in Hu as [Hc _].
    apply split_sign_plain, Hc. }
  split.
  - unfold PyFloat.of_string.
    rewrite (strip_no_space u Hspace).
    rewrite (underscores_ok_absent "000"%char u eq_refl Hunder). cbn [negb].
    rewrite (replace_absent "_" "" "" u Hunder), Hsign, Hinf, Hinfinity, Hnan.
    cbn [orb]. destruct (PyFloat.parse_decimal u) as [[c x] |]; reflexivity.
  - unfold PyFloat.of_string.
    assert (Hspace' : all_chars (fun c => negb (PyText.is_space c)) (String "-" u) = true)
      by (cbn [all_chars]; rewrite Hspace; reflexivity).
    assert (Hunder' : all_chars (fun c => negb (Ascii.eqb "_" c)) (String "-" u) = true)
      by (cbn [all_chars]; rewrite Hunder; reflexivity).
    rewrite (strip_no_space _ Hspace').
    rewrite (underscores_ok_absent "000"%char _ eq_refl Hunder'). cbn [negb].
    rewrite (replace_absent "_" "" "" _ Hunder').
    cbn [PyFloat.split_sign]. rewrite Hinf, Hinfinity, Hnan.
    cbn [orb]. destruct (PyFloat.parse_decimal u) as [[c x] |]; reflexivity.
Qed.

Lemma clean_amount_plain (s : string) :
  all_chars amount_char s = true →
  all_chars plain_char (PyText.replace "," "" s) = true
  ∧ clean_amount s = PyText.replace "," "" s
  ∧ clean_amount ("(" ++ s ++ ")") = String "-" (PyText.replace "," "" s).
Proof.
  intros Hs. set (u := PyText.replace "," "" s).
  assert (Hu : all_chars plain_char u = true).
  { eapply all_chars_impl; [| apply (replace_drop_chars "," amount_char s Hs)].
    intros c Hc. apply andb_true_iff in Hc as [Hc Hcomma]. apply negb_true_iff in Hcomma.
    apply amount_char_facts in Hc as (_ & _ & _ & _ & _ & _ & _ & _ & _ & Hplain & _).
    apply Hplain, Hcomma. }
  assert (Hnot : ∀ (c0 : ascii) (t : string),
            (∀ c, amount_char c = true → Ascii.eqb c0 c = false) →
            all_chars plain_char t = true →
            all_chars (fun c => negb (Ascii.eqb c0 c)) t = true).
  { intros c0 t Hc0 Ht. eapply all_chars_impl; [| exact Ht].
    intros c Hc. rewrite (Hc0 c (plain_char_amount c Hc)). reflexivity. }
  assert (H226 : ∀ c, amount_char c = true → Ascii.eqb "226" c = false)
    by (intros c Hc; apply amount_char_facts in Hc; tauto).
  assert (HR : ∀ c, amount_char c = true → Ascii.eqb "R" c = false)
    by (intros c Hc; apply amount_char_facts in Hc; tauto).
  assert (HI : ∀ c, amount_char c = true → Ascii.eqb "I" c = false)
    by (intros c Hc; apply amount_char_facts in Hc; tauto).
  assert (Hopen : ∀ c, amount_char c = true → Ascii.eqb "(" c = false)
    by (intros c Hc; apply amount_char_facts in Hc; tauto).
  assert (Hclose : ∀ c, amount_char c = true → Ascii.eqb ")" c = false)
    by (intros c Hc; apply amount_char_facts in Hc; tauto).
  assert (Hspace : ∀ t, all_chars plain_char t = true →
                        all_chars (fun c => negb (PyText.is_space c)) t = true).
  { intros t Ht. eapply all_chars_impl; [| exact Ht].
    intros c Hc. apply plain_char_amount, amount_char_facts in Hc as (-> & _). reflexivity. }
  split; [exact Hu |]. split.
  - unfold clean_amount. fold u.
    rewrite (replace_absent "226" _ "" u (Hnot _ _ H226 Hu)).
    rewrite (replace_absent "R" "s" "" u (Hnot _ _ HR Hu)).
    rewrite (replace_absent "I" "NR" "" u (Hnot _ _ HI Hu)).
    rewrite (strip_no_space u (Hspace u Hu)).
    rewrite (contains_absent "(" "" u (Hnot _ _ Hopen Hu)). reflexivity.
  - unfold clean_amount.
    change ("(" ++ s ++ ")") with (String "(" (s ++ ")")).
    assert (Hcomma : PyText.replace "," "" (String "(" (s ++ ")")) = String "(" (u ++ ")")).
    { change (String "(" (s ++ ")")) with ("(" ++ (s ++ ")")).
      rewrite !replace_drop_app. reflexivity. }
    rewrite Hcomma.
    set (w := String "(" (u ++ ")")).
    assert (Hw : ∀ c0, (∀ c, amount_char c = true → Ascii.eqb c0 c = false) →
                       Ascii.eqb c0 "(" = false → Ascii.eqb c0 ")" = false →
                       all_chars (fun c => negb (Ascii.eqb c0 c)) w = true).
    { intros c0 Hc0 Ho Hc. unfold w. cbn [all_chars]. rewrite Ho, all_chars_app.
      rewrite (Hnot _ _ Hc0 Hu). cbn [all_chars negb andb]. rewrite Hc. reflexivity. }
    rewrite (replace_absent "226" _ "" w (Hw _ H226 eq_refl eq_refl)).
    rewrite (replace_absent "R" "s" "" w (Hw _ HR eq_refl eq_refl)).
    rewrite (replace_absent "I" "NR" "" w (Hw _ HI eq_refl eq_refl)).
    assert (Hwspace : all_chars (fun c => negb (PyText.is_space c)) w = true).
    { unfold w. cbn [all_chars]. rewrite all_chars_app, (Hspace u Hu). reflexivity. }
    rewrite (strip_no_space w Hwspace).
    assert (Hcontains : PyText.contains "(" w = true) by reflexivity.
    rewrite Hcontains.
    assert (Hminus : PyText.replace "(" "-" w = String "-" (u ++ ")")).
    { unfold w, PyText.replace.
      cbn [PyText.replace_from PyText.startswith Ascii.eqb Bool.eqb andb String.length Nat.pred].
      rewrite append_cons, append_empty. f_equal.
      apply (replace_absent "(" "" "-").
      rewrite all_chars_app, (Hnot _ _ Hopen Hu). reflexivity. }
    rewrite Hminus.
    change (String "-" (u ++ ")")) with ("-" ++ (u ++ ")")).
    rewrite !replace_drop_app.
    rewrite (replace_absent ")" "" "" u (Hnot _ _ Hclose Hu)).
    change (PyText.replace ")" "" "-") with "-".
    change (PyText.replace ")" "" ")") with "".
    rewrite append_nil_r. reflexivity.
Qed.

(** X13: for amount text made of digits, decimal points and thousands
    separators, parentheses negate: [_parse_amount] reads "(s)" as the
    negative of what [float] reads in [s] without its commas, and reads
    [s] itself as that number; when [float] rejects the text (no digit,
    two points) both are 0.0. *)
Theorem parenthesised_amount_is_negated (s : string) :
  all_chars amount_char s = true →
  _parse_amount (CStr s) = default 0%float (PyFloat.of_string (PyText.replace "," "" s))
  ∧ _parse_amount (CStr ("(" ++ s ++ ")"))
    = match PyFloat.of_string (PyText.replace "," "" s) with
      | Some f => (- f)%float
      | None => 0%float
      end.
Proof.
  intros Hs.
  destruct (clean_amount_plain s Hs) as (Hu & Hplain & Hparens).
  destruct (of_string_plain _ Hu) as [Hpos Hneg].
  unfold _parse_amount. cbn [isna str].
  rewrite Hplain, Hparens. split.
  - destruct (String.eqb_spec (PyText.replace "," "" s) "") as [-> | _]; reflexivity.
  - cbn [String.eqb]. rewrite Hneg, Hpos.
    destruct (PyFloat.parse_decimal _) as [[c x] |]; reflexivity.
Qed.

Lemma parenthesised_amount_is_negated_witness :
  _parse_amount (CStr "1,250.50") = 1250.5%float
  ∧ _parse_amount (CStr ("(" ++ "1,250.50" ++ ")")) = (-1250.5)%float.
Proof.
  apply (parenthesised_amount_is_negated "1,250.50"). reflexivity.
Defined.

(** *** Dates written by the extractor are read back *)

Lemma digit_char_facts (k : Z) :
  0 <= k <= 9 →
  PyText.is_digit (PyText.digit_char k) = true ∧ PyText.digit_val (PyText.digit_char k) = k.
Proof.
  intros H.
  assert (Hk : k = 0 ∨ k = 1 ∨ k = 2 ∨ k = 3 ∨ k = 4 ∨ k = 5 ∨ k = 6 ∨ k = 7 ∨ k = 8 ∨ k = 9)
    by lia.
  repeat (destruct Hk as [-> | Hk]; [split; reflexivity |]). subst k. split; reflexivity.
Qed.

(** [str(y)] for a year of four digits. *)
Lemma str_int_four_digits (y : Z) :
  1000 <= y <= 9999 →
  PyText.str_int y
  = String (PyText.digit_char (y / 1000))
      (String (PyText.digit_char (y / 100 mod 10))
         (String (PyText.digit_char (y / 10 mod 10))
            (String (PyText.digit_char (y mod 10)) ""))).
Proof.
  intros Hy. unfold PyText.str_int, PyText.digits_of.
  destruct (Z.ltb_spec y 0) as [| _]; [lia |].
  assert (Hlog : 9 <= Z.log2 y).
  { apply Z.log2_le_pow2; [lia |]. change (2 ^ 9) with 512. lia. }
  destruct (Z.to_nat (Z.log2 y)) as [| [| [| k]]] eqn:Hk; try lia.
  cbn [PyText.digits_fuel].
  pose proof (Z.div_mod y 10 ltac:(lia)) as E1.
  pose proof (Z.mod_pos_bound y 10 ltac:(lia)) as B1.
  pose proof (Z.div_mod (y / 10) 10 ltac:(lia)) as E2.
  pose proof (Z.mod_pos_bound (y / 10) 10 ltac:(lia)) as B2.
  pose proof (Z.div_mod (y / 10 / 10) 10 ltac:(lia)) as E3.
  pose proof (Z.mod_pos_bound (y / 10 / 10) 10 ltac:(lia)) as B3.
  destruct (Z.ltb_spec y 10) as [| _]; [lia |].
  destruct (Z.ltb_spec (y / 10) 10) as [| _]; [lia |].
  destruct (Z.ltb_spec (y / 10 / 10) 10) as [| _]; [lia |].
  destruct (Z.ltb_spec (y / 10 / 10 / 10) 10) as [_ |]; [| lia].
  rewrite (Z.mod_small (y / 10 / 10 / 10) 10) by lia.
  rewrite !Z.div_div by lia. reflexivity.
Qed.

(** The characters of an ISO date: digits and the dash. *)
Definition date_char (c : ascii) : bool := PyText.is_digit c || Ascii.eqb c "-".

Lemma date_char_facts (c : ascii) :
  date_char c = true →
  PyText.is_space c = false ∧ PyText.lower_char c = c
  ∧ Ascii.eqb "d" c = false ∧ Ascii.eqb "t" c = false
  ∧ (PyText.is_digit c = true → Ascii.eqb c "-" = false ∧ Ascii.eqb c "/" = false).
Proof.
  destruct c as [[] [] [] [] [] [] [] []]; vm_compute; intros H;
    first [discriminate H | repeat split; intros; congruence].
Qed.

Lemma lower_date_chars (s : string) :
  all_chars date_char s = true → PyText.lower s = s.
Proof.
  induction s as [| c s IH]; [reflexivity |].
  cbn [all_chars]. rewrite andb_true_iff. intros [Hc Hs].
  unfold PyText.lower in *. cbn [PyText.map_chars]. rewrite IH by exact Hs.
  apply date_char_facts in Hc as (_ & -> & _). reflexivity.
Qed.

(** A format that starts with [%d-] or [%m/] rejects text that starts
    with three digits. *)
Lemma day_first_rejects
    (a b c : ascii) (rest : string) (fmt : list Dates.Directive) (acc : Dates.Parts) :
  PyText.is_digit b = true → PyText.is_digit c = true →
  Dates.match_format (Dates.Dd :: Dates.Lit "-" :: fmt) (String a (String b (String c rest))) acc
  = None
  ∧ Dates.match_format (Dates.Dm :: Dates.Lit "/" :: fmt)
      (String a (String b (String c rest))) acc = None.
Proof.
  intros Hb Hc.
  assert (Hb' : date_char b = true) by (unfold date_char; rewrite Hb; reflexivity).
  assert (Hc' : date_char c = true) by (unfold date_char; rewrite Hc; reflexivity).
  apply date_char_facts in Hb' as (_ & _ & _ & _ & Hbd). destruct (Hbd Hb) as [Hb1 Hb2].
  apply date_char_facts in Hc' as (_ & _ & _ & _ & Hcd). destruct (Hcd Hc) as [Hc1 Hc2].
  split.
  - cbn [Dates.match_format]. unfold Dates.day_matches.
    repeat match goal with
           | |- context [if ?t then [_] else []] =>
               destruct t; cbn [app Dates.first_some Dates.match_format]
           end;
      rewrite ?Hb1, ?Hc1; reflexivity.
  - cbn [Dates.match_format]. unfold Dates.month_matches.
    repeat match goal with
           | |- context [if ?t then [_] else []] =>
               destruct t; cbn [app Dates.first_some Dates.match_format]
           end;
      rewrite ?Hb2, ?Hc2; reflexivity.
Qed.

Lemma substring_none (s : string) : String.substring 0 0 s = "".
Proof. destruct s; reflexivity. Qed.

Lemma substring_all (s : string) : String.substring 0 (String.length s) s = s.
Proof. induction s as [| c s IH]; [reflexivity |]. cbn. rewrite IH. reflexivity. Qed.

Lemma year_matches_digits (a b c d : ascii) (rest : string) :
  PyText.is_digit a = true → PyText.is_digit b = true →
  PyText.is_digit c = true → PyText.is_digit d = true →
  Dates.year_matches (String a (String b (String c (String d rest))))
  = [(PyText.digits_value 0 (String a (String b (String c (String d "")))), rest)].
Proof.
  intros Ha Hb Hc Hd. unfold Dates.year_matches, PyFloat.take, PyFloat.drop.
  cbn [String.substring String.length Nat.sub].
  rewrite substring_none, Nat.sub_0_r, substring_all.
  cbn [String.length Nat.eqb PyText.all_digits andb].
  rewrite Ha, Hb, Hc, Hd. reflexivity.
Qed.

Lemma iso_tail (m d v : Z) :
  1 <= m <= 12 → 1 <= d <= 31 →
  Dates.match_format [Dates.Lit "-"; Dates.Dm; Dates.Lit "-"; Dates.Dd]
    ("-" ++ Dates.two m ++ "-" ++ Dates.two d)
    {| Dates.p_year := v; Dates.p_month := 1; Dates.p_day := 1 |}
  = Some ({| Dates.p_year := v; Dates.p_month := m; Dates.p_day := d |}, "")
  ∧ all_chars date_char ("-" ++ Dates.two m ++ "-" ++ Dates.two d) = true.
Proof.
  intros Hm Hd.
  assert (Hms : m = 1 ∨ m = 2 ∨ m = 3 ∨ m = 4 ∨ m = 5 ∨ m = 6 ∨ m = 7 ∨ m = 8 ∨ m = 9
                ∨ m = 10 ∨ m = 11 ∨ m = 12) by lia.
  assert (Hds : d = 1 ∨ d = 2 ∨ d = 3 ∨ d = 4 ∨ d = 5 ∨ d = 6 ∨ d = 7 ∨ d = 8 ∨ d = 9
                ∨ d = 10 ∨ d = 11 ∨ d = 12 ∨ d = 13 ∨ d = 14 ∨ d = 15 ∨ d = 16 ∨ d = 17
                ∨ d = 18 ∨ d = 19 ∨ d = 20 ∨ d = 21 ∨ d = 22 ∨ d = 23 ∨ d = 24 ∨ d = 25
                ∨ d = 26 ∨ d = 27 ∨ d = 28 ∨ d = 29 ∨ d = 30 ∨ d = 31) by lia.
  clear Hm Hd.
  repeat (destruct Hms as [-> | Hms]); try subst m;
    repeat (destruct Hds as [-> | Hds]); try subst d;
    vm_compute; split; reflexivity.
Qed.

(** X14: a date the extractor writes is read back.  For a date that
    exists, in a year of four digits, the text [strftime('%Y-%m-%d')]
    gives is parsed by [strptime] with '%Y-%m-%d' to the same date; of the
    extractor's own formats the two tried first reject it and the third
    reads it; so [_parse_date] maps the text to itself whenever the pandas
    parser fails on it or agrees with it. *)
Theorem iso_date_round_trip (y m d : Z) (t : Timestamp) :
  Dates.make_date y m d = Some t → 1000 <= y →
  Dates.strptime (Dates.strftime t)
    [Dates.DY; Dates.Lit "-"; Dates.Dm; Dates.Lit "-"; Dates.Dd] = Some t
  ∧ Dates.first_some (Dates.strptime (Dates.strftime t)) Dates.formats = Some t
  ∧ ∀ pd : string -> option Timestamp,
      (∀ t', pd (Dates.strftime t) = Some t' → Dates.strftime t' = Dates.strftime t) →
      _parse_date pd (CStr (Dates.strftime t)) = Some (Dates.strftime t).
Proof.
  intros Hdate Hy.
  pose proof Hdate as Hvalid. unfold Dates.make_date in Hvalid.
  destruct (_ && _) eqn:Hrange in Hvalid; [| discriminate]. injection Hvalid as <-.
  repeat (apply andb_true_iff in Hrange as [Hrange ?]).
  assert (Hy' : 1000 <= y <= 9999) by lia.
  assert (Hm : 1 <= m <= 12) by lia.
  assert (Hd : 1 <= d <= 31).
  { unfold Dates.days_in_month in *.
    destruct (m =? 2); [destruct (Dates.is_leap y) |]; [lia | lia |].
    destruct (_ || _); lia. }
  clear Hrange.
  unfold Dates.strftime. cbn [ts_year ts_month ts_day].
  set (tail := "-" ++ Dates.two m ++ "-" ++ Dates.two d).
  rewrite (str_int_four_digits y Hy'), !append_cons, append_empty.
  pose proof (Z.div_mod y 10 ltac:(lia)) as E1.
  pose proof (Z.mod_pos_bound y 10 ltac:(lia)) as B1.
  pose proof (Z.div_mod (y / 10) 10 ltac:(lia)) as E2.
  pose proof (Z.mod_pos_bound (y / 10) 10 ltac:(lia)) as B2.
  pose proof (Z.div_mod (y / 100) 10 ltac:(lia)) as E3.
  pose proof (Z.mod_pos_bound (y / 100) 10 ltac:(lia)) as B3.
  rewrite !Z.div_div in E2, E3 by lia.
  change (10 * 10) with 100 in E2. change (100 * 10) with 1000 in E3.
  assert (B4 : 0 <= y / 1000 <= 9).
  { split; [apply Z.div_pos; lia | ]. assert (y / 1000 < 10); [| lia].
    apply Z.div_lt_upper_bound; lia. }
  destruct (digit_char_facts (y / 1000) B4) as [Da Va].
  destruct (digit_char_facts (y / 100 mod 10) ltac:(lia)) as [Db Vb].
  destruct (digit_char_facts (y / 10 mod 10) ltac:(lia)) as [Dc Vc].
  destruct (digit_char_facts (y mod 10) ltac:(lia)) as [Dd Vd].
  set (a := PyText.digit_char (y / 1000)) in *.
  set (b := PyText.digit_char (y / 100 mod 10)) in *.
  set (c := PyText.digit_char (y / 10 mod 10)) in *.
  set (e := PyText.digit_char (y mod 10)) in *.
  assert (Hvalue : PyText.digits_value 0 (String a (String b (String c (String e "")))) = y).
  { cbn [PyText.digits_value]. rewrite Va, Vb, Vc, Vd. lia. }
  destruct (iso_tail m d y Hm Hd) as [Htail Hchars]. fold tail in Htail, Hchars.
  set (s := String a (String b (String c (String e tail)))).
  assert (Hiso : Dates.strptime s [Dates.DY; Dates.Lit "-"; Dates.Dm; Dates.Lit "-"; Dates.Dd]
                 = Dates.make_date y m d).
  { unfold Dates.strptime, s.
    change (Dates.match_format (Dates.DY :: ?fmt) ?text ?acc)
      with (Dates.first_some
              (fun '(v, rest) =>
                 Dates.match_format fmt rest
                   {| Dates.p_year := v; Dates.p_month := Dates.p_month acc;
                      Dates.p_day := Dates.p_day acc |})
              (Dates.year_matches text)).
    rewrite (year_matches_digits a b c e tail Da Db Dc Dd), Hvalue.
    cbn [Dates.first_some Dates.p_month Dates.p_day].
    rewrite Htail. reflexivity. }
  assert (Hdmy : Dates.strptime s
                   [Dates.Dd; Dates.Lit "-"; Dates.Dm; Dates.Lit "-"; Dates.DY] = None).
  { unfold Dates.strptime, s.
    destruct (day_first_rejects a b c (String e tail)
                [Dates.Dm; Dates.Lit "-"; Dates.DY]
                {| Dates.p_year := 1900; Dates.p_month := 1; Dates.p_day := 1 |} Db Dc)
      as [-> _].
    reflexivity. }
  assert (Hmdy : Dates.strptime s
                   [Dates.Dm; Dates.Lit "/"; Dates.Dd; Dates.Lit "/"; Dates.DY] = None).
  { unfold Dates.strptime, s.
    destruct (day_first_rejects a b c (String e tail)
                [Dates.Dd; Dates.Lit "/"; Dates.DY]
                {| Dates.p_year := 1900; Dates.p_month := 1; Dates.p_day := 1 |} Db Dc)
      as [_ ->].
    reflexivity. }
  assert (Hformats : Dates.first_some (Dates.strptime s) Dates.formats = Dates.make_date y m d).
  { unfold Dates.formats. cbn [Dates.first_some].
    rewrite Hdmy, Hmdy, Hiso, Hdate. reflexivity. }
  rewrite Hiso, Hformats, Hdate.
  split; [reflexivity |]. split; [reflexivity |].
  intros pd Hpd.
  assert (Hall : all_chars date_char s = true).
  { unfold s. cbn [all_chars]. unfold date_char at 1 2 3 4.
    rewrite Da, Db, Dc, Dd. exact Hchars. }
  assert (Hspace : all_chars (fun c => negb (PyText.is_space c)) s = true).
  { eapply all_chars_impl; [| exact Hall].
    intros x Hx. apply date_char_facts in Hx as (-> & _). reflexivity. }
  assert (Hd' : all_chars (fun c => negb (Ascii.eqb "d" c)) s = true).
  { eapply all_chars_impl; [| exact Hall].
    intros x Hx. apply date_char_facts in Hx as (_ & _ & -> & _). reflexivity. }
  assert (Ht' : all_chars (fun c => negb (Ascii.eqb "t" c)) s = true).
  { eapply all_chars_impl; [| exact Hall].
    intros x Hx. apply date_char_facts in Hx as (_ & _ & _ & -> & _). reflexivity. }
  unfold _parse_date. cbn [isna str].
  rewrite (strip_no_space s Hspace), (lower_date_chars s Hall).
  unfold any_in. cbn [existsb].
  rewrite (contains_absent "d" "ate" s Hd'), (contains_absent "t" "ran" s Ht'),
    (contains_absent "t" "xn" s Ht'), (contains_absent "t" "ransaction" s Ht').
  cbn [orb].
  assert (Hself : Dates.strftime
                    {| ts_year := y; ts_month := m; ts_day := d;
                       ts_hour := 0; ts_minute := 0; ts_second := 0 |} = s).
  { unfold Dates.strftime. cbn [ts_year ts_month ts_day]. fold tail.
    rewrite (str_int_four_digits y Hy'), !append_cons, append_empty. reflexivity. }
  destruct (pd s) as [t' |] eqn:Hpds.
  - f_equal. exact (Hpd t' eq_refl).
  - rewrite Hformats, Hdate, Hself. reflexivity.
Qed.

Lemma iso_date_round_trip_witness :
  let t := day_of_2024 2 29 in
  Dates.strptime (Dates.strftime t)
    [Dates.DY; Dates.Lit "-"; Dates.Dm; Dates.Lit "-"; Dates.Dd] = Some t
  ∧ Dates.first_some (Dates.strptime (Dates.strftime t)) Dates.formats = Some t
  ∧ ∀ pd : string -> option Timestamp,
      (∀ t', pd (Dates.strftime t) = Some t' → Dates.strftime t' = Dates.strftime t) →
      _parse_date pd (CStr (Dates.strftime t)) = Some (Dates.strftime t).
Proof.
  apply (iso_date_round_trip 2024 2 29 (day_of_2024 2 29)); [reflexivity | lia].
Defined.

(** ** The bank name of the fallback extractor *)

Lemma upper_char_idempotent (c : ascii) :
  PyText.upper_char (PyText.upper_char c) = PyText.upper_char c
  ∧ PyText.upper_char (PyText.lower_char c) = PyText.upper_char c.
Proof. destruct c as [[] [] [] [] [] [] [] []]; split; reflexivity. Qed.

Lemma upper_idempotent (s : string) :
  PyText.upper (PyText.upper s) = PyText.upper s
  ∧ PyText.upper (PyText.lower s) = PyText.upper s.
Proof.
  unfold PyText.upper, PyText.lower.
  induction s as [| c s [IH1 IH2]]; [split; reflexivity |].
  cbn [PyText.map_chars]. rewrite IH1, IH2.
  destruct (upper_char_idempotent c) as [-> ->]. split; reflexivity.
Qed.

(** X15: [extract_bank_from_text] returns the first bank of its list
    whose upper-cased name occurs in the upper-cased text, and None when
    none occurs; the letter case of the text does not matter. *)
Theorem extract_bank_first_listed (text : string) :
  match FallbackExtractor.extract_bank_from_text text with
  | Some bank =>
      ∃ before after,
        FallbackExtractor.banks = (before ++ bank :: after)%list
        ∧ PyText.contains (PyText.upper bank) (PyText.upper text) = true
        ∧ Forall (fun b => PyText.contains (PyText.upper b) (PyText.upper text) = false)
            before
  | None =>
      Forall (fun b => PyText.contains (PyText.upper b) (PyText.upper text) = false)
        FallbackExtractor.banks
  end
  ∧ FallbackExtractor.extract_bank_from_text (PyText.upper text)
    = FallbackExtractor.extract_bank_from_text text
  ∧ FallbackExtractor.extract_bank_from_text (PyText.lower text)
    = FallbackExtractor.extract_bank_from_text text.
Proof.
  unfold FallbackExtractor.extract_bank_from_text.
  destruct (upper_idempotent text) as [-> ->].
  split; [| split; reflexivity].
  generalize FallbackExtractor.banks. intros l.
  induction l as [| b l IH]; cbn [find]; [constructor |].
  destruct (PyText.contains (PyText.upper b) (PyText.upper text)) eqn:Hb.
  - exists [], l. split; [reflexivity |]. split; [exact Hb | constructor].
  - destruct (find _ l) as [bank |].
    + destruct IH as (before & after & -> & Hbank & Hbefore).
      exists (b :: before), after. split; [reflexivity |]. split; [exact Hbank |].
      constructor; assumption.
    + constructor; assumption.
Qed.

(** The bank that the converter does not find in a narration (C7) is
    found by the fallback extractor, in any letter case. *)
Example bank_in_narration_fallback :
  FallbackExtractor.extract_bank_from_text "upi/hdfc bank/salary" = Some "HDFC BANK"
  ∧ FallbackExtractor.extract_bank_from_text "NEFT State bank of india" = Some "State Bank Of India"
  ∧ FallbackExtractor.extract_bank_from_text "SBI and HDFC Bank" = Some "HDFC BANK".
Proof. repeat split; reflexivity. Qed.

(** ** The extraction validator *)

(** A transaction dictionary whose debit, credit and balance [float]
    converts to [d], [c] and [b]. *)
Definition float_row (txn : PyVal) (row : float * float * float) : Prop :=
  let '(d, c, b) := row in
  ∃ fields : gmap string PyVal,
    txn = PyDict fields
    ∧ ExtractionValidator.to_float (PyObj.dict_get fields "debit" (PyInt 0))
      = ExtractionValidator.Done d
    ∧ ExtractionValidator.to_float (PyObj.dict_get fields "credit" (PyInt 0))
      = ExtractionValidator.Done c
    ∧ ExtractionValidator.to_float (PyObj.dict_get fields "balance" (PyInt 0))
      = ExtractionValidator.Done b.

(** A number (not text) whose [float] is [x]. *)
Definition number_value (v : PyVal) (x : float) : Prop :=
  ExtractionValidator.to_float v = ExtractionValidator.Done x
  ∧ match v with
    | PyFloat _ | PyInt _ | PyBool _ => True
    | _ => False
    end.

(** The test of the progression check on one row, against the balance
    [prev] before it. *)
Definition off_balance (prev : float) (row : float * float * float) : bool :=
  let '(d, c, b) := row in
  PyFloat.gt (PrimFloat.abs (b - (prev + c - d))) ExtractionValidator.BALANCE_TOLERANCE.

Definition progression_issues (first : nat) (offs : list bool)
  : list ExtractionValidator.ValidationIssue :=
  omap (fun '(i, flagged) =>
          if flagged : bool
          then Some (ExtractionValidator.issue ExtractionValidator.BALANCE_PROGRESSION
                       "WARNING" (Some i))
          else None)
       (zip (seq first (length offs)) offs).

Lemma check_progression_row (txn : PyVal) (v : PyVal) (prev d c b : float) :
  float_row txn (d, c, b) → number_value v prev →
  ExtractionValidator.check_progression txn v
  = ExtractionValidator.Done (b, off_balance prev (d, c, b)).
Proof.
  intros (fields & -> & Hd & Hc & Hb) [Hv Hnum].
  unfold ExtractionValidator.check_progression.
  cbn [PyObj.get ExtractionValidator.of_exc]. rewrite Hd, Hc, Hb.
  assert (Hadd : ExtractionValidator.add_float v c = ExtractionValidator.Done (prev + c)%float).
  { destruct v; try destruct Hnum; unfold ExtractionValidator.add_float; rewrite Hv;
      reflexivity. }
  rewrite Hadd. reflexivity.
Qed.

Lemma progression_loop_rows
    (txns : list PyVal) (rows : list (float * float * float)) (i : nat)
    (v : PyVal) (prev : float) (valid : bool)
    (issues : list ExtractionValidator.ValidationIssue) :
  Forall2 float_row txns rows → number_value v prev →
  let offs := zip_with off_balance (prev :: ((fun row : float * float * float => row.2) <$> rows)) rows in
  ExtractionValidator.progression_loop i txns v valid issues
  = ((issues ++ progression_issues i offs)%list,
     ExtractionValidator.Done (valid && forallb negb offs)).
Proof.
  intros H. revert i v prev valid issues.
  induction H as [| txn [[d c] b] txns rows Hrow _ IH]; intros i v prev valid issues Hv.
  - cbn. rewrite app_nil_r, andb_true_r. reflexivity.
  - cbn zeta. cbn [ExtractionValidator.progression_loop].
    unfold ExtractionValidator.bind at 1, ExtractionValidator.try_except,
      ExtractionValidator.bind at 1, ExtractionValidator.pure_step.
    rewrite (check_progression_row txn v prev d c b Hrow Hv).
    rewrite fmap_cons. cbn [zip_with snd].
    assert (Hb : number_value (PyFloat b) b) by (split; [reflexivity | exact I]).
    destruct (off_balance prev (d, c, b)) eqn:Hoff.
    + cbn [ExtractionValidator.bind ExtractionValidator.append ExtractionValidator.ret].
      rewrite (IH (S i) (PyFloat b) b false _ Hb). cbn zeta.
      unfold progression_issues. cbn [length seq zip zip_with omap list_omap forallb negb].
      rewrite <- app_assoc, andb_false_r. reflexivity.
    + cbn [ExtractionValidator.bind ExtractionValidator.append ExtractionValidator.ret].
      rewrite (IH (S i) (PyFloat b) b valid _ Hb). cbn zeta.
      unfold progression_issues. cbn [length seq zip zip_with omap list_omap forallb negb].
      reflexivity.
Qed.

(** X16: the progression check of the extraction validator judges every
    row against the balance stated by the row before it (the opening
    balance for the first row): row [i] gets a balance_progression_error
    warning exactly when |balance - (previous stated balance + credit -
    debit)| exceeds 0.50, whatever happened on earlier rows, and the check
    answers whether no row was flagged.  The rows are dictionaries whose
    amounts [float] converts, and the opening balance is a number. *)
Theorem extraction_progression_is_local
    (data : gmap string PyVal) (txns : list PyVal) (rows : list (float * float * float))
    (opening : float) (issues : list ExtractionValidator.ValidationIssue) :
  data !! "transactions" = Some (PyList txns) →
  Forall2 float_row txns rows →
  number_value (PyObj.dict_get data "opening_balance" (PyInt 0)) opening →
  let offs := zip_with off_balance (opening :: ((fun row : float * float * float => row.2) <$> rows)) rows in
  ExtractionValidator._validate_transaction_balances data issues
  = ((issues ++ progression_issues 0 offs)%list,
     ExtractionValidator.Done (forallb negb offs)).
Proof.
  intros Hts Hrows Hopening offs.
  unfold ExtractionValidator._validate_transaction_balances.
  assert (Hget : PyObj.dict_get data "transactions" (PyList []) = PyList txns)
    by (unfold PyObj.dict_get; rewrite Hts; reflexivity).
  rewrite Hget.
  destruct txns as [| txn txns].
  - apply Forall2_nil_inv_l in Hrows. subst rows. cbn. rewrite app_nil_r. reflexivity.
  - cbn [PyObj.truthy negb PyObj.iterate ExtractionValidator.of_exc].
    unfold ExtractionValidator.bind at 1, ExtractionValidator.pure_step.
    apply (progression_loop_rows (txn :: txns) rows 0 _ opening true issues Hrows Hopening).
Qed.

Lemma extraction_progression_is_local_witness :
  ExtractionValidator._validate_transaction_balances one_bad_row []
  = ([ExtractionValidator.issue ExtractionValidator.BALANCE_PROGRESSION "WARNING"
        (Some 1%nat)],
     ExtractionValidator.Done false).
Proof.
  apply (extraction_progression_is_local one_bad_row
           [transaction_of 0 5000 15000; transaction_of 2000 0 9000;
            transaction_of 1000 0 8000]
           [(0, 5000, 15000); (2000, 0, 9000); (1000, 0, 8000)]%float 10000%float []).
  - reflexivity.
  - repeat (apply Forall2_cons_2; [eexists; repeat split; vm_compute; reflexivity |]).
    apply Forall2_nil_2.
  - split; [vm_compute; reflexivity | exact I].
Defined.

(** *** Conversion followed by validation *)

Lemma statement_dict_fields (m : Metadata) (s : Summary) (ts : list Transaction) :
  let data := statement_dict m s ts in
  data !! "statement_period_from" = Some (py_option (statement_period_from s))
  ∧ data !! "statement_period_to" = Some (py_option (statement_period_to s))
  ∧ data !! "opening_balance" = Some (PyFloat (opening_balance s))
  ∧ data !! "closing_balance" = Some (PyFloat (closing_balance s))
  ∧ data !! "total_credits" = Some (PyFloat (total_credits s))
  ∧ data !! "total_debits" = Some (PyFloat (total_debits s)).
Proof.
  unfold statement_dict. cbn zeta.
  repeat split; rewrite !lookup_insert_ne by discriminate; apply lookup_insert_eq.
Qed.

Lemma transaction_float_row (t : Transaction) :
  float_row (PyDict (transaction_dict t)) (debit t, credit t, balance t).
Proof.
  exists (transaction_dict t). split; [reflexivity |].
  unfold transaction_dict, PyObj.dict_get.
  rewrite !lookup_insert_ne by discriminate. rewrite lookup_insert_eq.
  split; [reflexivity |].
  rewrite !lookup_insert_ne by discriminate. rewrite lookup_insert_eq.
  split; [reflexivity |].
  rewrite !lookup_insert_ne by discriminate. rewrite lookup_insert_eq. reflexivity.
Qed.

Lemma process_row_dated
    (pd : string -> option Timestamp) (column_mapping : gmap string nat)
    (st st' : Extraction) (row : list Cell) :
  process_row pd column_mapping st row = Ok st' →
  transactions st' = transactions st
  ∨ ∃ t, date t ≠ "" ∧ transactions st' = (transactions st ++ [t])%list.
Proof.
  unfold process_row. intros H.
  destruct (forallb isna row); [injection H as <-; left; reflexivity |].
  bind_inv H.
  destruct (isna a); [injection H as <-; left; reflexivity |].
  destruct (_parse_date pd a) as [[| c parsed] |].
  - injection H as <-. left. reflexivity.
  - bind_inv H. injection H as <-. right. exists a0. split; [| reflexivity].
    apply build_transaction_ok in Ha0 as [-> _]. discriminate.
  - injection H as <-. left. reflexivity.
Qed.

Lemma extracted_dates_nonempty
    (pd : string -> option Timestamp) (rows : DataFrame)
    (column_mapping : gmap string nat) (ts : list Transaction) :
  _extract_transactions pd rows column_mapping = Ok ts →
  Forall (fun t => date t ≠ "") ts.
Proof.
  unfold _extract_transactions. intros H. bind_inv H. injection H as <-.
  assert (Hgen : ∀ st st', extract_loop pd column_mapping rows st = Ok st' →
                   Forall (fun t => date t ≠ "") (transactions st) →
                   Forall (fun t => date t ≠ "") (transactions st')).
  { clear. induction rows as [| row rows IH]; intros st st' H Hst.
    - injection H as <-. exact Hst.
    - cbn [extract_loop] in H. bind_inv H. apply (IH _ _ H).
      apply process_row_dated in Ha as [-> | (t & Ht & ->)]; [exact Hst |].
      apply Forall_app. split; [exact Hst | constructor; [exact Ht | constructor]]. }
  apply (Hgen _ _ Ha). constructor.
Qed.

Lemma summary_period (ts : list Transaction) :
  ts ≠ [] → Forall (fun t => date t ≠ "") ts →
  ∃ first last,
    statement_period_from (_calculate_summary ts) = Some first
    ∧ statement_period_to (_calculate_summary ts) = Some last.
Proof.
  intros Hne Hall. destruct ts as [| t ts]; [done |].
  cbn [_calculate_summary statement_period_from statement_period_to].
  assert (Hfilter : filter (fun t => negb (String.eqb (date t) "")) (t :: ts) = t :: ts).
  { clear Hne. induction Hall as [| x l Hx _ IH]; [reflexivity |].
    rewrite filter_cons_True; [rewrite IH; reflexivity |].
    destruct (String.eqb_spec (date x) ""); [contradiction | exact I]. }
  rewrite Hfilter. rewrite fmap_cons. cbn [head].
  destruct (last (date t :: (date <$> ts))) as [l |] eqn:Hl; [eauto |].
  apply last_None in Hl. discriminate.
Qed.

(** A method appends issues that satisfy [P] and nothing else; [runs]
    says in addition that it returns. *)
Definition appends {A : Type} (P : ExtractionValidator.ValidationIssue -> Prop)
    (m : ExtractionValidator.Run A) : Prop :=
  ∀ issues, ∃ new r, m issues = ((issues ++ new)%list, r) ∧ Forall P new.

Definition runs {A : Type} (P : ExtractionValidator.ValidationIssue -> Prop)
    (m : ExtractionValidator.Run A) : Prop :=
  ∀ issues, ∃ new a,
    m issues = ((issues ++ new)%list, ExtractionValidator.Done a) ∧ Forall P new.

Lemma runs_appends {A : Type} P (m : ExtractionValidator.Run A) : runs P m → appends P m.
Proof. intros H issues. destruct (H issues) as (new & a & Hm & Hnew). eauto. Qed.

Lemma runs_ret {A : Type} P (a : A) : runs P (ExtractionValidator.ret a).
Proof. intros issues. exists [], a. rewrite app_nil_r. split; [reflexivity | constructor]. Qed.

Lemma runs_append (P : ExtractionValidator.ValidationIssue -> Prop) x :
  P x → runs P (ExtractionValidator.append x).
Proof. intros Hx issues. exists [x], tt. split; [reflexivity | repeat constructor; exact Hx]. Qed.

Lemma appends_pure_step {A : Type} P (o : ExtractionValidator.Outcome A) :
  appends P (ExtractionValidator.pure_step o).
Proof. intros issues. exists [], o. rewrite app_nil_r. split; [reflexivity | constructor]. Qed.

Lemma runs_pure_done {A : Type} P (a : A) :
  runs P (ExtractionValidator.pure_step (ExtractionValidator.Done a)).
Proof. intros issues. exists [], a. rewrite app_nil_r. split; [reflexivity | constructor]. Qed.

Lemma runs_bind {A B : Type} P (m : ExtractionValidator.Run A)
    (k : A -> ExtractionValidator.Run B) :
  runs P m → (∀ a, runs P (k a)) → runs P (ExtractionValidator.bind m k).
Proof.
  intros Hm Hk issues. unfold ExtractionValidator.bind.
  destruct (Hm issues) as (new & a & -> & Hnew).
  destruct (Hk a (issues ++ new)%list) as (new' & b & -> & Hnew').
  exists (new ++ new')%list, b. rewrite app_assoc. split; [reflexivity |].
  apply Forall_app; split; assumption.
Qed.

Lemma appends_bind {A B : Type} P (m : ExtractionValidator.Run A)
    (k : A -> ExtractionValidator.Run B) :
  appends P m → (∀ a, appends P (k a)) → appends P (ExtractionValidator.bind m k).
Proof.
  intros Hm Hk issues. unfold ExtractionValidator.bind.
  destruct (Hm issues) as (new & r & -> & Hnew).
  destruct r as [a | f].
  - destruct (Hk a (issues ++ new)%list) as (new' & r' & -> & Hnew').
    exists (new ++ new')%list, r'. rewrite app_assoc. split; [reflexivity |].
    apply Forall_app; split; assumption.
  - exists new, (ExtractionValidator.Fails f). split; [reflexivity | exact Hnew].
Qed.

(** A [try] whose handler catches everything and returns always
    returns. *)
Lemma runs_try_all {A : Type} P (m handler : ExtractionValidator.Run A) :
  appends P m → runs P handler →
  runs P (ExtractionValidator.try_except m (fun _ => true) handler).
Proof.
  intros Hm Hh issues. unfold ExtractionValidator.try_except.
  destruct (Hm issues) as (new & r & -> & Hnew).
  destruct r as [a | f].
  - exists new, a. split; [reflexivity | exact Hnew].
  - destruct (Hh (issues ++ new)%list) as (new' & b & -> & Hnew').
    exists (new ++ new')%list, b. rewrite app_assoc. split; [reflexivity |].
    apply Forall_app; split; assumption.
Qed.

Lemma runs_try {A : Type} P (m handler : ExtractionValidator.Run A)
    (handled : ExtractionValidator.Failure -> bool) :
  runs P m → runs P (ExtractionValidator.try_except m handled handler).
Proof.
  intros Hm issues. unfold ExtractionValidator.try_except.
  destruct (Hm issues) as (new & a & -> & Hnew). eauto.
Qed.

(** The issues of the date check. *)
Definition date_issue (x : ExtractionValidator.ValidationIssue) : Prop :=
  ExtractionValidator.issue_type x = ExtractionValidator.DATE_FORMAT_ERROR
  ∨ ExtractionValidator.issue_type x = ExtractionValidator.DATE_ORDER_ERROR
  ∨ ExtractionValidator.issue_type x = ExtractionValidator.FUTURE_DATE.

Lemma dates_loop_appends
    (today : Timestamp) (txns : list PyVal) (i : nat) (prev : option Timestamp) :
  appends date_issue (ExtractionValidator.dates_loop today i txns prev).
Proof.
  revert i prev. induction txns as [| txn txns IH]; intros i prev;
    cbn [ExtractionValidator.dates_loop].
  - apply runs_appends, runs_ret.
  - apply appends_bind; [apply appends_pure_step |]. intros txn_date_str.
    destruct (ExtractionValidator._parse_date txn_date_str) as [txn_date |].
    + apply appends_bind.
      { destruct (ExtractionValidator.date_lt today txn_date);
          apply runs_appends; [apply runs_append | apply runs_ret].
        right. right. reflexivity. }
      intros _. apply appends_bind; [| intros _; apply IH].
      destruct prev as [p |]; [| apply runs_appends, runs_ret].
      destruct (ExtractionValidator.date_lt txn_date p);
        apply runs_appends; [apply runs_append | apply runs_ret].
      right. left. reflexivity.
    + apply appends_bind; [| intros _; apply IH].
      apply runs_appends, runs_append. left. reflexivity.
Qed.

(** The date check never raises and appends date issues only, on every
    dictionary. *)
Lemma validate_dates_runs (today : Timestamp) (data : gmap string PyVal) :
  runs date_issue (ExtractionValidator._validate_dates today data).
Proof.
  unfold ExtractionValidator._validate_dates.
  apply runs_try_all; [| apply runs_ret].
  apply appends_bind.
  - destruct (ExtractionValidator._parse_date _) as [from_date |];
      [| apply runs_appends, runs_ret].
    destruct (ExtractionValidator._parse_date _) as [to_date |];
      [| apply runs_appends, runs_ret].
    destruct (ExtractionValidator.date_lt to_date from_date);
      apply runs_appends; [apply runs_append | apply runs_ret].
    right. left. reflexivity.
  - intros _. apply appends_bind; [apply appends_pure_step |].
    intros txns. apply dates_loop_appends.
Qed.

Definition missing_field : ExtractionValidator.ValidationIssue :=
  ExtractionValidator.issue ExtractionValidator.MISSING_REQUIRED_FIELD "ERROR" None.

Lemma completeness_of_statement
    (m : Metadata) (s : Summary) (ts : list Transaction)
    (issues : list ExtractionValidator.ValidationIssue) :
  ExtractionValidator._validate_completeness (statement_dict m s ts) issues
  = ((issues
      ++ (match statement_period_from s with None => [missing_field] | Some _ => [] end
          ++ match statement_period_to s with None => [missing_field] | Some _ => [] end))%list,
     ExtractionValidator.Done tt).
Proof.
  destruct (statement_dict_fields m s ts) as (Hfrom & Hto & Hopening & Hclosing & _).
  destruct (statement_dict_transactions m s ts) as [Hts Hcount].
  unfold ExtractionValidator._validate_completeness, ExtractionValidator.REQUIRED_FIELDS.
  cbn [ExtractionValidator.report_missing].
  unfold ExtractionValidator.missing, PyObj.dict_get.
  rewrite Hfrom, Hto, Hopening, Hclosing, Hts, Hcount.
  destruct (statement_period_from s), (statement_period_to s);
    cbn [py_option ExtractionValidator.bind ExtractionValidator.append
         ExtractionValidator.ret ExtractionValidator.pure_step
         DateSequencingValidator.len ExtractionValidator.of_exc
         ExtractionValidator.differs];
    rewrite length_fmap, Z.eqb_refl; cbn [negb ExtractionValidator.ret app];
    rewrite ?app_nil_r, <- ?app_assoc; reflexivity.
Qed.

(** The issues of the balance check. *)
Definition balance_issue (x : ExtractionValidator.ValidationIssue) : Prop :=
  ExtractionValidator.issue_type x = ExtractionValidator.BALANCE_MISMATCH
  ∨ ExtractionValidator.issue_type x = ExtractionValidator.BALANCE_PROGRESSION.

Lemma progression_issues_balance (first : nat) (offs : list bool) :
  Forall balance_issue (progression_issues first offs).
Proof.
  unfold progression_issues. apply Forall_forall. intros x Hx.
  apply list_elem_of_omap in Hx as ([i flagged] & _ & Hx).
  destruct flagged; [| discriminate]. injection Hx as <-. right. reflexivity.
Qed.

Lemma reconciliation_of_statement (m : Metadata) (s : Summary) (ts : list Transaction) :
  runs balance_issue
    (ExtractionValidator._validate_balance_reconciliation (statement_dict m s ts)).
Proof.
  destruct (statement_dict_fields m s ts)
    as (_ & _ & Hopening & Hclosing & Hcredits & Hdebits).
  destruct (statement_dict_transactions m s ts) as [Hts _].
  unfold ExtractionValidator._validate_balance_reconciliation.
  apply runs_try.
  unfold PyObj.dict_get. rewrite Hopening, Hclosing, Hcredits, Hdebits.
  cbn [ExtractionValidator.to_float].
  do 4 (apply runs_bind; [apply runs_pure_done |]; intros ?).
  apply runs_bind.
  { destruct (PrimFloat.leb _ _); [apply runs_ret | apply runs_append].
    left. reflexivity. }
  intros _. apply runs_bind; [| intros ?; apply runs_ret].
  intros issues.
  unfold ExtractionValidator._validate_transaction_balances, PyObj.dict_get.
  rewrite Hts, Hopening.
  destruct ts as [| t ts].
  { exists [], true. rewrite app_nil_r. split; [reflexivity | constructor]. }
  rewrite fmap_cons.
  cbn [PyObj.truthy negb PyObj.iterate ExtractionValidator.of_exc].
  unfold ExtractionValidator.bind at 1, ExtractionValidator.pure_step.
  rewrite <- fmap_cons.
  rewrite (progression_loop_rows _
             ((fun t => (debit t, credit t, balance t)) <$> (t :: ts)) 0
             (PyFloat (opening_balance s)) (opening_balance s) true issues).
  - cbn zeta. eexists _, _. split; [reflexivity | apply progression_issues_balance].
  - clear. induction (t :: ts) as [| x l IH]; [constructor |].
    rewrite !fmap_cons. constructor; [apply transaction_float_row | exact IH].
  - split; [reflexivity | exact I].
Qed.

(** X17: [process_excel] on a frame with at least one row whose rows
    all have the same positive width: conversion and validation both
    return (the answer is never [success: False]); the validation reports
    no transaction_count_mismatch; and it reports a missing required field
    exactly when no transaction was extracted, in which case its issues
    are the two missing period dates and the level is CRITICAL_ERRORS. *)
Theorem process_excel_on_rectangular_frame
    (pd : string -> option Timestamp) (today : Timestamp) (df : DataFrame) (width : nat) :
  df ≠ [] → (0 < width)%nat → Forall (fun row => length row = width) df →
  ∃ data v,
    DirectExcelProcessor.process_excel pd today df = Some (data, v)
    ∧ convert pd df = Ok data
    ∧ Forall (fun x => ExtractionValidator.issue_type x
                       ≠ ExtractionValidator.TRANSACTION_COUNT_MISMATCH)
        (ExtractionValidator.issues v)
    ∧ ((∃ x, x ∈ ExtractionValidator.issues v
             ∧ ExtractionValidator.issue_type x = ExtractionValidator.MISSING_REQUIRED_FIELD)
       ↔ data !! "transactions" = Some (PyList []))
    ∧ (data !! "transactions" = Some (PyList []) →
       ExtractionValidator.issues v = [missing_field; missing_field]
       ∧ ExtractionValidator.is_valid v = false
       ∧ ExtractionValidator.validation_level v = ExtractionValidator.CRITICAL_ERRORS).
Proof.
  intros Hne Hw Hrect.
  destruct (convert_returns pd df width Hne Hw Hrect) as [data Hdata].
  pose proof Hdata as Hparts.
  apply convert_inv in Hparts
    as (header_row & column_mapping & m & ts & _ & _ & Ht & ->).
  exists (statement_dict m (_calculate_summary ts) ts).
  destruct (statement_dict_transactions m (_calculate_summary ts) ts) as [Hts _].
  unfold DirectExcelProcessor.process_excel. rewrite Hdata, Hts.
  destruct ts as [| t ts].
  - (* nothing extracted *)
    eexists. split; [vm_compute; reflexivity |]. split; [reflexivity |].
    cbn [ExtractionValidator.issues ExtractionValidator.is_valid
         ExtractionValidator.validation_level].
    split; [repeat constructor; discriminate |]. split; [| done].
    split; [reflexivity |]. intros _. exists missing_field.
    split; [left | reflexivity].
  - (* at least one transaction *)
    set (s := _calculate_summary (t :: ts)).
    destruct (summary_period (t :: ts) ltac:(done) (extracted_dates_nonempty _ _ _ _ Ht))
      as (first & last & Hfrom & Hto).
    fold s in Hfrom, Hto.
    unfold ExtractionValidator.validate.
    unfold ExtractionValidator.bind at 1.
    rewrite completeness_of_statement, Hfrom, Hto. cbn [app].
    unfold ExtractionValidator.bind at 1.
    destruct (reconciliation_of_statement m s (t :: ts) []) as (bal & [] & -> & Hbal).
    destruct (validate_dates_runs today (statement_dict m s (t :: ts)) ([] ++ bal)%list)
      as (dat & [] & -> & Hdat).
    eexists. split; [reflexivity |]. split; [reflexivity |].
    cbn [ExtractionValidator.issues].
    assert (Hall : Forall (fun x => balance_issue x ∨ date_issue x) (([] ++ bal) ++ dat)%list).
    { apply Forall_app. split; [apply Forall_app; split; [constructor |] |].
      - eapply Forall_impl; [exact Hbal | auto].
      - eapply Forall_impl; [exact Hdat | auto]. }
    split; [| split; [| intros [=]]].
    + eapply Forall_impl; [exact Hall |]. unfold balance_issue, date_issue.
      intros x Hx Heq. rewrite Heq in Hx. intuition discriminate.
    + split; [| intros [=]].
      intros (x & Hx & Heq). rewrite Forall_forall in Hall. specialize (Hall x Hx).
      unfold balance_issue, date_issue in Hall. rewrite Heq in Hall. intuition discriminate.
Qed.

Lemma process_excel_on_rectangular_frame_witness :
  ∃ data v,
    DirectExcelProcessor.process_excel dayfirst_dashed (day_of_2024 6 1)
      (scenario_grid AsText DateAsText 13000) = Some (data, v)
    ∧ convert dayfirst_dashed (scenario_grid AsText DateAsText 13000) = Ok data
    ∧ Forall (fun x => ExtractionValidator.issue_type x
                       ≠ ExtractionValidator.TRANSACTION_COUNT_MISMATCH)
        (ExtractionValidator.issues v)
    ∧ ((∃ x, x ∈ ExtractionValidator.issues v
             ∧ ExtractionValidator.issue_type x = ExtractionValidator.MISSING_REQUIRED_FIELD)
       ↔ data !! "transactions" = Some (PyList []))
    ∧ (data !! "transactions" = Some (PyList []) →
       ExtractionValidator.issues v = [missing_field; missing_field]
       ∧ ExtractionValidator.is_valid v = false
       ∧ ExtractionValidator.validation_level v = ExtractionValidator.CRITICAL_ERRORS).
Proof.
  apply (process_excel_on_rectangular_frame dayfirst_dashed (day_of_2024 6 1)
           (scenario_grid AsText DateAsText 13000) 5).
  - discriminate.
  - lia.
  - repeat (apply Forall_cons_2; [reflexivity |]). apply Forall_nil_2.
Defined.

(** The scenario of the specification passes the extraction validator. *)
Example scenario_process_excel :
  (fun r => (ExtractionValidator.validation_level r.2, ExtractionValidator.issues r.2))
  <$> DirectExcelProcessor.process_excel dayfirst_dashed (day_of_2024 6 1)
        (scenario_grid AsText DateAsText 13000)
  = Some (ExtractionValidator.PASSED, []).
Proof. vm_compute. reflexivity. Qed.

(** ** What can make the extraction validator raise *)

















(** The validation of an extraction whose transactions are [None] raises
    the [TypeError] of [len]. *)
Example validate_transactions_none :
  ExtractionValidator.validate (day_of_2024 6 1) (<["transactions" := PyNone]> ∅)
  = ExtractionValidator.Fails (ExtractionValidator.Builtin TypeError).
Proof. vm_compute. reflexivity. Qed.

(** ** The checks across statements *)

(** What the continuity check reads in a statement: the closing and the
    opening balance, each absent ([None]) or a number of hundredths below
    10^27. *)
Definition balances (statement : PyVal) (entry : option Z * option Z) : Prop :=
  ∃ fields : gmap string PyVal,
    statement = PyDict fields
    ∧ _to_decimal (PyObj.dict_get fields "closing_balance" PyNone)
      = Ok ((fun z => Fin z (-2)) <$> entry.1)
    ∧ _to_decimal (PyObj.dict_get fields "opening_balance" PyNone)
      = Ok ((fun z => Fin z (-2)) <$> entry.2)
    ∧ from_option (fun z => Z.abs z < 10 ^ 27) True entry.1
    ∧ from_option (fun z => Z.abs z < 10 ^ 27) True entry.2.

(** The number of consecutive pairs whose balances are both present and
    differ by more than the tolerance. *)
Fixpoint breaks (tol : Z) (entries : list (option Z * option Z)) : nat :=
  match entries with
  | [] => 0%nat
  | current :: rest =>
      match rest with
      | [] => 0%nat
      | next_stmt :: _ =>
          let broken :=
            match current.1, next_stmt.2 with
            | Some closing, Some opening =>
                if tol <? Z.abs (closing - opening) then 1%nat else 0%nat
            | _, _ => 0%nat
            end in
          (broken + breaks tol rest)%nat
      end
  end.

Definition discontinuity : ValidationError :=
  BalanceValidator.mk_error CROSS_DOC_INCONSISTENCY ERROR None None None None.

Lemma continuity_loop_step
    (self : BalanceValidator) (current next_stmt : PyVal) (rest : list PyVal)
    (result : ValidationResult) :
  BalanceContinuity.continuity_loop self (current :: next_stmt :: rest) result
  = (closing_value ← PyObj.get current "closing_balance" PyNone;
     current_closing ← _to_decimal closing_value;
     opening_value ← PyObj.get next_stmt "opening_balance" PyNone;
     next_opening ← _to_decimal opening_value;
     match current_closing, next_opening with
     | Some current_closing, Some next_opening =>
         over ← gt (abs (sub current_closing next_opening)) (tolerance self);
         BalanceContinuity.continuity_loop self (next_stmt :: rest)
           (if over : bool then add_error result discontinuity else result)
     | _, _ => BalanceContinuity.continuity_loop self (next_stmt :: rest) result
     end).
Proof. reflexivity. Qed.

Lemma breaks_step (tol : Z) (current next_stmt : option Z * option Z)
    (rest : list (option Z * option Z)) :
  breaks tol (current :: next_stmt :: rest)
  = ((match current.1, next_stmt.2 with
      | Some closing, Some opening =>
          if (tol <? Z.abs (closing - opening))%Z then 1 else 0
      | _, _ => 0
      end) + breaks tol (next_stmt :: rest))%nat.
Proof. reflexivity. Qed.

Lemma continuity_loop_counts
    (self : BalanceValidator) (tol : Z) (statements : list PyVal)
    (entries : list (option Z * option Z)) :
  tolerance self = Fin tol (-2) →
  Forall2 balances statements entries →
  ∀ result,
    BalanceContinuity.continuity_loop self statements result
    = Ok (foldl add_error result (replicate (breaks tol entries) discontinuity)).
Proof.
  intros Htol H. induction H as [| current entry rest entries' Hc Hrest IH];
    intros result; [reflexivity |].
  destruct Hrest as [| next_stmt entry' rest' entries'' Hn Hrest']; [reflexivity |].
  rewrite continuity_loop_step, breaks_step.
  destruct Hc as (fields & -> & Hclosing & _ & Hcb & _).
  destruct Hn as (fields' & -> & _ & Hopening & _ & Hob).
  cbn [PyObj.get]. unfold mbind, exc_bind. cbn [bind].
  rewrite Hclosing. cbn [bind]. rewrite Hopening. cbn [bind].
  destruct entry as [[c |] o0], entry' as [c0 [o |]]; cbn [fst snd fmap option_fmap option_map];
    cbn [fst snd from_option] in Hcb, Hob; try (rewrite IH; reflexivity).
  rewrite sub_cents by lia. rewrite abs_cents by lia. rewrite Htol, gt_cents. cbn [bind].
  rewrite IH. destruct (tol <? Z.abs (c - o)); reflexivity.
Qed.

Section Sorted.

Variable sorted : (PyVal -> Exc PyVal) -> list PyVal -> Exc (list PyVal).

(** X19: the continuity check across statements compares each statement
    only with the one after it, in the order checked ([ordered]: the
    statements as [sorted] returns them, or as given when [sort_by_date]
    is false).  When the statements are dictionaries whose balances are
    absent or numbers of hundredths below 10^27, and the tolerance is a
    number of hundredths, the check returns a result that holds one
    CROSS_DOC_INCONSISTENCY error for every consecutive pair whose closing
    and next opening balance are both present and differ by more than the
    tolerance, and nothing else; a pair with a missing balance is
    skipped. *)
Theorem continuity_counts_consecutive_breaks
    (self : BalanceValidator) (tol : Z) (statements ordered : list PyVal)
    (sort_by_date : bool) (entries : list (option Z * option Z)) :
  tolerance self = Fin tol (-2) →
  (2 ≤ length statements)%nat →
  (if sort_by_date
   then sorted (fun s => PyObj.get s "statement_period_to" (PyStr "1900-01-01")) statements
   else Ok statements) = Ok ordered →
  Forall2 balances ordered entries →
  BalanceContinuity.validate_multi_statement_continuity sorted self statements sort_by_date
  = Ok (foldl add_error (new_result "balance_validator_multi")
          (replicate (breaks tol entries) discontinuity)).
Proof.
  intros Htol Hlen Hsorted Hentries.
  unfold BalanceContinuity.validate_multi_statement_continuity.
  destruct (Nat.ltb_spec (length statements) 2) as [Hlt | _]; [lia |].
  cbn zeta. unfold mbind, exc_bind. rewrite Hsorted. cbn [bind].
  apply (continuity_loop_counts self tol ordered entries Htol Hentries).
Qed.

End Sorted.

(** A stand-in for [sorted] on keys that are text: a stable insertion
    sort by the order of the texts; any other key is a [TypeError]. *)
Fixpoint insert_keyed (key : string) (item : PyVal) (items : list (string * PyVal))
  : list (string * PyVal) :=
  match items with
  | [] => [(key, item)]
  | (key', item') :: rest =>
      if String.leb key key' then (key, item) :: items
      else (key', item') :: insert_keyed key item rest
  end.

Fixpoint keyed (key : PyVal -> Exc PyVal) (items : list PyVal) : Exc (list (string * PyVal)) :=
  match items with
  | [] => Ok []
  | item :: rest =>
      k ← key item;
      match k with
      | PyStr text => rest ← keyed key rest; Ok (insert_keyed text item rest)
      | _ => Raise TypeError
      end
  end.

Definition sorted_by_text (key : PyVal -> Exc PyVal) (items : list PyVal)
  : Exc (list PyVal) :=
  items ← keyed key items; Ok (items.*2).

Definition monthly_statement (period_from period_to : string) (opening closing : Z) : PyVal :=
  PyDict (<["statement_period_from" := PyStr period_from]>
         (<["statement_period_to" := PyStr period_to]>
         (<["opening_balance" := PyInt opening]>
         (<["closing_balance" := PyInt closing]> ∅)))).

(** March, January and February of one account; February opens 50 above
    the closing balance of January. *)
Definition three_months : list PyVal :=
  [monthly_statement "2024-03-01" "2024-03-31" 1250 900;
   monthly_statement "2024-01-01" "2024-01-31" 1000 1200;
   monthly_statement "2024-02-01" "2024-02-29" 1250 1250].

Lemma continuity_counts_consecutive_breaks_witness :
  BalanceContinuity.validate_multi_statement_continuity sorted_by_text
    get_balance_validator three_months true
  = Ok (add_error (new_result "balance_validator_multi") discontinuity).
Proof.
  apply (continuity_counts_consecutive_breaks sorted_by_text get_balance_validator 1
           three_months
           [monthly_statement "2024-01-01" "2024-01-31" 1000 1200;
            monthly_statement "2024-02-01" "2024-02-29" 1250 1250;
            monthly_statement "2024-03-01" "2024-03-31" 1250 900]
           true
           [(Some 120000, Some 100000); (Some 125000, Some 125000);
            (Some 90000, Some 125000)]).
  - reflexivity.
  - cbn. lia.
  - vm_compute. reflexivity.
  - repeat (apply Forall2_cons_2;
      [eexists; split; [reflexivity |];
       split; [vm_compute; reflexivity |];
       split; [vm_compute; reflexivity |];
       split; cbn; lia |]).
    apply Forall2_nil_2.
Defined.

Section StatementPeriods.

Variable DateTime : Type.
Variable datetime_of_text : string -> option DateTime.
Variable lt : DateTime -> DateTime -> Exc bool.
Variable days_between : DateTime -> DateTime -> Exc Z.
Variable sorted : (PyVal -> Exc PyVal) -> list PyVal -> Exc (list PyVal).

(** Naive datetimes: a position [ord] on the time line, in units of which
    [day] make a day; the order never raises and the days of a difference
    are the whole days, rounded down. *)
Variable ord : DateTime -> Z.
Variable day : Z.
Hypothesis day_positive : 0 < day.
Hypothesis lt_by_ord : ∀ a b, lt a b = Ok (ord a <? ord b).
Hypothesis days_by_ord : ∀ a b, days_between a b = Ok ((ord a - ord b) / day).

(** What the period check reads in a statement: the start and the end of
    the period, as [_parse_date] reads them. *)
Definition period (statement : PyVal) (entry : option DateTime * option DateTime) : Prop :=
  ∃ fields : gmap string PyVal,
    statement = PyDict fields
    ∧ DateSequencingValidator._parse_date DateTime datetime_of_text
        (PyObj.dict_get fields "statement_period_from" PyNone) = entry.1
    ∧ DateSequencingValidator._parse_date DateTime datetime_of_text
        (PyObj.dict_get fields "statement_period_to" PyNone) = entry.2.

Definition overlap : Call :=
  AddError (DateSequencingValidator.mk_error CROSS_DOC_INCONSISTENCY None None).

Definition statement_gap : Call :=
  AddWarning (DateSequencingValidator.mk_warning "statement_gap" None []).

(** The verdict on a statement that ends at [current_to] and the next one,
    which starts at [next_from]. *)
Definition verdict (current_to next_from : option DateTime) : list Call :=
  match current_to, next_from with
  | Some current_to, Some next_from =>
      if ord next_from <=? ord current_to then [overlap]
      else if 9 * day <=? ord next_from - ord current_to then [statement_gap]
      else []
  | _, _ => []
  end.

Fixpoint verdicts (entries : list (option DateTime * option DateTime)) : list Call :=
  match entries with
  | [] => []
  | current :: rest =>
      match rest with
      | [] => []
      | next_stmt :: _ => verdict current.2 next_stmt.1 ++ verdicts rest
      end
  end.

Lemma periods_loop_step (current next_stmt : PyVal) (rest : list PyVal)
    (result : ValidationResult) :
  PeriodContinuity.periods_loop DateTime datetime_of_text lt days_between
    (current :: next_stmt :: rest) result
  = (to_value ← PyObj.get current "statement_period_to" PyNone;
     from_value ← PyObj.get next_stmt "statement_period_from" PyNone;
     match DateSequencingValidator._parse_date DateTime datetime_of_text to_value,
           DateSequencingValidator._parse_date DateTime datetime_of_text from_value with
     | Some current_to, Some next_from =>
         overlapping ← DateSequencingValidator.le DateTime lt next_from current_to;
         result ←
           (if overlapping : bool then
              _ ← days_between current_to next_from;
              Ok (call result overlap)
            else Ok result);
         days ← days_between next_from current_to;
         PeriodContinuity.periods_loop DateTime datetime_of_text lt days_between
           (next_stmt :: rest)
           (if 7 <? days - 1 then call result statement_gap else result)
     | _, _ =>
         PeriodContinuity.periods_loop DateTime datetime_of_text lt days_between
           (next_stmt :: rest) result
     end).
Proof. reflexivity. Qed.

Lemma verdicts_step (current next_stmt : option DateTime * option DateTime)
    (rest : list (option DateTime * option DateTime)) :
  verdicts (current :: next_stmt :: rest)
  = (verdict current.2 next_stmt.1 ++ verdicts (next_stmt :: rest))%list.
Proof. reflexivity. Qed.

Lemma periods_loop_verdicts (statements : list PyVal)
    (entries : list (option DateTime * option DateTime)) :
  Forall2 period statements entries →
  ∀ result,
    PeriodContinuity.periods_loop DateTime datetime_of_text lt days_between statements result
    = Ok (foldl call result (verdicts entries)).
Proof.
  intros H. induction H as [| current entry rest entries' Hc Hrest IH];
    intros result; [reflexivity |].
  destruct Hrest as [| next_stmt entry' rest' entries'' Hn Hrest']; [reflexivity |].
  rewrite periods_loop_step, verdicts_step, foldl_app.
  destruct Hc as (fields & -> & _ & Hto).
  destruct Hn as (fields' & -> & Hfrom & _).
  cbn [PyObj.get]. unfold mbind, exc_bind. cbn [bind]. rewrite Hto, Hfrom.
  unfold verdict.
  destruct entry.2 as [current_to |]; [| apply IH].
  destruct entry'.1 as [next_from |]; [| apply IH].
  unfold DateSequencingValidator.le, fmap, exc_fmap. rewrite lt_by_ord, !days_by_ord.
  cbn [bind].
  pose proof (Z.div_mod (ord next_from - ord current_to) day ltac:(lia)) as Hdiv.
  pose proof (Z.mod_pos_bound (ord next_from - ord current_to) day day_positive) as Hmod.
  destruct (Z.ltb_spec (ord current_to) (ord next_from)) as [Hlt | Hge];
    cbn [negb bind].
  - destruct (Z.leb_spec (ord next_from) (ord current_to)) as [| _]; [lia |].
    rewrite IH.
    destruct (Z.leb_spec (9 * day) (ord next_from - ord current_to)) as [Hgap | Hnear];
      destruct (Z.ltb_spec 7 ((ord next_from - ord current_to) / day - 1)) as [Hd | Hd];
      try reflexivity; exfalso; nia.
  - destruct (Z.leb_spec (ord next_from) (ord current_to)) as [_ |]; [| lia].
    rewrite IH.
    destruct (Z.ltb_spec 7 ((ord next_from - ord current_to) / day - 1)) as [Hd | Hd];
      [exfalso; nia | reflexivity].
Qed.

(** X20: the period check across statements compares each statement only
    with the one after it, in the order checked.  For dictionaries with
    naive dates it never raises, and every consecutive pair whose dates
    both parse gets at most one issue: a CROSS_DOC_INCONSISTENCY error
    exactly when the next period starts at or before the end of the
    current one (a start on the day of the end counts as an overlap), a
    statement_gap warning exactly when it starts nine days or more after
    that end, and nothing in between; a pair with a date that does not
    parse is skipped. *)
Theorem periods_overlap_or_gap
    (statements ordered : list PyVal) (sort_by_date : bool)
    (entries : list (option DateTime * option DateTime)) :
  (2 ≤ length statements)%nat →
  (if sort_by_date
   then sorted (fun s => PyObj.get s "statement_period_from" (PyStr "1900-01-01")) statements
   else Ok statements) = Ok ordered →
  Forall2 period ordered entries →
  PeriodContinuity.validate_multi_statement_periods DateTime datetime_of_text lt
    days_between sorted statements sort_by_date
  = Ok (foldl call (new_result "date_sequencing_validator_multi") (verdicts entries)).
Proof.
  intros Hlen Hsorted Hentries.
  unfold PeriodContinuity.validate_multi_statement_periods.
  destruct (Nat.ltb_spec (length statements) 2) as [Hlt | _]; [lia |].
  cbn zeta. unfold mbind, exc_bind. rewrite Hsorted. cbn [bind].
  apply (periods_loop_verdicts ordered entries Hentries).
Qed.

End StatementPeriods.

(** A statement for January, one that starts on the day January ends, and
    one that starts fifteen days after the second ends, out of order. *)
Definition overlap_and_gap : list PyVal :=
  [monthly_statement "2024-03-15" "2024-03-31" 1250 900;
   monthly_statement "2024-01-01" "2024-01-31" 1000 1200;
   monthly_statement "2024-01-31" "2024-02-29" 1200 1250].

Lemma periods_overlap_or_gap_witness :
  PeriodContinuity.validate_multi_statement_periods Timestamp iso_date earlier days_apart
    sorted_by_text overlap_and_gap true
  = Ok (add_warning
          (add_error (new_result "date_sequencing_validator_multi")
             (DateSequencingValidator.mk_error CROSS_DOC_INCONSISTENCY None None))
          (DateSequencingValidator.mk_warning "statement_gap" None [])).
Proof.
  apply (periods_overlap_or_gap Timestamp iso_date earlier days_apart sorted_by_text
           day_number 1 ltac:(lia) (fun a b => eq_refl)
           (fun a b => f_equal Ok (eq_sym (Z.div_1_r (day_number a - day_number b))))
           overlap_and_gap
           [monthly_statement "2024-01-01" "2024-01-31" 1000 1200;
            monthly_statement "2024-01-31" "2024-02-29" 1200 1250;
            monthly_statement "2024-03-15" "2024-03-31" 1250 900]
           true
           [(Some (day_of_2024 1 1), Some (day_of_2024 1 31));
            (Some (day_of_2024 1 31), Some (day_of_2024 2 29));
            (Some (day_of_2024 3 15), Some (day_of_2024 3 31))]).
  - cbn. lia.
  - vm_compute. reflexivity.
  - repeat (apply Forall2_cons_2;
            [eexists; split; [reflexivity | split; vm_compute; reflexivity] |]).
    apply Forall2_nil_2.
Defined.
